(** * Smart file organizer: a shallow embedding of [main.py]

    The development follows the layout of the program: path and string
    helpers, the classifier ([classify_file], [source_bucket]), the
    filesystem the program acts on, the placer ([safe_name], [move_file]),
    the index ([load_index], [save_index]), the deduplicator
    ([organize_file]), the pruner, the pass ([organize_pass]) and [main].

    Modelling conventions.
    - A [Path] is the list of its segments below the root; every path is
      absolute, normalised and free of symbolic links, so that
      [Path.resolve] is the identity.  [str] joins with "/".
    - The filesystem is a finite map from paths to nodes.  A regular file
      carries its bytes and its modification time.
    - Python exceptions are values of [exn]; code that can raise returns
      [result].  State (the filesystem, and the index dictionary that
      [organize_file] mutates in place) is passed explicitly.
    - Library functions whose code is not part of the program ([hashlib],
      [json], [datetime], directory enumeration order) are the fields of
      the class [PyLib]. *)

From Stdlib Require Import ZArith String Ascii List Bool Permutation.
From stdpp Require Import base tactics option list gmap strings pretty fin_maps sorting.

(* ===================================================================== *)
(** ** Strings as Python uses them *)
(* ===================================================================== *)

Module PyStr.

(** [c.lower()] on one ASCII character. *)
Definition lower_ascii (c : ascii) : ascii :=
  let n := nat_of_ascii c in
  if (65 <=? n)%nat && (n <=? 90)%nat then ascii_of_nat (n + 32) else c.

(** [s.lower()] *)
Fixpoint lower (s : string) : string :=
  match s with
  | EmptyString => EmptyString
  | String c s' => String (lower_ascii c) (lower s')
  end.

(** [s.startswith(p)] *)
Fixpoint startswith (p s : string) : bool :=
  match p, s with
  | EmptyString, _ => true
  | String _ _, EmptyString => false
  | String a p', String b s' => if Ascii.eqb a b then startswith p' s' else false
  end.

(** [needle in hay] *)
Fixpoint contains (needle hay : string) : bool :=
  startswith needle hay ||
  match hay with
  | EmptyString => false
  | String _ hay' => contains needle hay'
  end.

(** [sep.join(l)] *)
Fixpoint join (sep : string) (l : list string) : string :=
  match l with
  | [] => ""
  | [x] => x
  | x :: l' => x +:+ sep +:+ join sep l'
  end.

(** Split [s] at its last ".": the part before it and the part from the
    dot on; [None] when [s] has no dot ([s.rfind(".") = -1]). *)
Fixpoint rsplit_dot (s : string) : option (string * string) :=
  match s with
  | EmptyString => None
  | String c s' =>
      match rsplit_dot s' with
      | Some (a, b) => Some (String c a, b)
      | None => if Ascii.eqb c "."%char then Some (EmptyString, s) else None
      end
  end.

(** [s.split("/")] *)
Fixpoint split_slash (s : string) : list string :=
  match s with
  | EmptyString => [EmptyString]
  | String c s' =>
      if Ascii.eqb c "/"%char then EmptyString :: split_slash s'
      else match split_slash s' with
           | [] => [String c EmptyString]
           | x :: l => String c x :: l
           end
  end.

End PyStr.

(* ===================================================================== *)
(** ** Paths ([pathlib.Path]) *)
(* ===================================================================== *)

Abbreviation Path := (list string).

Module PyPath.

(** [p / s] *)
Definition div (p : Path) (s : string) : Path := p ++ [s].

(** [p.name]: the last segment, empty for the root. *)
Definition name (p : Path) : string := List.last p "".

(** [p.parent]: the root is its own parent. *)
Definition parent (p : Path) : Path := removelast p.

(** [p.parts] without the root anchor (which is never an ignored name). *)
Definition parts (p : Path) : list string := p.

(** [p.suffix], as [pathlib] computes it up to Python 3.13: with
    [i = name.rfind(".")], [name[i:]] when [0 < i < len(name) - 1], else
    the empty string. *)
Definition suffix (p : Path) : string :=
  match PyStr.rsplit_dot (name p) with
  | Some (a, b) =>
      if negb (String.eqb a "") && (1 <? String.length b)%nat then b else ""
  | None => ""
  end.

(** [p.stem]: the name without its [suffix]. *)
Definition stem (p : Path) : string :=
  match PyStr.rsplit_dot (name p) with
  | Some (a, b) =>
      if negb (String.eqb a "") && (1 <? String.length b)%nat then a else name p
  | None => name p
  end.

(** [str(p)] *)
Definition str (p : Path) : string := "/" +:+ PyStr.join "/" p.

(** [Path(s)]: empty and "." segments are dropped; a relative string is
    read from the root, the working directory of the model. *)
Definition of_str (s : string) : Path :=
  List.filter (fun x => negb (String.eqb x "" || String.eqb x ".")) (PyStr.split_slash s).

(** [p.resolve()]: paths are absolute and free of links. *)
Definition resolve (p : Path) : Path := p.

(** [p.relative_to(d)] does not raise [ValueError]: [d] is [p] or one of
    its ancestors. *)
Definition is_relative_to (p d : Path) : bool := bool_decide (d `prefix_of` p).

End PyPath.

Notation "p // s" := (PyPath.div p s) (at level 40, left associativity).

(* ===================================================================== *)
(** ** Classifier *)
(* ===================================================================== *)

Definition EXTENSION_MAP : list (string * list string) :=
  [ ("images", [".jpg"; ".jpeg"; ".png"; ".gif"; ".bmp"; ".webp"; ".svg"; ".heic"]);
    ("videos", [".mp4"; ".mov"; ".avi"; ".mkv"; ".webm"; ".wmv"]);
    ("audio", [".mp3"; ".wav"; ".flac"; ".aac"; ".ogg"; ".m4a"]);
    ("documents", [".pdf"; ".txt"; ".rtf"; ".md"]);
    ("spreadsheets", [".csv"; ".xls"; ".xlsx"; ".ods"]);
    ("presentations", [".ppt"; ".pptx"; ".key"; ".odp"]);
    ("archives", [".zip"; ".rar"; ".7z"; ".tar"; ".gz"; ".bz2"]);
    ("code", [".py"; ".js"; ".ts"; ".jsx"; ".tsx"; ".html"; ".css"; ".java"; ".c";
              ".cpp"; ".go"; ".rs"; ".php"; ".json"; ".yaml"; ".yml"; ".sql"]);
    ("executables", [".exe"; ".msi"; ".bat"; ".cmd"; ".ps1"]) ].

Definition IGNORED_DIRS : list string :=
  ["$recycle.bin"; "system volume information"; ".git"; "__pycache__"].

Definition INDEX_FILENAME : string := ".organizer_index.json".

(** [x in xs] for a set of strings. *)
Definition mem (x : string) (xs : list string) : bool := bool_decide (x ∈ xs).

Definition classify_file (path : Path) : string :=
  let ext := PyStr.lower (PyPath.suffix path) in
  let fix go (items : list (string * list string)) : string :=
    match items with
    | [] => "other"
    | (category, exts) :: rest => if mem ext exts then category else go rest
    end in
  go EXTENSION_MAP.

Definition source_bucket (path : Path) : string :=
  let name := PyStr.lower (PyPath.name path) in
  let parent := PyStr.lower (PyPath.str (PyPath.parent path)) in
  let ext := PyStr.lower (PyPath.suffix path) in
  if PyStr.contains "whatsapp" name || PyStr.contains "whatsapp" parent then "whatsapp"
  else if PyStr.contains "telegram" name || PyStr.contains "telegram" parent then "telegram"
  else if PyStr.contains "discord" name || PyStr.contains "discord" parent then "discord"
  else if PyStr.contains "slack" name || PyStr.contains "slack" parent then "slack"
  else if PyStr.startswith "screenshot" name || PyStr.contains "screen shot" name
          || PyStr.startswith "snip" name then "screenshots"
  else if PyStr.startswith "img_" name || PyStr.startswith "dsc_" name
          || PyStr.startswith "pxl_" name then "camera_exports"
  else if PyStr.contains "chrome" name || PyStr.contains "edge" name
          || PyStr.contains "firefox" name then "browser_downloads"
  else if mem ext [".crdownload"; ".part"] then "browser_partial_downloads"
  else if PyStr.contains "zoom" name || PyStr.contains "meeting" name
          || PyStr.contains "teams" name then "meetings"
  else if mem ext [".torrent"] then "torrent"
  else "manual_or_unknown".

(* ===================================================================== *)
(** ** Exceptions and results *)
(* ===================================================================== *)

Inductive exn :=
  | FileNotFoundError
  | IsADirectoryError
  | NotADirectoryError
  | FileExistsError
  | OSError
  | UnicodeDecodeError
  | TypeError
  | AttributeError.

(** [isinstance(e, OSError)] *)
Definition is_OSError (e : exn) : bool :=
  match e with
  | FileNotFoundError | IsADirectoryError | NotADirectoryError
  | FileExistsError | OSError => true
  | UnicodeDecodeError | TypeError | AttributeError => false
  end.

Inductive result (A : Type) :=
  | Ok (a : A)
  | Raise (e : exn).
Arguments Ok {A} a.
Arguments Raise {A} e.

(* ===================================================================== *)
(** ** Values read from the index file *)
(* ===================================================================== *)

(** What [json.loads] returns.  A dictionary keeps its keys in insertion
    order, which is the order [json.dumps] writes them in. *)
#[warnings="-register-all"]
Inductive json :=
  | JNull
  | JBool (b : bool)
  | JInt (n : Z)
  | JFloat (num : Z) (den : positive)
  | JString (s : string)
  | JArray (l : list json)
  | JObject (kv : list (string * json)).

(** [bool(v)] *)
Definition truthy (v : json) : bool :=
  match v with
  | JNull => false
  | JBool b => b
  | JInt n => negb (n =? 0)%Z
  | JFloat num _ => negb (num =? 0)%Z
  | JString s => negb (String.eqb s "")
  | JArray l => match l with [] => false | _ => true end
  | JObject kv => match kv with [] => false | _ => true end
  end.

(** [d.get(k)] on the items of a dictionary. *)
Fixpoint dict_get (kv : list (string * json)) (k : string) : option json :=
  match kv with
  | [] => None
  | (k', v) :: rest => if String.eqb k' k then Some v else dict_get rest k
  end.

(** [d[k] = v]: an existing key keeps its place, a new key goes last. *)
Fixpoint dict_set (kv : list (string * json)) (k : string) (v : json)
  : list (string * json) :=
  match kv with
  | [] => [(k, v)]
  | (k', v') :: rest =>
      if String.eqb k' k then (k', v) :: rest else (k', v') :: dict_set rest k v
  end.

(* ===================================================================== *)
(** ** Library functions *)
(* ===================================================================== *)

(** The parts of the Python library the program calls and whose result the
    model does not compute.  A text is identified with its UTF-8 encoding;
    [json.dumps] writes ASCII only. *)
Class PyLib := {
  (** [hashlib.sha256(content).hexdigest()] *)
  sha256_hexdigest : string → string;
  (** [datetime.fromtimestamp(t).strftime("%Y-%m")] *)
  strftime_Y_m : Z → string;
  (** the bytes decode as UTF-8 *)
  utf8_valid : string → bool;
  (** [json.loads]; [None] stands for [json.JSONDecodeError] *)
  json_loads : string → option json;
  (** [json.dumps(v, indent=2)] *)
  json_dumps : json → string;
  json_dumps_valid : ∀ v, utf8_valid (json_dumps v) = true;
  (** the order in which [glob] and [rglob] yield directory entries *)
  scan_order : list Path → list Path;
  scan_order_perm : ∀ l, scan_order l ≡ₚ l
}.

(* ===================================================================== *)
(** ** The filesystem *)
(* ===================================================================== *)

Inductive node :=
  | File (content : string) (mtime : Z)
  | Dir.

Abbreviation fsys := (gmap Path node).

Module FS.

(** The node at a path; the root is always a directory. *)
Definition node_at (fs : fsys) (p : Path) : option node :=
  match p with
  | [] => Some Dir
  | _ => fs !! p
  end.

(** [p.exists()] *)
Definition exists_ (fs : fsys) (p : Path) : bool :=
  match node_at fs p with Some _ => true | None => false end.

(** [p.is_file()] *)
Definition is_file (fs : fsys) (p : Path) : bool :=
  match node_at fs p with Some (File _ _) => true | _ => false end.

(** [p.is_dir()] *)
Definition is_dir (fs : fsys) (p : Path) : bool :=
  match node_at fs p with Some Dir => true | _ => false end.

(** The non-empty prefixes of a path, shortest first: its ancestors below
    the root, then the path itself. *)
Fixpoint prefixes (p : Path) : list Path :=
  match p with
  | [] => []
  | s :: p' => [s] :: ((s ::.) <$> prefixes p')
  end.

(** [p.mkdir(parents=True, exist_ok=True)]: fails when [p] or one of its
    ancestors is a regular file, otherwise creates what is missing. *)
Definition mkdir_parents (fs : fsys) (p : Path) : result fsys :=
  if is_file fs p then Raise FileExistsError
  else if existsb (is_file fs) (prefixes p) then Raise NotADirectoryError
  else Ok (foldr (λ q m, <[q := Dir]> m) fs (prefixes p)).

(** Where a path below [src] lands when [src] is renamed to [dst]. *)
Definition rebase (src dst p : Path) : Path :=
  if bool_decide (src `prefix_of` p) then dst ++ drop (length src) p else p.

(** [shutil.move(src, dst)] for a [dst] that does not exist and whose
    parent is a directory, which is how [move_file] calls it: a rename.
    A regular file keeps its content and modification time. *)
Definition shutil_move (fs : fsys) (src dst : Path) : result fsys :=
  match node_at fs src with
  | None => Raise FileNotFoundError
  | Some (File c t) => Ok (<[dst := File c t]> (delete src fs))
  | Some Dir => Ok (list_to_map (prod_map (rebase src dst) id <$> map_to_list fs))
  end.

(** Some entry lies below [d]. *)
Definition has_entries (fs : fsys) (d : Path) : bool :=
  existsb (λ k, bool_decide (d ≠ k ∧ d `prefix_of` k)) (map_to_list fs).*1.

(** [d.rmdir()]: removes an empty directory, [OSError] otherwise. *)
Definition rmdir (fs : fsys) (d : Path) : result fsys :=
  match fs !! d with
  | Some Dir => if has_entries fs d then Raise OSError else Ok (delete d fs)
  | Some (File _ _) => Raise NotADirectoryError
  | None => Raise FileNotFoundError
  end.

(** [p.read_text(encoding="utf-8")] *)
Definition read_text `{PyLib} (fs : fsys) (p : Path) : result string :=
  match node_at fs p with
  | Some (File c _) => if utf8_valid c then Ok c else Raise UnicodeDecodeError
  | Some Dir => Raise IsADirectoryError
  | None => Raise FileNotFoundError
  end.

(** [p.write_text(text, encoding="utf-8")] at time [now]. *)
Definition write_text (fs : fsys) (p : Path) (text : string) (now : Z) : result fsys :=
  match node_at fs p with
  | Some Dir => Raise IsADirectoryError
  | _ => if is_dir fs (PyPath.parent p) then Ok (<[p := File text now]> fs)
         else Raise FileNotFoundError
  end.

(** The entries strictly below [root], as [root.rglob("*")] yields them. *)
Definition rglob `{PyLib} (fs : fsys) (root : Path) : list Path :=
  scan_order (List.filter (λ k, bool_decide (root ≠ k ∧ root `prefix_of` k))
                          (map_to_list fs).*1).

(** The entries directly in [root], as [root.glob("*")] yields them. *)
Definition glob `{PyLib} (fs : fsys) (root : Path) : list Path :=
  scan_order (List.filter (λ k, bool_decide (length k = S (length root)
                                              ∧ root `prefix_of` k))
                          (map_to_list fs).*1).

End FS.

(* ===================================================================== *)
(** ** The program *)
(* ===================================================================== *)

Record Config := {
  source : Path;
  destination : Path;
  dry_run : bool;
  recursive : bool;
  keep_empty : bool;
  sort_mode : string
}.

(** One line of console output of a pass. *)
Inductive event :=
  | MOVED (file_path : Path) (target : string)
  | DUPLICATE (file_path : Path) (target : string)
  | ERROR (file_path : Path) (exc : exn).

Section Program.
Context `{PyLib}.

(** Code that reads and changes the filesystem and the index dictionary,
    and may raise: the state at the point of the exception is kept. *)
Definition M (A : Type) : Type := fsys * json → result A * (fsys * json).

#[local] Instance M_ret : MRet M := λ A a s, (Ok a, s).
#[local] Instance M_bind : MBind M := λ A B f m s,
  match m s with
  | (Ok a, s') => f a s'
  | (Raise e, s') => (Raise e, s')
  end.

(** Run a computation that only reads the filesystem. *)
Definition read_fs {A} (f : fsys → result A) : M A := λ s, (f s.1, s).

(** Run an operation that changes the filesystem. *)
Definition update_fs (f : fsys → result fsys) : M unit := λ s,
  match f s.1 with
  | Ok fs' => (Ok tt, (fs', s.2))
  | Raise e => (Raise e, s)
  end.

(** [month_bucket]: only regular files carry a modification time in the
    model.  On a directory [stat] would succeed; [organize_file] raises
    [IsADirectoryError] on one all the same, two lines later, in
    [sha256sum], before it has changed anything. *)
Definition month_bucket (fs : fsys) (path : Path) : result string :=
  match FS.node_at fs path with
  | Some (File _ mtime) => Ok (strftime_Y_m mtime)
  | Some Dir => Raise IsADirectoryError
  | None => Raise FileNotFoundError
  end.

Definition sha256sum (fs : fsys) (path : Path) : result string :=
  match FS.node_at fs path with
  | Some (File content _) => Ok (sha256_hexdigest content)
  | Some Dir => Raise IsADirectoryError
  | None => Raise FileNotFoundError
  end.

(** The name tried at round [i] of [safe_name]. *)
Definition candidate (target : Path) (i : nat) : Path :=
  PyPath.parent target
  // (PyPath.stem target +:+ " (" +:+ pretty i +:+ ")" +:+ PyPath.suffix target).

(** The [while True] loop of [safe_name], run for at most [fuel] rounds. *)
Fixpoint safe_name_loop (fuel : nat) (fs : fsys) (target : Path) (i : nat)
  : option Path :=
  match fuel with
  | O => None
  | S fuel' =>
      if negb (FS.exists_ fs (candidate target i)) then Some (candidate target i)
      else safe_name_loop fuel' fs target (S i)
  end.

Definition safe_name_fuel (fuel : nat) (fs : fsys) (target : Path) : option Path :=
  if negb (FS.exists_ fs target) then Some target
  else safe_name_loop fuel fs target 1.

(** [safe_name]: one round more than the filesystem has entries is enough
    for the loop to return ([safe_name_fuel_total]), so the default is
    never taken. *)
Definition safe_name (fs : fsys) (target : Path) : Path :=
  default target (safe_name_fuel (S (size fs)) fs target).

Definition load_index (fs : fsys) (index_path : Path) : result json :=
  if negb (FS.exists_ fs index_path) then Ok (JObject [])
  else
    match FS.read_text fs index_path with
    | Ok text =>
        match json_loads text with
        | Some v => Ok v
        | None => Ok (JObject [])
        end
    | Raise e => if is_OSError e then Ok (JObject []) else Raise e
    end.

Definition save_index (fs : fsys) (index_path : Path) (index : json)
    (dry_run : bool) (now : Z) : result fsys :=
  if dry_run then Ok fs
  else FS.write_text fs index_path (json_dumps index) now.

Definition should_ignore (fs : fsys) (path destination : Path) : bool :=
  if negb (FS.is_file fs path) then true
  else if existsb (λ part, mem (PyStr.lower part) IGNORED_DIRS) (PyPath.parts path)
  then true
  else if String.eqb (PyPath.name path) INDEX_FILENAME then true
  else PyPath.is_relative_to (PyPath.resolve path) (PyPath.resolve destination).

Definition list_candidate_files (fs : fsys) (source destination : Path)
    (recursive : bool) : list Path :=
  let iterator := if recursive then FS.rglob fs source else FS.glob fs source in
  List.filter (λ path, negb (should_ignore fs path destination)) iterator.

Definition move_file (src dst : Path) (dry_run : bool) : M Path :=
  dst ← read_fs (λ fs, Ok (safe_name fs dst));
  if dry_run then mret dst
  else
    update_fs (λ fs, FS.mkdir_parents fs (PyPath.parent dst));;
    update_fs (λ fs, FS.shutil_move fs src dst);;
    mret dst.

(** [index.get(digest)] *)
Definition index_get (digest : string) : M (option json) := λ s,
  match s.2 with
  | JObject kv => (Ok (dict_get kv digest), s)
  | _ => (Raise AttributeError, s)
  end.

(** [index[digest] = value] *)
Definition index_set (digest value : string) : M unit := λ s,
  match s.2 with
  | JObject kv => (Ok tt, (s.1, JObject (dict_set kv digest (JString value))))
  | _ => (Raise TypeError, s)
  end.

(** [Path(known_path_str) if known_path_str else None] *)
Definition known_path_of (known_path_str : option json) : result (option Path) :=
  match known_path_str with
  | None => Ok None
  | Some v =>
      if truthy v then
        match v with
        | JString s => Ok (Some (PyPath.of_str s))
        | _ => Raise TypeError
        end
      else Ok None
  end.

(** [known_path and known_path.exists()
     and known_path.resolve() != path.resolve()] *)
Definition is_duplicate_of (fs : fsys) (known_path : option Path) (path : Path) : bool :=
  match known_path with
  | Some kp =>
      FS.exists_ fs kp && negb (bool_decide (PyPath.resolve kp = PyPath.resolve path))
  | None => false
  end.

(** The bucket [organize_file] picks: by source or by month. *)
Definition bucket_for (config : Config) (fs : fsys) (path : Path) : result string :=
  if String.eqb (sort_mode config) "source" then Ok (source_bucket path)
  else month_bucket fs path.

Definition organize_file (path : Path) (config : Config) : M (string * string) :=
  let category := classify_file path in
  bucket ← read_fs (λ fs, bucket_for config fs path);
  let base_target := destination config // category // bucket // PyPath.name path in
  digest ← read_fs (λ fs, sha256sum fs path);
  known_path_str ← index_get digest;
  known_path ← read_fs (λ _, known_path_of known_path_str);
  dup ← read_fs (λ fs, Ok (is_duplicate_of fs known_path path));
  if (dup : bool) then
    let duplicate_target :=
      destination config // "duplicates" // bucket // PyPath.name path in
    final_path ← move_file path duplicate_target (dry_run config);
    mret ("duplicate", PyPath.str final_path)
  else
    final_path ← move_file path base_target (dry_run config);
    index_set digest (PyPath.str final_path);;
    mret ("moved", PyPath.str final_path).

(** Insertion into a list ordered by decreasing depth; among paths of one
    depth the inserted one goes first, as in a stable sort. *)
Fixpoint insert_by_depth (p : Path) (l : list Path) : list Path :=
  match l with
  | [] => [p]
  | q :: l' =>
      if (length p <? length q)%nat then q :: insert_by_depth p l' else p :: q :: l'
  end.

(** [sorted(ps, key=lambda p: len(p.parts), reverse=True)] *)
Definition sorted_deepest_first (ps : list Path) : list Path :=
  foldr insert_by_depth [] ps.

(** [directory.rmdir()] with [OSError] swallowed. *)
Definition try_rmdir (fs : fsys) (directory : Path) : fsys :=
  match FS.rmdir fs directory with
  | Ok fs' => fs'
  | Raise _ => fs
  end.

Definition prune_empty_dirs (fs : fsys) (root : Path) (keep_empty : bool) : fsys :=
  if keep_empty then fs
  else
    foldl try_rmdir fs
      (sorted_deepest_first (List.filter (FS.is_dir fs) (FS.rglob fs root))).

(** The counters and the console output of the loop of [organize_pass]. *)
Record tally := {
  moved : nat;
  duplicates : nat;
  printed : list event
}.

(** One round of the loop over [files]: [try: ... except Exception]. *)
Definition organize_step (config : Config) (acc : tally * (fsys * json))
    (file_path : Path) : tally * (fsys * json) :=
  let '(t, s) := acc in
  match organize_file file_path config s with
  | (Ok (status, target), s') =>
      if String.eqb status "duplicate" then
        ({| moved := moved t; duplicates := S (duplicates t);
            printed := printed t ++ [DUPLICATE file_path target] |}, s')
      else
        ({| moved := S (moved t); duplicates := duplicates t;
            printed := printed t ++ [MOVED file_path target] |}, s')
  | (Raise exc, s') =>
      ({| moved := moved t; duplicates := duplicates t;
          printed := printed t ++ [ERROR file_path exc] |}, s')
  end.

Definition organize_files (config : Config) (files : list Path)
    (s : fsys * json) : tally * (fsys * json) :=
  foldl (organize_step config) ({| moved := 0; duplicates := 0; printed := [] |}, s) files.

(** The rest of [organize_pass] once the destination exists ([fs1]) and the
    index is loaded. *)
Definition organize_pass_from (config : Config) (now : Z) (fs1 : fsys)
    (index : json) : result (nat * nat) * list event * fsys :=
  let index_path := destination config // INDEX_FILENAME in
  let files :=
    list_candidate_files fs1 (source config) (destination config)
                         (recursive config) in
  let '(t, (fs2, index')) := organize_files config files (fs1, index) in
  match save_index fs2 index_path index' (dry_run config) now with
  | Raise e => (Raise e, printed t, fs2)
  | Ok fs3 =>
      (Ok (moved t, duplicates t), printed t,
       prune_empty_dirs fs3 (source config) (keep_empty config))
  end.

(** [organize_pass] at time [now]: the returned pair or the exception that
    ends the pass, what was printed, and the filesystem left behind. *)
Definition organize_pass (config : Config) (now : Z) (fs : fsys)
  : result (nat * nat) * list event * fsys :=
  match FS.mkdir_parents fs (destination config) with
  | Raise e => (Raise e, [], fs)
  | Ok fs1 =>
      match load_index fs1 (destination config // INDEX_FILENAME) with
      | Raise e => (Raise e, [], fs1)
      | Ok index => organize_pass_from config now fs1 index
      end
  end.

(** The command line after [parse_args]; the paths are given resolved. *)
Record Args := {
  arg_source : Path;
  arg_destination : Path;
  arg_watch : bool;
  arg_interval : Z;
  arg_dry_run : bool;
  arg_non_recursive : bool;
  arg_keep_empty : bool;
  arg_sort_mode : string
}.

(** How a run of [main] ends and what it leaves behind. *)
Inductive outcome :=
  | SystemExit (message : string) (fs : fsys)
    (** [raise SystemExit(message)] *)
  | Done (moved duplicates : nat) (dry : bool) (out : list event) (fs : fsys)
    (** the single pass returned and "Done." was printed *)
  | Crashed (e : exn) (out : list event) (fs : fsys)
    (** an exception left [organize_pass] *)
  | Interrupted (cycles : list (nat * nat)) (out : list event) (fs : fsys)
    (** watch mode, stopped from outside after the listed cycles *).

(** [watch_loop], interrupted after the passes at the times [ticks]; it
    reports the cycles that did something. *)
Fixpoint watch_loop (config : Config) (ticks : list Z) (fs : fsys)
    (cycles : list (nat * nat)) (out : list event) : outcome :=
  match ticks with
  | [] => Interrupted cycles out fs
  | now :: ticks' =>
      match organize_pass config now fs with
      | (Ok (m, d), o, fs') =>
          watch_loop config ticks' fs'
            (if negb (m =? 0)%nat || negb (d =? 0)%nat then cycles ++ [(m, d)]
             else cycles)
            (out ++ o)
      | (Raise e, o, fs') => Crashed e (out ++ o) fs'
      end
  end.

(** [main]: [ticks] are the times of the passes (one for a single run). *)
Definition main (args : Args) (ticks : list Z) (fs : fsys) : outcome :=
  let config := {|
    source := PyPath.resolve (arg_source args);
    destination := PyPath.resolve (arg_destination args);
    dry_run := arg_dry_run args;
    recursive := negb (arg_non_recursive args);
    keep_empty := arg_keep_empty args;
    sort_mode := arg_sort_mode args |} in
  if negb (FS.exists_ fs (source config)) || negb (FS.is_dir fs (source config)) then
    SystemExit ("Source folder does not exist or is not a directory: "
                +:+ PyPath.str (source config)) fs
  else if bool_decide (source config = destination config) then
    SystemExit "Source and destination cannot be the same folder." fs
  else if arg_watch args then
    watch_loop config ticks fs [] []
  else
    match organize_pass config (hd 0%Z ticks) fs with
    | (Ok (m, d), o, fs') => Done m d (dry_run config) o fs'
    | (Raise e, o, fs') => Crashed e o fs'
    end.

End Program.

(* ===================================================================== *)
(** ** The rules of [source_bucket], named *)
(* ===================================================================== *)

(** The conditions of the first six tests of [source_bucket] (the
    messenger, screenshot and camera rules), on the lowered name and
    parent. *)
Definition earlier_rule_applies (path : Path) : bool :=
  let name := PyStr.lower (PyPath.name path) in
  let parent := PyStr.lower (PyPath.str (PyPath.parent path)) in
  PyStr.contains "whatsapp" name || PyStr.contains "whatsapp" parent
  || (PyStr.contains "telegram" name || PyStr.contains "telegram" parent)
  || (PyStr.contains "discord" name || PyStr.contains "discord" parent)
  || (PyStr.contains "slack" name || PyStr.contains "slack" parent)
  || (PyStr.startswith "screenshot" name || PyStr.contains "screen shot" name
      || PyStr.startswith "snip" name)
  || (PyStr.startswith "img_" name || PyStr.startswith "dsc_" name
      || PyStr.startswith "pxl_" name).

(** The condition of the browser test. *)
Definition browser_word (s : string) : bool :=
  PyStr.contains "chrome" s || PyStr.contains "edge" s || PyStr.contains "firefox" s.

(** The condition of the partial-download test. *)
Definition partial_download_ext (path : Path) : bool :=
  mem (PyStr.lower (PyPath.suffix path)) [".crdownload"; ".part"].

(** The condition of the meetings test. *)
Definition meeting_word (s : string) : bool :=
  PyStr.contains "zoom" s || PyStr.contains "meeting" s || PyStr.contains "teams" s.

(* ===================================================================== *)
(** ** Vocabulary of the statements *)
(* ===================================================================== *)

(** The directory [d] can be made: neither it nor a directory above it is
    a regular file. *)
Definition can_mkdir (fs : fsys) (d : Path) : Prop :=
  ∀ q, q ∈ FS.prefixes d → FS.is_file fs q = false.

(** The filesystem is a tree: the root is not an entry, and every entry
    lies in a directory. *)
Definition well_formed (fs : fsys) : Prop :=
  ∀ p n, fs !! p = Some n → p ≠ [] ∧ FS.is_dir fs (PyPath.parent p) = true.



(** The index entry of a digest is a non-empty string whose path exists
    and is not the file at hand. *)
Definition names_other_existing (fs : fsys) (entry : option json) (path : Path) : Prop :=
  ∃ s, entry = Some (JString s) ∧ s ≠ ""
       ∧ FS.exists_ fs (PyPath.of_str s) = true
       ∧ PyPath.resolve (PyPath.of_str s) ≠ PyPath.resolve path.

(** There is no entry, or an empty one, or a string whose path does not
    exist or is the file at hand. *)
Definition names_nothing_else (fs : fsys) (entry : option json) (path : Path) : Prop :=
  entry = None
  ∨ (∃ v, entry = Some v ∧ truthy v = false)
  ∨ (∃ s, entry = Some (JString s)
          ∧ (FS.exists_ fs (PyPath.of_str s) = false
             ∨ PyPath.resolve (PyPath.of_str s) = PyPath.resolve path)).

(** What [organize_file] leaves of a file with content [c] and time [t]
    that it reports at [final]: nothing changed in a dry run; otherwise
    the file is at [final], which was free, and no longer at [path]. *)
Definition placed (config : Config) (fs fs' : fsys) (path final : Path)
    (c : string) (t : Z) : Prop :=
  if dry_run config then fs' = fs
  else FS.exists_ fs final = false
       ∧ FS.node_at fs' final = Some (File c t)
       ∧ FS.node_at fs' path = None.

(* ===================================================================== *)
(** ** Reading the console output *)
(* ===================================================================== *)

(** The file an output line is about. *)
Definition event_file (e : event) : Path :=
  match e with
  | MOVED f _ | DUPLICATE f _ | ERROR f _ => f
  end.

Definition is_moved (e : event) : bool :=
  match e with MOVED _ _ => true | _ => false end.

Definition is_duplicate (e : event) : bool :=
  match e with DUPLICATE _ _ => true | _ => false end.

Definition is_error (e : event) : bool :=
  match e with ERROR _ _ => true | _ => false end.

(** The place an output line reports, when it reports one. *)
Definition event_target (e : event) : option string :=
  match e with
  | MOVED _ target | DUPLICATE _ target => Some target
  | ERROR _ _ => None
  end.

(** The line [organize_pass] prints for a file, given how [organize_file]
    ended on it. *)
Definition event_of (file_path : Path) (r : result (string * string)) : event :=
  match r with
  | Ok (status, target) =>
      if String.eqb status "duplicate" then DUPLICATE file_path target
      else MOVED file_path target
  | Raise exc => ERROR file_path exc
  end.

(** Counters and output of two stretches of the loop, one after the other. *)
Definition tally_app (t1 t2 : tally) : tally :=
  {| moved := moved t1 + moved t2;
     duplicates := duplicates t1 + duplicates t2;
     printed := printed t1 ++ printed t2 |}.

(** Counters and output of one round of the loop. *)
Definition tally_of (e : event) : tally :=
  {| moved := if is_moved e then 1 else 0;
     duplicates := if is_duplicate e then 1 else 0;
     printed := [e] |}.

(* ===================================================================== *)
(** ** A stand-in library for running examples *)
(* ===================================================================== *)

(** Every byte is below 128. *)
Fixpoint ascii_only (s : string) : bool :=
  match s with
  | EmptyString => true
  | String c s' => (nat_of_ascii c <? 128)%nat && ascii_only s'
  end.

(** The digest of a content is the content itself, every file dates from
    January 2024, three texts parse as JSON, every value is written as the
    empty object, and directory entries come in the order of the map. *)
Definition demo_lib : PyLib := {|
  sha256_hexdigest := λ content, content;
  strftime_Y_m := λ _, "2024-01";
  utf8_valid := ascii_only;
  json_loads := λ text,
    if String.eqb text "{}" then Some (JObject [])
    else if String.eqb text "[1]" then Some (JArray [JInt 1])
    else if String.eqb text "7" then Some (JInt 7)
    else None;
  json_dumps := λ _, "{}";
  json_dumps_valid := λ _, eq_refl;
  scan_order := λ l, l;
  scan_order_perm := λ l, reflexivity l
|}.

(** A run from [/in] to [/out], buckets by source, in a dry or real run. *)
Definition demo_config (dry : bool) : Config := {|
  source := ["in"];
  destination := ["out"];
  dry_run := dry;
  recursive := true;
  keep_empty := false;
  sort_mode := "source"
|}.

(** Two files with the same bytes. *)
Definition demo_twins : fsys :=
  list_to_map [ (["in"], Dir);
                (["in"; "a.txt"], File "same bytes" 10);
                (["in"; "b.txt"], File "same bytes" 20) ].

(** One file and an empty directory; [/out] does not exist. *)
Definition demo_empty_dir : fsys :=
  list_to_map [ (["in"], Dir);
                (["in"; "a.txt"], File "x" 0);
                (["in"; "empty"], Dir) ].

(** A regular file stands where the directory of the documents would go. *)
Definition demo_blocked : fsys :=
  list_to_map [ (["in"], Dir);
                (["in"; "a.txt"], File "x" 0);
                (["in"; "b.png"], File "y" 0);
                (["out"], Dir);
                (["out"; "documents"], File "not a directory" 0) ].

(** A file whose content is already indexed, at an existing path, and
    whose name is already taken among the duplicates. *)
Definition demo_known : fsys :=
  list_to_map [ (["in"], Dir);
                (["in"; "a.txt"], File "x" 0);
                (["out"], Dir);
                (["out"; "documents"], Dir);
                (["out"; "documents"; "manual_or_unknown"], Dir);
                (["out"; "documents"; "manual_or_unknown"; "first.txt"], File "x" 0);
                (["out"; "duplicates"], Dir);
                (["out"; "duplicates"; "manual_or_unknown"], Dir);
                (["out"; "duplicates"; "manual_or_unknown"; "a.txt"], File "x" 0) ].

Definition demo_known_index : json :=
  JObject [("x", JString "/out/documents/manual_or_unknown/first.txt")].


(** The command line of a run from [/in] to [/out]. *)
Definition demo_args (watch dry : bool) : Args := {|
  arg_source := ["in"];
  arg_destination := ["out"];
  arg_watch := watch;
  arg_interval := 15;
  arg_dry_run := dry;
  arg_non_recursive := false;
  arg_keep_empty := false;
  arg_sort_mode := "source"
|}.

(** The default layout: the destination is a folder of the source. *)
Definition demo_nested_config : Config := {|
  source := ["in"];
  destination := ["in"; "Organized"];
  dry_run := false;
  recursive := true;
  keep_empty := false;
  sort_mode := "source"
|}.

(* ===================================================================== *)
(** ** Vocabulary of the further statements *)
(* ===================================================================== *)

(** The filesystem a run of [main] leaves behind. *)
Definition outcome_fs (o : outcome) : fsys :=
  match o with
  | SystemExit _ fs | Done _ _ _ _ fs | Crashed _ _ fs | Interrupted _ _ fs => fs
  end.

(** The place of the index file of a configuration. *)
Definition index_path_of (config : Config) : Path :=
  destination config // INDEX_FILENAME.

(** The candidates of a pass started on [fs]. *)
Definition candidates_of `{PyLib} (config : Config) (fs : fsys) : list Path :=
  list_candidate_files fs (source config) (destination config) (recursive config).

(** Some regular file lies below [d]. *)
Definition holds_file (fs : fsys) (d : Path) : bool :=
  existsb (λ k, bool_decide (d `prefix_of` k) && FS.is_file fs k) (map_to_list fs).*1.

(** Deepest first, as [sorted(..., key=lambda p: len(p.parts), reverse=True)]
    leaves a list. *)
Definition deeper_or_level (a b : Path) : Prop := length b ≤ length a.

(** [well_formed], checked entry by entry. *)
Definition well_formedb (fs : fsys) : bool :=
  forallb (λ p, negb (bool_decide (p = [])) && FS.is_dir fs (PyPath.parent p))
          (map_to_list fs).*1.

(** The string has a "/". *)
Fixpoint has_slash (s : string) : bool :=
  match s with
  | EmptyString => false
  | String c s' => Ascii.eqb c "/"%char || has_slash s'
  end.

(** A name of a file or a directory: not empty, not ".", without "/".
    These are the segments [Path(str(p))] gives back as they are. *)
Definition proper_name (s : string) : bool :=
  negb (String.eqb s "" || String.eqb s ".") && negb (has_slash s).

(** In state [s] the index names, for [digest], a regular file below the
    destination, by a string that reads back as its path. *)
Definition indexed (config : Config) (digest : string) (final : Path)
    (s : fsys * json) : Prop :=
  ∃ kv c t,
    s.2 = JObject kv
    ∧ dict_get kv digest = Some (JString (PyPath.str final))
    ∧ FS.node_at s.1 final = Some (File c t)
    ∧ destination config `prefix_of` final
    ∧ PyPath.of_str (PyPath.str final) = final.


(* ===================================================================== *)
(** ** Classifier: properties *)
(* ===================================================================== *)

Example classify_png : classify_file ["home"; "u"; "Pic.PNG"] = "images".
Proof. reflexivity. Qed.

Example classify_xyz : classify_file ["home"; "u"; "a.xyz"] = "other".
Proof. reflexivity. Qed.

Example bucket_screenshot :
  source_bucket ["home"; "chrome"; "Screenshot_2023.png"] = "screenshots".
Proof. reflexivity. Qed.

Lemma startswith_lower p s :
  PyStr.startswith p s = true → PyStr.startswith (PyStr.lower p) (PyStr.lower s) = true.
Proof.
  revert s. induction p as [|a p IH]; intros [|b s]; simpl; try done.
  destruct (Ascii.eqb a b) eqn:E; [|done].
  apply Ascii.eqb_eq in E as ->. rewrite Ascii.eqb_refl. apply IH.
Qed.

(** A substring of the name is, lowered, a substring of the lowered name:
    the tests of [source_bucket] ignore letter case. *)
Lemma contains_lower p s :
  PyStr.contains p s = true → PyStr.contains (PyStr.lower p) (PyStr.lower s) = true.
Proof.
  induction s as [|b s IH]; simpl; intros Hc.
  - apply orb_true_iff in Hc as [Hc|]; [|done].
    apply startswith_lower in Hc. simpl in Hc. by rewrite Hc.
  - apply orb_true_iff in Hc as [Hc|Hc].
    + apply startswith_lower in Hc. simpl in Hc. by rewrite Hc.
    + rewrite (IH Hc). apply orb_true_r.
Qed.

(** C4, as the code has it: once the messenger, screenshot and camera
    rules have not fired, the bucket is [browser_downloads] exactly when
    the lowered file name holds "chrome", "edge" or "firefox"; and when
    neither that rule nor the partial-download rule fires, it is
    [meetings] exactly when the lowered file name holds "zoom", "meeting"
    or "teams".  Only the file name decides: the parent path is not
    looked at by these two rules. *)
Theorem source_bucket_browser_meetings_by_name (path : Path) :
  earlier_rule_applies path = false →
  let name := PyStr.lower (PyPath.name path) in
  (browser_word name = true → source_bucket path = "browser_downloads")
  ∧ (browser_word name = false → source_bucket path ≠ "browser_downloads")
  ∧ (browser_word name = false → partial_download_ext path = false →
     meeting_word name = true → source_bucket path = "meetings")
  ∧ (meeting_word name = false → source_bucket path ≠ "meetings").
Proof.
  unfold earlier_rule_applies, browser_word, partial_download_ext, meeting_word,
    source_bucket.
  intros He. cbv zeta.
  repeat (apply orb_false_iff in He as [He ?]).
  repeat match goal with
         | Hx : _ = false |- _ => rewrite Hx; clear Hx
         end.
  cbn [orb]. repeat split.
  - by intros ->.
  - intros ->. repeat case_match; done.
  - by intros -> -> ->.
  - intros ->. repeat case_match; done.
Qed.

Lemma source_bucket_browser_meetings_by_name_witness :
  source_bucket ["home"; "u"; "Downloads"; "Firefox Setup.exe"] = "browser_downloads"
  ∧ source_bucket ["home"; "u"; "Downloads"; "Team Meeting notes.txt"] = "meetings".
Proof.
  split.
  - apply (source_bucket_browser_meetings_by_name
             ["home"; "u"; "Downloads"; "Firefox Setup.exe"]); reflexivity.
  - apply (source_bucket_browser_meetings_by_name
             ["home"; "u"; "Downloads"; "Team Meeting notes.txt"]); reflexivity.
Defined.

(** C4 as stated fails: a match in the parent path alone does not select
    [browser_downloads] or [meetings]. *)
Lemma source_bucket_parent_match_counterexample :
  (let path := ["home"; "u"; "chrome"; "notes.txt"] in
   earlier_rule_applies path = false
   ∧ PyStr.contains "chrome" (PyStr.lower (PyPath.str (PyPath.parent path))) = true
   ∧ source_bucket path = "manual_or_unknown")
  ∧ (let path := ["home"; "u"; "zoom"; "notes.txt"] in
     earlier_rule_applies path = false
     ∧ browser_word (PyStr.lower (PyPath.name path)) = false
     ∧ partial_download_ext path = false
     ∧ PyStr.contains "zoom" (PyStr.lower (PyPath.str (PyPath.parent path))) = true
     ∧ source_bucket path = "manual_or_unknown").
Proof. repeat split. Qed.

(* ===================================================================== *)
(** ** [main]: rejected arguments *)
(* ===================================================================== *)

Section Main.
Context `{PyLib}.

(** C9: when the resolved source does not exist, is not a directory, or
    is the resolved destination, [main] ends with [SystemExit] and its
    message; no pass is run, nothing is printed by a pass and the
    filesystem is the one [main] found. *)
Theorem main_rejects_bad_arguments (args : Args) (ticks : list Z) (fs : fsys) :
  let src := PyPath.resolve (arg_source args) in
  let dst := PyPath.resolve (arg_destination args) in
  FS.exists_ fs src = false ∨ FS.is_dir fs src = false ∨ src = dst →
  main args ticks fs =
    SystemExit
      (if negb (FS.exists_ fs src) || negb (FS.is_dir fs src)
       then "Source folder does not exist or is not a directory: " +:+ PyPath.str src
       else "Source and destination cannot be the same folder.") fs.
Proof.
  intros src dst Hbad. unfold main. cbn [source destination]. fold src dst.
  destruct (negb (FS.exists_ fs src) || negb (FS.is_dir fs src)) eqn:Hsrc; [done|].
  apply orb_false_iff in Hsrc as [He Hd].
  apply negb_false_iff in He, Hd.
  destruct Hbad as [Hx | [Hx | Hx]]; [congruence | congruence |].
  by rewrite bool_decide_eq_true_2.
Qed.

End Main.

Lemma main_rejects_bad_arguments_witness :
  let args dst := {|
    arg_source := ["home"; "u"; "Downloads"]; arg_destination := dst;
    arg_watch := false; arg_interval := 15; arg_dry_run := false;
    arg_non_recursive := false; arg_keep_empty := false; arg_sort_mode := "date" |} in
  let fs : fsys := {[ ["home"] := Dir; ["home"; "u"] := Dir ]} in
  let fs' : fsys := <[ ["home"; "u"; "Downloads"] := Dir ]> fs in
  @main demo_lib (args ["out"]) [0%Z] fs =
    SystemExit "Source folder does not exist or is not a directory: /home/u/Downloads" fs
  ∧ @main demo_lib (args ["home"; "u"; "Downloads"]) [0%Z] fs' =
    SystemExit "Source and destination cannot be the same folder." fs'.
Proof.
  intros args fs fs'. split.
  - apply (@main_rejects_bad_arguments demo_lib (args ["out"]) [0%Z] fs).
    left. vm_compute. reflexivity.
  - apply (@main_rejects_bad_arguments demo_lib (args ["home"; "u"; "Downloads"])
             [0%Z] fs').
    right. right. reflexivity.
Defined.

(* ===================================================================== *)
(** ** The loop of a pass: one output line per file *)
(* ===================================================================== *)

Section Loop.
Context `{PyLib}.

Lemma organize_step_event config t s file_path :
  organize_step config (t, s) file_path =
    (tally_app t (tally_of (event_of file_path (organize_file file_path config s).1)),
     (organize_file file_path config s).2).
Proof.
  unfold organize_step, tally_app, tally_of, event_of.
  destruct (organize_file file_path config s) as [[[status target]|exc] s']; simpl.
  - destruct (String.eqb status "duplicate"); simpl; f_equal; f_equal; lia.
  - f_equal; f_equal; lia.
Qed.

Lemma tally_app_assoc t1 t2 t3 :
  tally_app (tally_app t1 t2) t3 = tally_app t1 (tally_app t2 t3).
Proof. unfold tally_app; simpl. f_equal; [lia | lia | by rewrite <- app_assoc]. Qed.

Lemma tally_app_zero_l t :
  tally_app {| moved := 0; duplicates := 0; printed := [] |} t = t.
Proof. by destruct t. Qed.

Lemma tally_app_zero_r t :
  tally_app t {| moved := 0; duplicates := 0; printed := [] |} = t.
Proof.
  destruct t. unfold tally_app; simpl. f_equal; [lia | lia | apply app_nil_r].
Qed.

(** The loop started with counters [t0] adds to them what it would count
    from zero. *)
Lemma foldl_organize_step config files t0 s :
  foldl (organize_step config) (t0, s) files =
    (tally_app t0 (organize_files config files s).1,
     (organize_files config files s).2).
Proof.
  unfold organize_files. revert t0 s.
  induction files as [|f files IH]; intros t0 s; cbn [foldl fst snd].
  - by rewrite tally_app_zero_r.
  - rewrite !organize_step_event, tally_app_zero_l.
    rewrite (IH (tally_app _ _)), (IH (tally_of _)). cbn [fst snd].
    by rewrite tally_app_assoc.
Qed.

Lemma organize_files_nil config s :
  organize_files config [] s = ({| moved := 0; duplicates := 0; printed := [] |}, s).
Proof. done. Qed.

(** The loop on a first file and the rest. *)
Lemma organize_files_cons config f files s :
  organize_files config (f :: files) s =
    let r := organize_file f config s in
    let rest := organize_files config files r.2 in
    (tally_app (tally_of (event_of f r.1)) rest.1, rest.2).
Proof.
  unfold organize_files at 1. cbn [foldl].
  by rewrite organize_step_event, tally_app_zero_l, foldl_organize_step.
Qed.

(** The loop on two stretches of the list. *)
Lemma organize_files_app config files1 files2 s :
  organize_files config (files1 ++ files2) s =
    let r1 := organize_files config files1 s in
    let r2 := organize_files config files2 r1.2 in
    (tally_app r1.1 r2.1, r2.2).
Proof.
  unfold organize_files at 1. rewrite foldl_app. fold (organize_files config files1 s).
  destruct (organize_files config files1 s) as [t1 s1]. simpl.
  apply foldl_organize_step.
Qed.

(** The output has one line per file, in order, and the counters count
    the [MOVED] and the [DUPLICATE] lines. *)
Lemma organize_files_counts config files s :
  let t := (organize_files config files s).1 in
  event_file <$> printed t = files
  ∧ moved t = length (List.filter is_moved (printed t))
  ∧ duplicates t = length (List.filter is_duplicate (printed t)).
Proof.
  revert s. induction files as [|f files IH]; intros s; [done|].
  rewrite organize_files_cons. cbv zeta. cbn [fst snd].
  destruct (IH (organize_file f config s).2) as (IH1 & IH2 & IH3).
  unfold tally_app, tally_of. cbn [moved duplicates printed].
  rewrite fmap_app, IH1, IH2, IH3. cbn [app List.filter].
  split; [|split].
  - f_equal. by destruct (organize_file f config s) as [[[??]|?] ?]; simpl;
      try case_match.
  - by destruct (is_moved _).
  - by destruct (is_duplicate _).
Qed.


End Loop.

(* ===================================================================== *)
(** ** Paths and names: lemmas *)
(* ===================================================================== *)

#[local] Arguments String.append !_ _ / : simpl nomatch.

Lemma string_app_length (a b : string) :
  String.length (a +:+ b) = String.length a + String.length b.
Proof. induction a as [|c a IH]; simpl; [done|]. by rewrite IH. Qed.

Lemma string_app_inv_head (s a b : string) : s +:+ a = s +:+ b → a = b.
Proof. induction s; simpl; [done|]. intros [= ?]. auto. Qed.

Lemma string_app_inv_tail (a b t : string) : a +:+ t = b +:+ t → a = b.
Proof.
  revert b. induction a as [|x a IH]; intros [|y b] Heq; simpl in *; try done.
  - apply (f_equal String.length) in Heq.
    simpl in Heq. rewrite string_app_length in Heq. lia.
  - apply (f_equal String.length) in Heq.
    simpl in Heq. rewrite string_app_length in Heq. lia.
  - injection Heq as -> Heq. f_equal. by apply IH.
Qed.

Lemma string_app_empty_r (s : string) : s +:+ "" = s.
Proof. induction s as [|c s IH]; simpl; [done|]. by rewrite IH. Qed.

Lemma rsplit_dot_app s a b : PyStr.rsplit_dot s = Some (a, b) → s = a +:+ b.
Proof.
  revert a b. induction s as [|c s IH]; simpl; intros a b; [done|].
  destruct (PyStr.rsplit_dot s) as [[a' b']|].
  - intros [= <- <-]. simpl. f_equal. by apply IH.
  - destruct (Ascii.eqb c "."%char); [|done]. by intros [= <- <-].
Qed.

(** The name of a path is its stem followed by its suffix. *)
Lemma stem_suffix (p : Path) : PyPath.stem p +:+ PyPath.suffix p = PyPath.name p.
Proof.
  unfold PyPath.stem, PyPath.suffix.
  destruct (PyStr.rsplit_dot (PyPath.name p)) as [[a b]|] eqn:E.
  - apply rsplit_dot_app in E.
    destruct (negb (String.eqb a "") && (1 <? String.length b)%nat); [done|].
    by rewrite string_app_empty_r.
  - by rewrite string_app_empty_r.
Qed.

Lemma parent_div (p : Path) (s : string) : PyPath.parent (p // s) = p.
Proof. apply removelast_last. Qed.

Lemma name_div (p : Path) (s : string) : PyPath.name (p // s) = s.
Proof. apply last_last. Qed.

Lemma div_not_root (p : Path) (s : string) : p // s ≠ [].
Proof. unfold PyPath.div. by destruct p. Qed.

Lemma parent_name (p : Path) : p ≠ [] → PyPath.parent p // PyPath.name p = p.
Proof. intros Hp. symmetry. by apply app_removelast_last. Qed.

Lemma div_inj (p q : Path) (s t : string) : p // s = q // t → p = q ∧ s = t.
Proof. intros Heq. by apply app_inj_tail in Heq. Qed.

Lemma length_div (p : Path) (s : string) : length (p // s) = S (length p).
Proof. unfold PyPath.div. rewrite length_app. simpl. lia. Qed.

Lemma length_parent (p : Path) : p ≠ [] → S (length (PyPath.parent p)) = length p.
Proof.
  intros Hp. rewrite <- (parent_name p Hp) at 2. by rewrite length_div.
Qed.

Lemma prefix_div (d p : Path) (s : string) : d `prefix_of` p → d `prefix_of` p // s.
Proof. intros Hd. by apply prefix_app_r. Qed.

Section Names.

Lemma parent_candidate (target : Path) (i : nat) :
  PyPath.parent (candidate target i) = PyPath.parent target.
Proof. apply parent_div. Qed.

Lemma candidate_inj (target : Path) : Inj (=) (=) (candidate target).
Proof.
  intros i j Heq. apply div_inj in Heq as [_ Heq].
  apply string_app_inv_head, string_app_inv_head, string_app_inv_tail in Heq.
  by apply (inj pretty).
Qed.



End Names.

(* ===================================================================== *)
(** ** The filesystem: lemmas *)
(* ===================================================================== *)

Lemma node_at_lookup (fs : fsys) (p : Path) : p ≠ [] → FS.node_at fs p = fs !! p.
Proof. by destruct p. Qed.

Lemma node_at_insert (fs : fsys) (p q : Path) (n : node) :
  p ≠ [] →
  FS.node_at (<[p := n]> fs) q = if decide (p = q) then Some n else FS.node_at fs q.
Proof.
  intros Hp. destruct q as [|s q]; simpl.
  - by rewrite decide_False.
  - by rewrite lookup_insert.
Qed.

Lemma node_at_delete (fs : fsys) (p q : Path) :
  p ≠ [] →
  FS.node_at (delete p fs) q = if decide (p = q) then None else FS.node_at fs q.
Proof.
  intros Hp. destruct q as [|s q]; simpl.
  - by rewrite decide_False.
  - by rewrite lookup_delete.
Qed.

Lemma elem_of_prefixes (q p : Path) :
  q ∈ FS.prefixes p ↔ q ≠ [] ∧ q `prefix_of` p.
Proof.
  revert q. induction p as [|s p IH]; intros q; simpl.
  - split; [by intros ?%elem_of_nil|]. intros [Hq Hp%prefix_nil_inv]. done.
  - rewrite elem_of_cons, list_elem_of_fmap. split.
    + intros [-> | (q' & -> & Hq')].
      * split; [done|]. apply prefix_cons, prefix_nil.
      * apply IH in Hq' as [_ Hq']. split; [done|]. by apply prefix_cons.
    + intros [Hq Hpre]. destruct q as [|s' q]; [done|].
      apply prefix_cons_inv_1 in Hpre as Hs. subst s'.
      apply prefix_cons_inv_2 in Hpre.
      destruct q as [|s'' q]; [by left|].
      right. exists (s'' :: q). split; [done|]. apply IH. done.
Qed.

Lemma prefixes_not_root (q p : Path) : q ∈ FS.prefixes p → q ≠ [].
Proof. by intros [? _]%elem_of_prefixes. Qed.

Lemma prefixes_length (q p : Path) : q ∈ FS.prefixes p → length q ≤ length p.
Proof. intros [_ ?]%elem_of_prefixes. by apply prefix_length. Qed.

Lemma prefixes_self (p : Path) : p ≠ [] → p ∈ FS.prefixes p.
Proof. intros Hp. by apply elem_of_prefixes. Qed.

Lemma node_at_mkdirs (fs : fsys) (l : list Path) (q : Path) :
  (∀ p, p ∈ l → p ≠ []) →
  FS.node_at (foldr (λ p m, <[p := Dir]> m) fs l) q =
    if decide (q ∈ l) then Some Dir else FS.node_at fs q.
Proof.
  induction l as [|p l IH]; intros Hl; simpl.
  - done.
  - rewrite node_at_insert by (apply Hl; left).
    rewrite IH by (intros; apply Hl; by right).
    destruct (decide (p = q)) as [->|Hne].
    + rewrite decide_True; [done|]. left.
    + destruct (decide (q ∈ l)) as [Hin|Hnin].
      * rewrite decide_True; [done|]. by right.
      * rewrite decide_False; [done|]. intros [->|?]%elem_of_cons; done.
Qed.

(** [mkdir] succeeds exactly when no prefix of the path is a regular file. *)
Lemma mkdir_parents_Ok (fs fs' : fsys) (p : Path) :
  FS.mkdir_parents fs p = Ok fs' ↔
  (∀ q, q ∈ FS.prefixes p → FS.is_file fs q = false)
  ∧ fs' = foldr (λ q m, <[q := Dir]> m) fs (FS.prefixes p).
Proof.
  unfold FS.mkdir_parents.
  destruct (existsb (FS.is_file fs) (FS.prefixes p)) eqn:Hex.
  - destruct (FS.is_file fs p); (split; [done|]).
    + intros [Hno _]. apply existsb_exists in Hex as (q & Hq & Hf).
      apply list_elem_of_In in Hq. rewrite Hno in Hf; done.
    + intros [Hno _]. apply existsb_exists in Hex as (q & Hq & Hf).
      apply list_elem_of_In in Hq. rewrite Hno in Hf; done.
  - assert (Hno : ∀ q, q ∈ FS.prefixes p → FS.is_file fs q = false).
    { intros q Hq. apply not_true_is_false. intros Hf.
      apply not_true_iff_false in Hex. apply Hex, existsb_exists.
      exists q. split; [by apply list_elem_of_In|done]. }
    destruct (FS.is_file fs p) eqn:Hp.
    + destruct p as [|s p]; [done|].
      rewrite Hno in Hp; [done|]. by apply prefixes_self.
    + split; [by intros [= <-]|]. by intros [_ ->].
Qed.

Lemma mkdir_parents_node_at (fs fs' : fsys) (p q : Path) :
  FS.mkdir_parents fs p = Ok fs' →
  FS.node_at fs' q = if decide (q ∈ FS.prefixes p) then Some Dir else FS.node_at fs q.
Proof.
  intros [_ ->]%mkdir_parents_Ok. apply node_at_mkdirs.
  intros ?. apply prefixes_not_root.
Qed.

(** [mkdir] neither creates, removes nor changes a regular file. *)
Lemma mkdir_parents_file (fs fs' : fsys) (p q : Path) (c : string) (t : Z) :
  FS.mkdir_parents fs p = Ok fs' →
  FS.node_at fs' q = Some (File c t) ↔ FS.node_at fs q = Some (File c t).
Proof.
  intros Hmk. rewrite (mkdir_parents_node_at _ _ _ _ Hmk).
  apply mkdir_parents_Ok in Hmk as [Hno _].
  destruct (decide (q ∈ FS.prefixes p)) as [Hq|]; [|done].
  specialize (Hno q Hq). unfold FS.is_file in Hno.
  split; [done|]. intros Hf. by rewrite Hf in Hno.
Qed.

(** What exists before [mkdir] exists after it, unchanged. *)
Lemma mkdir_parents_preserves (fs fs' : fsys) (p q : Path) (n : node) :
  FS.mkdir_parents fs p = Ok fs' →
  FS.node_at fs q = Some n → FS.node_at fs' q = Some n.
Proof.
  intros Hmk Hn. rewrite (mkdir_parents_node_at _ _ _ _ Hmk).
  apply mkdir_parents_Ok in Hmk as [Hno _].
  destruct (decide (q ∈ FS.prefixes p)) as [Hq|]; [|done].
  specialize (Hno q Hq). unfold FS.is_file in Hno. rewrite Hn in Hno.
  by destruct n.
Qed.

Lemma mkdir_parents_is_dir (fs fs' : fsys) (p : Path) :
  FS.mkdir_parents fs p = Ok fs' → FS.is_dir fs' p = true.
Proof.
  intros Hmk. unfold FS.is_dir. rewrite (mkdir_parents_node_at _ _ _ _ Hmk).
  destruct p as [|s p]; [done|].
  rewrite decide_True; [done|]. by apply prefixes_self.
Qed.

(* ===================================================================== *)
(** ** Placer: [safe_name] *)
(* ===================================================================== *)

Section SafeName.

Lemma exists_lookup (fs : fsys) (p : Path) :
  p ≠ [] → FS.exists_ fs p = true ↔ is_Some (fs !! p).
Proof.
  intros Hp. unfold FS.exists_. rewrite node_at_lookup by done.
  destruct (fs !! p); split; try done.
Qed.

(** When the loop returns, it returns the first free numbered name from
    [i] on. *)
Lemma safe_name_loop_Some fuel fs target i p :
  safe_name_loop fuel fs target i = Some p →
  ∃ n, i ≤ n ∧ p = candidate target n
       ∧ FS.exists_ fs (candidate target n) = false
       ∧ ∀ m, i ≤ m < n → FS.exists_ fs (candidate target m) = true.
Proof.
  revert i. induction fuel as [|fuel IH]; intros i; simpl; [done|].
  destruct (FS.exists_ fs (candidate target i)) eqn:Hex; simpl.
  - intros (n & Hn & -> & Hfree & Hbelow)%IH.
    exists n. split; [lia|]. split; [done|]. split; [done|].
    intros m Hm. destruct (decide (m = i)) as [->|]; [done|]. apply Hbelow. lia.
  - intros [= <-]. exists i. split; [done|]. split; [done|]. split; [done|].
    intros m Hm. lia.
Qed.

(** When the loop runs out of rounds, every name it tried is taken. *)
Lemma safe_name_loop_None fuel fs target i :
  safe_name_loop fuel fs target i = None →
  ∀ m, i ≤ m < i + fuel → FS.exists_ fs (candidate target m) = true.
Proof.
  revert i. induction fuel as [|fuel IH]; intros i; simpl; [intros; lia|].
  destruct (FS.exists_ fs (candidate target i)) eqn:Hex; simpl; [|done].
  intros Hnone m Hm. destruct (decide (m = i)) as [->|]; [done|].
  apply (IH _ Hnone). lia.
Qed.

(** More rounds do not change what the loop returns. *)
Lemma safe_name_loop_more fuel extra fs target i p :
  safe_name_loop fuel fs target i = Some p →
  safe_name_loop (fuel + extra) fs target i = Some p.
Proof.
  revert i. induction fuel as [|fuel IH]; intros i; simpl; [done|].
  destruct (FS.exists_ fs (candidate target i)); simpl; [apply IH|done].
Qed.

(** The filesystem is finite and the numbered names are all different, so
    one round more than there are entries always finds a free name. *)
Lemma safe_name_loop_total fs target i :
  is_Some (safe_name_loop (S (size fs)) fs target i).
Proof.
  destruct (safe_name_loop (S (size fs)) fs target i) as [p|] eqn:Hloop; [by eexists|].
  exfalso. pose proof (safe_name_loop_None _ _ _ _ Hloop) as Htaken.
  set (names := candidate target <$> seq i (S (size fs))).
  assert (Hnodup : NoDup names).
  { pose proof (candidate_inj target). apply (NoDup_fmap_2 _), NoDup_seq. }
  assert (Hsub : list_to_set (C := gset Path) names ⊆ dom fs).
  { intros q [m [-> Hm%elem_of_seq]]%elem_of_list_to_set%list_elem_of_fmap.
    apply elem_of_dom, exists_lookup; [apply div_not_root|]. apply Htaken. lia. }
  apply subseteq_size in Hsub.
  rewrite size_list_to_set, size_dom in Hsub by done.
  unfold names in Hsub. rewrite length_fmap, length_seq in Hsub. lia.
Qed.

Lemma safe_name_fuel_total fs target :
  is_Some (safe_name_fuel (S (size fs)) fs target).
Proof.
  unfold safe_name_fuel. destruct (negb (FS.exists_ fs target)); [by eexists|].
  apply safe_name_loop_total.
Qed.

Lemma safe_name_fuel_more fuel extra fs target p :
  safe_name_fuel fuel fs target = Some p →
  safe_name_fuel (fuel + extra) fs target = Some p.
Proof.
  unfold safe_name_fuel. destruct (negb (FS.exists_ fs target)); [done|].
  apply safe_name_loop_more.
Qed.

(** [safe_name] is the result of the loop. *)
Lemma safe_name_eq fs target :
  safe_name_fuel (S (size fs)) fs target = Some (safe_name fs target).
Proof.
  unfold safe_name. by destruct (safe_name_fuel_total fs target) as [p ->].
Qed.

Lemma safe_name_free_target fs target :
  FS.exists_ fs target = false → safe_name fs target = target.
Proof. intros Hfree. unfold safe_name, safe_name_fuel. by rewrite Hfree. Qed.

Lemma safe_name_taken_target fs target :
  FS.exists_ fs target = true →
  ∃ n, 1 ≤ n ∧ safe_name fs target = candidate target n
       ∧ FS.exists_ fs (candidate target n) = false
       ∧ ∀ m, 1 ≤ m < n → FS.exists_ fs (candidate target m) = true.
Proof.
  intros Htaken. pose proof (safe_name_eq fs target) as Heq.
  unfold safe_name_fuel in Heq. rewrite Htaken in Heq.
  by apply safe_name_loop_Some in Heq.
Qed.

(** The name [safe_name] returns is free. *)
Lemma safe_name_free fs target : FS.exists_ fs (safe_name fs target) = false.
Proof.
  destruct (FS.exists_ fs target) eqn:Hex.
  - by destruct (safe_name_taken_target _ _ Hex) as (n & _ & -> & Hfree & _).
  - by rewrite safe_name_free_target.
Qed.

(** It lies in the directory of the target. *)
Lemma parent_safe_name fs target :
  PyPath.parent (safe_name fs target) = PyPath.parent target.
Proof.
  destruct (FS.exists_ fs target) eqn:Hex.
  - destruct (safe_name_taken_target _ _ Hex) as (n & _ & -> & _).
    apply parent_candidate.
  - by rewrite safe_name_free_target.
Qed.

Lemma safe_name_not_root fs target : safe_name fs target ≠ [].
Proof.
  intros Heq. pose proof (safe_name_free fs target) as Hfree.
  by rewrite Heq in Hfree.
Qed.

(** It is none of the directories that lead to it. *)
Lemma safe_name_not_prefix fs target :
  safe_name fs target ∉ FS.prefixes (PyPath.parent target).
Proof.
  intros Hin%prefixes_length. rewrite <- (parent_safe_name fs target) in Hin.
  pose proof (length_parent _ (safe_name_not_root fs target)). lia.
Qed.


End SafeName.

(* ===================================================================== *)
(** ** Placer: [move_file] *)
(* ===================================================================== *)

Section MoveFile.

(** [move_file], step by step. *)
Lemma move_file_unfold (src dst : Path) (dry : bool) (s : fsys * json) :
  move_file src dst dry s =
    let p := safe_name s.1 dst in
    if dry then (Ok p, s)
    else
      match FS.mkdir_parents s.1 (PyPath.parent p) with
      | Raise e => (Raise e, s)
      | Ok fs1 =>
          match FS.shutil_move fs1 src p with
          | Raise e => (Raise e, (fs1, s.2))
          | Ok fs2 => (Ok p, (fs2, s.2))
          end
      end.
Proof.
  unfold move_file, mbind, M_bind, mret, M_ret, read_fs, update_fs.
  destruct s as [fs idx]. destruct dry; [done|]. cbn [fst snd].
  destruct (FS.mkdir_parents fs _) as [fs1|e]; [|done]. cbn [fst snd].
  by destruct (FS.shutil_move fs1 src _).
Qed.

(** A dry run changes nothing. *)
Lemma move_file_dry (src dst : Path) (s : fsys * json) :
  move_file src dst true s = (Ok (safe_name s.1 dst), s).
Proof. by rewrite move_file_unfold. Qed.

(** A real move of a regular file, when the directories of the target can
    be made: where every path stands afterwards. *)
Lemma move_file_real (fs : fsys) (idx : json) (src dst : Path) c t :
  FS.node_at fs src = Some (File c t) →
  (∀ q, q ∈ FS.prefixes (PyPath.parent dst) → FS.is_file fs q = false) →
  ∃ fs',
    move_file src dst false (fs, idx) = (Ok (safe_name fs dst), (fs', idx))
    ∧ ∀ q, FS.node_at fs' q =
        if decide (q = safe_name fs dst) then Some (File c t)
        else if decide (q = src) then None
        else if decide (q ∈ FS.prefixes (PyPath.parent dst)) then Some Dir
        else FS.node_at fs q.
Proof.
  intros Hsrc Hdirs. rewrite move_file_unfold. cbn [fst snd]. cbv zeta.
  rewrite parent_safe_name.
  destruct (FS.mkdir_parents fs (PyPath.parent dst)) as [fs1|e] eqn:Hmk; last first.
  { exfalso. destruct (mkdir_parents_Ok fs
      (foldr (λ q m, <[q := Dir]> m) fs (FS.prefixes (PyPath.parent dst)))
      (PyPath.parent dst)) as [_ Hok].
    rewrite Hok in Hmk by done. done. }
  assert (Hsrc_ne : src ≠ []) by (by intros ->).
  unfold FS.shutil_move.
  rewrite (mkdir_parents_preserves _ _ _ _ _ Hmk Hsrc).
  eexists. split; [done|]. intros q.
  rewrite node_at_insert by apply safe_name_not_root.
  rewrite node_at_delete by done.
  rewrite (mkdir_parents_node_at _ _ _ _ Hmk).
  repeat case_decide; congruence.
Qed.

(** The same move, by what it keeps, adds and removes. *)
Lemma move_file_real_step (fs : fsys) (idx : json) (src dst : Path) c t :
  FS.node_at fs src = Some (File c t) →
  (∀ q, q ∈ FS.prefixes (PyPath.parent dst) → FS.is_file fs q = false) →
  ∃ fs',
    move_file src dst false (fs, idx) = (Ok (safe_name fs dst), (fs', idx))
    ∧ FS.node_at fs' (safe_name fs dst) = Some (File c t)
    ∧ FS.node_at fs' src = None
    ∧ (∀ q n, q ≠ src → FS.node_at fs q = Some n → FS.node_at fs' q = Some n)
    ∧ (∀ q, q ≠ safe_name fs dst → q ∉ FS.prefixes (PyPath.parent dst) →
            FS.node_at fs q = None → FS.node_at fs' q = None)
    ∧ (∀ q, q ∈ FS.prefixes (PyPath.parent dst) → FS.is_file fs' q = false).
Proof.
  intros Hsrc Hdirs.
  destruct (move_file_real fs idx src dst c t Hsrc Hdirs) as (fs' & Hmove & Hat).
  pose proof (safe_name_free fs dst) as Hfree. unfold FS.exists_ in Hfree.
  assert (Hne : src ≠ safe_name fs dst).
  { intros Heq. rewrite <- Heq, Hsrc in Hfree. done. }
  exists fs'. split; [done|]. repeat split.
  - rewrite Hat. by rewrite decide_True.
  - rewrite Hat. rewrite decide_False by done. by rewrite decide_True.
  - intros q n Hq Hn. rewrite Hat.
    destruct (decide (q = safe_name fs dst)) as [->|]; [by rewrite Hn in Hfree|].
    rewrite decide_False by done.
    destruct (decide (q ∈ FS.prefixes (PyPath.parent dst))) as [Hin|]; [|done].
    specialize (Hdirs q Hin). unfold FS.is_file in Hdirs. rewrite Hn in Hdirs.
    by destruct n.
  - intros q Hq Hnot Hnone. rewrite Hat. repeat case_decide; done.
  - intros q Hq. unfold FS.is_file. rewrite Hat.
    rewrite decide_False by (intros ->; by eapply safe_name_not_prefix).
    destruct (decide (q = src)); [done|]. by rewrite decide_True.
Qed.

(** Whatever way a real move of a regular file ends well, the name it
    took was free, the file is there, and nothing else was lost or
    changed. *)
Lemma move_file_real_no_overwrite (fs : fsys) (idx : json) (src dst : Path) c t p s' :
  FS.node_at fs src = Some (File c t) →
  move_file src dst false (fs, idx) = (Ok p, s') →
  p = safe_name fs dst
  ∧ FS.exists_ fs p = false
  ∧ FS.node_at s'.1 p = Some (File c t)
  ∧ ∀ q n, q ≠ src → FS.node_at fs q = Some n → FS.node_at s'.1 q = Some n.
Proof.
  intros Hsrc Hmove.
  assert (Hdirs : ∀ q, q ∈ FS.prefixes (PyPath.parent dst) → FS.is_file fs q = false).
  { rewrite move_file_unfold in Hmove. cbn [fst snd] in Hmove. cbv zeta in Hmove.
    rewrite parent_safe_name in Hmove.
    destruct (FS.mkdir_parents fs (PyPath.parent dst)) as [fs1|e] eqn:Hmk; [|done].
    by apply mkdir_parents_Ok in Hmk as [? _]. }
  destruct (move_file_real_step fs idx src dst c t Hsrc Hdirs)
    as (fs' & Hmove' & Hnew & _ & Hkeep & _).
  rewrite Hmove in Hmove'. injection Hmove' as -> ->.
  split; [done|]. split; [apply safe_name_free|]. by split.
Qed.

End MoveFile.

(* ===================================================================== *)
(** ** Collision safety *)
(* ===================================================================== *)

Section Collisions.



End Collisions.

(* ===================================================================== *)
(** ** Deduplicator: [organize_file] *)
(* ===================================================================== *)

Section OrganizeFile.
Context `{PyLib}.

(** [organize_file], step by step. *)
Lemma organize_file_unfold (path : Path) (config : Config) (fs : fsys) (idx : json) :
  organize_file path config (fs, idx) =
    match bucket_for config fs path with
    | Raise e => (Raise e, (fs, idx))
    | Ok bucket =>
        match sha256sum fs path with
        | Raise e => (Raise e, (fs, idx))
        | Ok digest =>
            match idx with
            | JObject kv =>
                match known_path_of (dict_get kv digest) with
                | Raise e => (Raise e, (fs, idx))
                | Ok known_path =>
                    if is_duplicate_of fs known_path path then
                      match move_file path
                              (destination config // "duplicates" // bucket
                               // PyPath.name path)
                              (dry_run config) (fs, idx) with
                      | (Ok final_path, s') =>
                          (Ok ("duplicate", PyPath.str final_path), s')
                      | (Raise e, s') => (Raise e, s')
                      end
                    else
                      match move_file path
                              (destination config // classify_file path // bucket
                               // PyPath.name path)
                              (dry_run config) (fs, idx) with
                      | (Ok final_path, (fs', _)) =>
                          (Ok ("moved", PyPath.str final_path),
                           (fs', JObject (dict_set kv digest
                                            (JString (PyPath.str final_path)))))
                      | (Raise e, s') => (Raise e, s')
                      end
                end
            | _ => (Raise AttributeError, (fs, idx))
            end
        end
    end.
Proof.
  unfold organize_file, mbind, M_bind, mret, M_ret, read_fs, index_get, index_set.
  cbn [fst snd].
  destruct (bucket_for config fs path) as [bucket|e]; [|done].
  destruct (sha256sum fs path) as [digest|e]; [|done].
  destruct idx as [| | | | | |kv]; try done.
  destruct (known_path_of (dict_get kv digest)) as [known_path|e]; [|done].
  cbn [fst snd].
  destruct (is_duplicate_of fs known_path path).
  - by destruct (move_file _ _ _ _) as [[final_path|e] s'].
  - rewrite move_file_unfold. cbn [fst snd]. cbv zeta.
    destruct (dry_run config); [done|].
    destruct (FS.mkdir_parents _ _) as [fs1|e]; [|done].
    by destruct (FS.shutil_move _ _ _) as [fs2|e].
Qed.

(** The index entry for a digest names an existing path other than the
    file: it is a non-empty string. *)
Lemma is_duplicate_of_true (fs : fsys) (entry : option json) (path : Path) known :
  known_path_of entry = Ok known →
  is_duplicate_of fs known path = true ↔
  ∃ s, entry = Some (JString s) ∧ s ≠ ""
       ∧ FS.exists_ fs (PyPath.of_str s) = true
       ∧ PyPath.resolve (PyPath.of_str s) ≠ PyPath.resolve path.
Proof.
  unfold known_path_of, is_duplicate_of. intros Hknown. split.
  - destruct known as [kp|]; [|done]. intros [Hex Hne]%andb_true_iff.
    apply negb_true_iff, bool_decide_eq_false in Hne.
    destruct entry as [v|]; [|done].
    destruct (truthy v) eqn:Htruthy; [|done].
    destruct v; try done. injection Hknown as <-.
    exists s. repeat split; try done. intros ->. done.
  - intros (s & -> & Hs & Hex & Hne). simpl in Hknown.
    destruct (String.eqb s "") eqn:Heq; [by apply String.eqb_eq in Heq|].
    simpl in Hknown. injection Hknown as <-.
    rewrite Hex. simpl. by apply negb_true_iff, bool_decide_eq_false.
Qed.

Lemma dict_get_set kv k v : dict_get (dict_set kv k v) k = Some v.
Proof.
  induction kv as [|[k' v'] kv IH]; simpl.
  - by rewrite String.eqb_refl.
  - destruct (String.eqb k' k) eqn:Heq; simpl; by rewrite Heq.
Qed.

Lemma dict_get_set_ne kv k k' v : k ≠ k' → dict_get (dict_set kv k v) k' = dict_get kv k'.
Proof.
  intros Hne. induction kv as [|[k0 v0] kv IH]; simpl.
  - destruct (String.eqb k k') eqn:Heq; [by apply String.eqb_eq in Heq|done].
  - destruct (String.eqb k0 k) eqn:Heq; simpl.
    + apply String.eqb_eq in Heq as ->.
      destruct (String.eqb k k') eqn:Heq'; [by apply String.eqb_eq in Heq'|done].
    + by rewrite IH.
Qed.

(** How [move_file] places a regular file, in a dry run or a real one. *)
Lemma move_file_placed (config : Config) (fs : fsys) (idx : json)
    (path target : Path) c t :
  FS.node_at fs path = Some (File c t) →
  dry_run config = true ∨ can_mkdir fs (PyPath.parent target) →
  ∃ fs',
    move_file path target (dry_run config) (fs, idx)
      = (Ok (safe_name fs target), (fs', idx))
    ∧ placed config fs fs' path (safe_name fs target) c t.
Proof.
  intros Hnode Hmk. unfold placed. destruct (dry_run config) eqn:Hdry.
  - exists fs. by rewrite move_file_dry.
  - destruct Hmk as [|Hmk]; [done|].
    destruct (move_file_real_step fs idx path target c t Hnode Hmk)
      as (fs' & Hmove & Hnew & Hgone & _).
    exists fs'. repeat split; try done. apply safe_name_free.
Qed.

(** C1, as the code has it.  For a regular file and a dictionary index:
    when the entry of the file's digest is a non-empty string whose path
    exists and is not the file, the result is "duplicate", the final path
    is [destination/duplicates/bucket/name] after collision resolution,
    and the index is unchanged; when there is no entry, an empty entry,
    or an entry whose path does not exist or is the file itself, the
    result is "moved", the final path is
    [destination/category/bucket/name] after collision resolution, and
    the entry of the digest becomes the final path.  In a real run the
    file is moved to the final path, in a dry run nothing is moved. *)
Theorem organize_file_duplicate_or_moved (path : Path) (config : Config)
    (fs : fsys) (kv : list (string * json)) (c : string) (t : Z) (bucket : string) :
  FS.node_at fs path = Some (File c t) →
  bucket_for config fs path = Ok bucket →
  let digest := sha256_hexdigest c in
  let entry := dict_get kv digest in
  let duplicate_target :=
    destination config // "duplicates" // bucket // PyPath.name path in
  let base_target :=
    destination config // classify_file path // bucket // PyPath.name path in
  (names_other_existing fs entry path →
   dry_run config = true ∨ can_mkdir fs (destination config // "duplicates" // bucket) →
   ∃ fs',
     organize_file path config (fs, JObject kv) =
       (Ok ("duplicate", PyPath.str (safe_name fs duplicate_target)),
        (fs', JObject kv))
     ∧ placed config fs fs' path (safe_name fs duplicate_target) c t)
  ∧ (names_nothing_else fs entry path →
     dry_run config = true
     ∨ can_mkdir fs (destination config // classify_file path // bucket) →
     ∃ fs' kv',
       organize_file path config (fs, JObject kv) =
         (Ok ("moved", PyPath.str (safe_name fs base_target)), (fs', JObject kv'))
       ∧ kv' = dict_set kv digest (JString (PyPath.str (safe_name fs base_target)))
       ∧ dict_get kv' digest = Some (JString (PyPath.str (safe_name fs base_target)))
       ∧ placed config fs fs' path (safe_name fs base_target) c t).
Proof.
  intros Hnode Hbucket digest entry duplicate_target base_target.
  assert (Hsha : sha256sum fs path = Ok digest).
  { unfold sha256sum. by rewrite Hnode. }
  split.
  - intros Hdup Hmk.
    assert (Hknown : ∃ known, known_path_of entry = Ok known
                              ∧ is_duplicate_of fs known path = true).
    { destruct Hdup as (s & Hs & Hne & Hex & Hres) eqn:Hd.
      exists (Some (PyPath.of_str s)).
      assert (Hk : known_path_of entry = Ok (Some (PyPath.of_str s))).
      { rewrite Hs. simpl. destruct (String.eqb s "") eqn:Heq; [|done].
        by apply String.eqb_eq in Heq. }
      split; [done|]. by apply (is_duplicate_of_true fs entry path _ Hk). }
    destruct Hknown as (known & Hknown & Hdup').
    destruct (move_file_placed config fs (JObject kv) path duplicate_target c t)
      as (fs' & Hmove & Hplaced);
      [done|unfold duplicate_target; by rewrite parent_div|].
    exists fs'. split; [|done].
    rewrite organize_file_unfold, Hbucket, Hsha.
    fold entry. rewrite Hknown, Hdup'. fold duplicate_target. by rewrite Hmove.
  - intros Hother Hmk.
    assert (Hknown : ∃ known, known_path_of entry = Ok known
                              ∧ is_duplicate_of fs known path = false).
    { destruct Hother as [Hnone | [(v & Hv & Hfalsy) | (s & Hs & Hcase)]].
      - exists None. by rewrite Hnone.
      - exists None. rewrite Hv. simpl. by rewrite Hfalsy.
      - rewrite Hs. simpl. destruct (String.eqb s ""); simpl; [by exists None|].
        exists (Some (PyPath.of_str s)). split; [done|]. simpl.
        destruct Hcase as [-> | ->]; [done|].
        rewrite bool_decide_eq_true_2 by done. apply andb_false_r. }
    destruct Hknown as (known & Hknown & Hdup').
    destruct (move_file_placed config fs (JObject kv) path base_target c t)
      as (fs' & Hmove & Hplaced);
      [done|unfold base_target; by rewrite parent_div|].
    exists fs', (dict_set kv digest (JString (PyPath.str (safe_name fs base_target)))).
    split; [|split; [done|split; [apply dict_get_set|done]]].
    rewrite organize_file_unfold, Hbucket, Hsha.
    fold entry. rewrite Hknown, Hdup'. fold base_target. by rewrite Hmove.
Qed.

End OrganizeFile.

(* ===================================================================== *)
(** ** Scanner and pruner: lemmas *)
(* ===================================================================== *)

Section Scanner.
Context `{PyLib}.

Lemma elem_of_keys (fs : fsys) (p : Path) :
  p ∈ (map_to_list fs).*1 ↔ is_Some (fs !! p).
Proof.
  rewrite list_elem_of_fmap. split.
  - intros ([q n] & -> & Hin%elem_of_map_to_list). by exists n.
  - intros [n Hn]. exists (p, n). split; [done|]. by apply elem_of_map_to_list.
Qed.

Lemma elem_of_bool_filter (f : Path → bool) (l : list Path) (p : Path) :
  p ∈ List.filter f l ↔ p ∈ l ∧ f p = true.
Proof. rewrite !list_elem_of_In. apply filter_In. Qed.

Lemma elem_of_scan_order (l : list Path) (p : Path) : p ∈ scan_order l ↔ p ∈ l.
Proof. by rewrite (scan_order_perm l). Qed.

Lemma elem_of_rglob (fs : fsys) (root p : Path) :
  p ∈ FS.rglob fs root ↔ is_Some (fs !! p) ∧ root ≠ p ∧ root `prefix_of` p.
Proof.
  unfold FS.rglob.
  by rewrite elem_of_scan_order, elem_of_bool_filter, elem_of_keys, bool_decide_eq_true.
Qed.

Lemma elem_of_glob (fs : fsys) (root p : Path) :
  p ∈ FS.glob fs root ↔
  is_Some (fs !! p) ∧ length p = S (length root) ∧ root `prefix_of` p.
Proof.
  unfold FS.glob.
  by rewrite elem_of_scan_order, elem_of_bool_filter, elem_of_keys, bool_decide_eq_true.
Qed.

(** What makes a path a candidate: it is a regular file outside the
    destination, found by the scan, with no ignored part and not named as
    the index. *)
Lemma elem_of_list_candidate_files (fs : fsys) (source destination p : Path)
    (recursive : bool) :
  p ∈ list_candidate_files fs source destination recursive ↔
  p ∈ (if recursive then FS.rglob fs source else FS.glob fs source)
  ∧ FS.is_file fs p = true
  ∧ existsb (λ part, mem (PyStr.lower part) IGNORED_DIRS) (PyPath.parts p) = false
  ∧ String.eqb (PyPath.name p) INDEX_FILENAME = false
  ∧ ¬ destination `prefix_of` p.
Proof.
  unfold list_candidate_files. rewrite elem_of_bool_filter.
  unfold should_ignore, PyPath.is_relative_to, PyPath.resolve.
  destruct (FS.is_file fs p); simpl; [|intuition discriminate].
  destruct (existsb _ (PyPath.parts p)); simpl; [intuition discriminate|].
  destruct (String.eqb (PyPath.name p) INDEX_FILENAME); simpl;
    [intuition discriminate|].
  rewrite negb_true_iff, bool_decide_eq_false. intuition.
Qed.

(** Removing a directory touches no regular file. *)
Lemma try_rmdir_file (fs : fsys) (d q : Path) (c : string) (t : Z) :
  FS.node_at (try_rmdir fs d) q = Some (File c t) ↔ FS.node_at fs q = Some (File c t).
Proof.
  unfold try_rmdir, FS.rmdir.
  destruct (fs !! d) as [[c' t'|]|] eqn:Hd; try done.
  destruct (FS.has_entries fs d); [done|].
  destruct q as [|s q]; [done|]. simpl. rewrite lookup_delete.
  destruct (decide (d = s :: q)) as [->|]; [|done]. by rewrite Hd.
Qed.

Lemma foldl_try_rmdir_file (fs : fsys) (ds : list Path) (q : Path) (c : string) (t : Z) :
  FS.node_at (foldl try_rmdir fs ds) q = Some (File c t)
  ↔ FS.node_at fs q = Some (File c t).
Proof.
  revert fs. induction ds as [|d ds IH]; intros fs; simpl; [done|].
  by rewrite IH, try_rmdir_file.
Qed.

(** Pruning touches no regular file. *)
Lemma prune_empty_dirs_file (fs : fsys) (root q : Path) (keep : bool) c t :
  FS.node_at (prune_empty_dirs fs root keep) q = Some (File c t)
  ↔ FS.node_at fs q = Some (File c t).
Proof.
  unfold prune_empty_dirs. destruct keep; [done|]. apply foldl_try_rmdir_file.
Qed.

Lemma is_file_node_at (fs : fsys) (p : Path) :
  FS.is_file fs p = true ↔ ∃ c t, FS.node_at fs p = Some (File c t).
Proof.
  unfold FS.is_file. destruct (FS.node_at fs p) as [[c t|]|]; split; try done.
  - by exists c, t.
  - by intros (? & ? & ?).
  - by intros (? & ? & ?).
Qed.

Lemma prune_empty_dirs_is_file (fs : fsys) (root q : Path) (keep : bool) :
  FS.is_file (prune_empty_dirs fs root keep) q = FS.is_file fs q.
Proof.
  apply eq_true_iff_eq. rewrite !is_file_node_at.
  by setoid_rewrite prune_empty_dirs_file.
Qed.

End Scanner.

(* ===================================================================== *)
(** ** A real pass empties the source of candidates *)
(* ===================================================================== *)

Section Idempotence.
Context `{PyLib}.

(** A real move that ended well: where every path stands afterwards. *)
Lemma move_file_real_inv (fs : fsys) (idx : json) (src dst p : Path) c t s' :
  FS.node_at fs src = Some (File c t) →
  move_file src dst false (fs, idx) = (Ok p, s') →
  p = safe_name fs dst ∧ s'.2 = idx
  ∧ ∀ q, FS.node_at s'.1 q =
      if decide (q = safe_name fs dst) then Some (File c t)
      else if decide (q = src) then None
      else if decide (q ∈ FS.prefixes (PyPath.parent dst)) then Some Dir
      else FS.node_at fs q.
Proof.
  intros Hsrc Hmove.
  assert (Hdirs : can_mkdir fs (PyPath.parent dst)).
  { rewrite move_file_unfold in Hmove. cbn [fst snd] in Hmove. cbv zeta in Hmove.
    rewrite parent_safe_name in Hmove.
    destruct (FS.mkdir_parents fs (PyPath.parent dst)) as [fs1|e] eqn:Hmk; [|done].
    by apply mkdir_parents_Ok in Hmk as [? _]. }
  destruct (move_file_real fs idx src dst c t Hsrc Hdirs) as (fs' & Hmove' & Hat).
  rewrite Hmove in Hmove'. by injection Hmove' as -> ->.
Qed.

(** [organize_file] ended well in a real run: the file was a regular
    file, and it was moved to a free name in a bucket below the
    destination. *)
Lemma organize_file_real_Ok (path : Path) (config : Config) (fs fs' : fsys)
    (idx idx' : json) r :
  dry_run config = false →
  organize_file path config (fs, idx) = (Ok r, (fs', idx')) →
  ∃ c t dir bucket,
    let target := destination config // dir // bucket // PyPath.name path in
    FS.node_at fs path = Some (File c t)
    ∧ (dir = "duplicates" ∨ dir = classify_file path)
    ∧ ∀ q, FS.node_at fs' q =
        if decide (q = safe_name fs target) then Some (File c t)
        else if decide (q = path) then None
        else if decide (q ∈ FS.prefixes (PyPath.parent target)) then Some Dir
        else FS.node_at fs q.
Proof.
  intros Hdry. rewrite organize_file_unfold, Hdry.
  destruct (bucket_for config fs path) as [bucket|e]; [|done].
  unfold sha256sum.
  destruct (FS.node_at fs path) as [[c t|]|] eqn:Hnode; try done.
  destruct idx as [| | | | | |kv]; try done.
  destruct (known_path_of _) as [known|e]; [|done].
  destruct (is_duplicate_of fs known path).
  - destruct (move_file _ _ _ _) as [[p|e] s'] eqn:Hmove; [|done].
    intros [= <- ->].
    destruct (move_file_real_inv _ _ _ _ _ _ _ _ Hnode Hmove) as (-> & _ & Hat).
    exists c, t, "duplicates", bucket. split; [done|]. split; [by left|done].
  - destruct (move_file _ _ _ _) as [[p|e] [fs2 idx2]] eqn:Hmove; [|done].
    intros [= <- <- <-].
    destruct (move_file_real_inv _ _ _ _ _ _ _ _ Hnode Hmove) as (-> & _ & Hat).
    exists c, t, (classify_file path), bucket. split; [done|]. split; [by right|done].
Qed.

(** When [organize_file] raises, it has changed nothing. *)
Lemma organize_file_Raise (path : Path) (config : Config) (fs fs' : fsys)
    (idx idx' : json) e :
  organize_file path config (fs, idx) = (Raise e, (fs', idx')) →
  fs' = fs ∧ idx' = idx.
Proof.
  rewrite organize_file_unfold.
  destruct (bucket_for config fs path) as [bucket|e0]; [|by intros [= _ <- <-]].
  unfold sha256sum.
  destruct (FS.node_at fs path) as [[c t|]|] eqn:Hnode;
    [|by intros [= _ <- <-]..].
  destruct idx as [| | | | | |kv]; try by intros [= _ <- <-].
  destruct (known_path_of _) as [known|e0]; [|by intros [= _ <- <-]].
  assert (Hmove : ∀ target,
    (move_file path target (dry_run config) (fs, JObject kv)).1 = Raise e →
    (move_file path target (dry_run config) (fs, JObject kv)).2 = (fs, JObject kv)).
  { intros target. rewrite move_file_unfold. cbn [fst snd]. cbv zeta.
    destruct (dry_run config); [done|].
    destruct (FS.mkdir_parents fs _) as [fs1|e1] eqn:Hmk; [|done].
    unfold FS.shutil_move.
    by rewrite (mkdir_parents_preserves _ _ _ _ _ Hmk Hnode). }
  destruct (is_duplicate_of fs known path).
  - destruct (move_file _ _ _ _) as [[p|e1] s'] eqn:Hm; [done|].
    intros [= -> ->]. specialize (Hmove _ (f_equal fst Hm)).
    rewrite Hm in Hmove. by injection Hmove.
  - destruct (move_file _ _ _ _) as [[p|e1] [fs2 idx2]] eqn:Hm; [done|].
    intros [= -> -> ->]. specialize (Hmove _ (f_equal fst Hm)).
    rewrite Hm in Hmove. by injection Hmove.
Qed.

(** In a dry run [organize_file] leaves the filesystem alone. *)
Lemma organize_file_dry (path : Path) (config : Config) (fs fs' : fsys)
    (idx idx' : json) r :
  dry_run config = true →
  organize_file path config (fs, idx) = (r, (fs', idx')) → fs' = fs.
Proof.
  intros Hdry. rewrite organize_file_unfold, Hdry.
  destruct (bucket_for config fs path) as [bucket|e0]; [|by intros [= _ <- _]].
  destruct (sha256sum fs path) as [digest|e0]; [|by intros [= _ <- _]].
  destruct idx as [| | | | | |kv]; try by intros [= _ <- _].
  destruct (known_path_of _) as [known|e0]; [|by intros [= _ <- _]].
  destruct (is_duplicate_of fs known path); rewrite move_file_dry;
    by intros [= _ <- _].
Qed.

Lemma prefix_parent (p : Path) : PyPath.parent p `prefix_of` p.
Proof.
  destruct (decide (p = [])) as [->|Hp]; [done|].
  rewrite <- (parent_name p Hp) at 2. by apply prefix_div.
Qed.

(** One round of a real pass that ended well: the file is gone from its
    place, no regular file appeared outside the destination, and the
    destination can still be made. *)
Lemma organize_file_real_step (path : Path) (config : Config) (fs fs' : fsys)
    (idx idx' : json) r :
  dry_run config = false →
  organize_file path config (fs, idx) = (Ok r, (fs', idx')) →
  FS.is_file fs' path = false
  ∧ (∀ q, ¬ destination config `prefix_of` q →
          FS.is_file fs' q = true → FS.is_file fs q = true)
  ∧ (can_mkdir fs (destination config) → can_mkdir fs' (destination config)).
Proof.
  intros Hdry Hok.
  destruct (organize_file_real_Ok _ _ _ _ _ _ _ Hdry Hok)
    as (c & t & dir & bucket & Hnode & _ & Hat).
  set (target := destination config // dir // bucket // PyPath.name path) in *.
  assert (Hdest : destination config `prefix_of` PyPath.parent target).
  { unfold target. rewrite parent_div. by do 2 apply prefix_div. }
  pose proof (safe_name_free fs target) as Hfree. unfold FS.exists_ in Hfree.
  assert (Hsn : destination config `prefix_of` safe_name fs target).
  { etrans; [done|]. rewrite <- (parent_safe_name fs target). apply prefix_parent. }
  assert (Hne : path ≠ safe_name fs target).
  { intros Heq. by rewrite <- Heq, Hnode in Hfree. }
  split; [|split].
  - unfold FS.is_file. rewrite Hat.
    rewrite decide_False by done. by rewrite decide_True.
  - intros q Hout. unfold FS.is_file. rewrite Hat.
    rewrite decide_False by (by intros ->). by repeat case_decide.
  - intros Hmk q Hq. unfold FS.is_file. rewrite Hat.
    rewrite decide_False; last first.
    { intros ->. apply prefixes_length in Hq.
      apply prefix_length in Hdest.
      rewrite <- (parent_safe_name fs target) in Hdest.
      pose proof (length_parent _ (safe_name_not_root fs target)). lia. }
    repeat case_decide; try done. by apply Hmk.
Qed.

(** The loop of a real pass in which no file raised: no listed file is
    left in its place, no regular file appeared outside the destination,
    and the destination can still be made. *)
Lemma organize_files_real (config : Config) (files : list Path) (fs : fsys)
    (idx : json) :
  dry_run config = false →
  (∀ f, f ∈ files → ¬ destination config `prefix_of` f) →
  let r := organize_files config files (fs, idx) in
  (∀ e, e ∈ printed r.1 → is_error e = false) →
  (∀ f, f ∈ files → FS.is_file r.2.1 f = false)
  ∧ (∀ q, ¬ destination config `prefix_of` q →
          FS.is_file r.2.1 q = true → FS.is_file fs q = true)
  ∧ (can_mkdir fs (destination config) → can_mkdir r.2.1 (destination config)).
Proof.
  intros Hdry. revert fs idx.
  induction files as [|f files IH]; intros fs idx Hout; cbv zeta.
  - rewrite organize_files_nil. cbn [fst snd]. intros _.
    split; [by intros f ?%elem_of_nil|done].
  - rewrite organize_files_cons. cbv zeta. cbn [fst snd printed tally_app tally_of].
    destruct (organize_file f config (fs, idx)) as [[r|e] [fs1 idx1]] eqn:Hstep;
      cbn [fst snd]; intros Hnoerr.
    + destruct (organize_file_real_step _ _ _ _ _ _ _ Hdry Hstep)
        as (Hgone & Hfiles & Hmk).
      destruct (IH fs1 idx1) as (IHgone & IHfiles & IHmk).
      { intros f' Hf'. apply Hout. by right. }
      { intros e' He'. apply Hnoerr. by right. }
      split; [|split].
      * intros f' [->|Hf']%elem_of_cons; [|by apply IHgone].
        apply not_true_is_false. intros Hfile.
        apply IHfiles in Hfile; [congruence|]. apply Hout. by left.
      * intros q Hq Hfile. apply Hfiles; [done|]. by apply IHfiles.
      * intros Hd. by apply IHmk, Hmk.
    + exfalso. specialize (Hnoerr (ERROR f e)). simpl in Hnoerr.
      discriminate Hnoerr. by left.
Qed.

Lemma mkdir_parents_can_mkdir (fs fs' : fsys) (p : Path) :
  FS.mkdir_parents fs p = Ok fs' → can_mkdir fs' p.
Proof.
  intros Hmk q Hq. unfold FS.is_file.
  rewrite (mkdir_parents_node_at _ _ _ _ Hmk). by rewrite decide_True.
Qed.

Lemma can_mkdir_Ok (fs : fsys) (p : Path) :
  can_mkdir fs p → ∃ fs', FS.mkdir_parents fs p = Ok fs'.
Proof. intros Hmk. eexists. by apply mkdir_parents_Ok. Qed.

Lemma is_file_lookup (fs : fsys) (p : Path) :
  FS.is_file fs p = true → p ≠ [] ∧ is_Some (fs !! p).
Proof.
  unfold FS.is_file. destruct p as [|s p]; [done|]. simpl.
  destruct (fs !! (s :: p)); [|done]. intros _. by split.
Qed.

(** The candidates of a filesystem are candidates of any filesystem that
    has them as regular files: the other tests look at the path only. *)
Lemma list_candidate_files_mono (fs fs0 : fsys) (source destination p : Path)
    (recursive : bool) :
  p ∈ list_candidate_files fs source destination recursive →
  FS.is_file fs0 p = true →
  p ∈ list_candidate_files fs0 source destination recursive.
Proof.
  rewrite !elem_of_list_candidate_files.
  intros (Hscan & _ & Hparts & Hname & Hout) Hfile.
  apply is_file_lookup in Hfile as Hkey. destruct Hkey as [_ Hkey].
  split; [|done]. destruct recursive.
  - apply elem_of_rglob. apply elem_of_rglob in Hscan as (_ & ? & ?). done.
  - apply elem_of_glob. apply elem_of_glob in Hscan as (_ & ? & ?). done.
Qed.

(** C5: after a real pass that returned and printed no [ERROR] line, a
    second pass on the filesystem it left returns, with [moved = 0] and
    [duplicates = 0], and prints nothing. *)
Theorem second_pass_moves_nothing (config : Config) (now now' : Z) (fs fs' : fsys)
    (m d : nat) (out : list event) :
  dry_run config = false →
  organize_pass config now fs = (Ok (m, d), out, fs') →
  (∀ e, e ∈ out → is_error e = false) →
  ∃ fs'', organize_pass config now' fs' = (Ok (0, 0), [], fs'').
Proof.
  intros Hdry Hpass Hnoerr.
  set (dest := destination config) in *.
  set (index_path := dest // INDEX_FILENAME) in *.
  (* the first pass, step by step *)
  unfold organize_pass in Hpass. fold dest index_path in Hpass.
  destruct (FS.mkdir_parents fs dest) as [fs1|e] eqn:Hmk1; [|done].
  destruct (load_index fs1 index_path) as [idx|e] eqn:Hload1; [|done].
  unfold organize_pass_from in Hpass. fold dest index_path in Hpass.
  set (files := list_candidate_files fs1 (source config) dest (recursive config)) in *.
  pose proof (organize_files_real config files fs1 idx Hdry) as Hloop.
  destruct (organize_files config files (fs1, idx)) as [t [fs2 idx2]] eqn:Hfiles.
  cbv zeta in Hloop. cbn [fst snd] in Hloop.
  unfold save_index in Hpass. rewrite Hdry in Hpass.
  destruct (FS.write_text fs2 index_path (json_dumps idx2) now) as [fs3|e] eqn:Hwrite;
    [|done].
  injection Hpass as <- <- <- <-.
  destruct Hloop as (Hgone & Hkept & Hmk2); [|done|].
  { intros f Hf. by apply elem_of_list_candidate_files in Hf as (_ & _ & _ & _ & ?). }
  specialize (Hmk2 (mkdir_parents_can_mkdir _ _ _ Hmk1)).
  assert (Hfs3 : fs3 = <[index_path := File (json_dumps idx2) now]> fs2).
  { unfold FS.write_text in Hwrite.
    destruct (FS.node_at fs2 index_path) as [[? ?|]|];
      destruct (FS.is_dir fs2 (PyPath.parent index_path)); by inversion Hwrite. }
  assert (Hidx_ne : index_path ≠ []) by apply div_not_root.
  set (fs' := prune_empty_dirs fs3 (source config) (keep_empty config)).
  (* the second pass: the destination can be made *)
  assert (Hmk3 : can_mkdir fs' dest).
  { intros q Hq. unfold fs'. rewrite prune_empty_dirs_is_file.
    unfold FS.is_file. rewrite Hfs3, node_at_insert by done.
    rewrite decide_False; [by apply Hmk2|].
    intros <-. apply prefixes_length in Hq. unfold index_path in Hq.
    rewrite length_div in Hq. lia. }
  destruct (can_mkdir_Ok _ _ Hmk3) as [fs1' Hmk1'].
  (* the index written by the first pass is read back *)
  assert (Hindex : FS.node_at fs1' index_path = Some (File (json_dumps idx2) now)).
  { apply (mkdir_parents_file _ _ _ _ _ _ Hmk1'). unfold fs'.
    apply prune_empty_dirs_file. rewrite Hfs3, node_at_insert by done.
    by rewrite decide_True. }
  assert (Hload : ∃ idx', load_index fs1' index_path = Ok idx').
  { unfold load_index, FS.exists_, FS.read_text. rewrite Hindex. simpl.
    rewrite json_dumps_valid. destruct (json_loads _); by eexists. }
  destruct Hload as [idx' Hload].
  (* no candidate is left *)
  assert (Hnone : list_candidate_files fs1' (source config) dest (recursive config) = []).
  { apply elem_of_nil_inv. intros p Hp.
    pose proof Hp as Hcand.
    apply elem_of_list_candidate_files in Hp as (_ & Hfile & _ & _ & Hout).
    assert (Hfile2 : FS.is_file fs2 p = true).
    { apply is_file_node_at in Hfile as (c & t' & Hnode).
      apply (mkdir_parents_file _ _ _ _ _ _ Hmk1') in Hnode. unfold fs' in Hnode.
      apply prune_empty_dirs_file in Hnode.
      rewrite Hfs3, node_at_insert in Hnode by done.
      destruct (decide (index_path = p)) as [<-|].
      - exfalso. apply Hout. unfold index_path. by apply prefix_div.
      - apply is_file_node_at. by exists c, t'. }
    assert (Hin : p ∈ files).
    { eapply list_candidate_files_mono; [done|]. by apply Hkept. }
    rewrite (Hgone p Hin) in Hfile2. done. }
  (* so the second pass does nothing *)
  unfold organize_pass. fold dest index_path. rewrite Hmk1', Hload.
  unfold organize_pass_from. fold dest index_path. rewrite Hnone, organize_files_nil.
  unfold save_index. rewrite Hdry. unfold FS.write_text. rewrite Hindex.
  unfold index_path at 1. rewrite parent_div.
  rewrite (mkdir_parents_is_dir _ _ _ Hmk1'). cbn [moved duplicates printed].
  by eexists.
Qed.

End Idempotence.

(* ===================================================================== *)
(** ** The index file can always be written back *)
(* ===================================================================== *)

Section IndexPlace.
Context `{PyLib}.






End IndexPlace.


(* ===================================================================== *)
(** ** Index: loading *)
(* ===================================================================== *)

Section Index.
Context `{PyLib}.


(** C10: a file whose text parses to a JSON value that is not an object is
    loaded as that value, which is not the empty index. *)
Theorem load_index_non_object (fs : fsys) (index_path : Path)
    (text : string) (mtime : Z) (v : json) :
  FS.node_at fs index_path = Some (File text mtime) →
  utf8_valid text = true →
  json_loads text = Some v →
  (∀ kv, v ≠ JObject kv) →
  load_index fs index_path = Ok v ∧ load_index fs index_path ≠ Ok (JObject []).
Proof.
  intros Hnode Hvalid Hparse Hv.
  assert (Hload : load_index fs index_path = Ok v).
  { unfold load_index, FS.read_text, FS.exists_. by rewrite Hnode, Hvalid, Hparse. }
  split; [done|]. rewrite Hload. intros [= ->]. by eapply Hv.
Qed.

End Index.


(** Bytes that are not UTF-8 are another matter: [read_text] raises
    [UnicodeDecodeError], which [load_index] does not catch. *)
Example load_index_undecodable :
  @load_index demo_lib
    {[ ["dst"; INDEX_FILENAME] := File (String (ascii_of_nat 255) "") 0 ]}
    ["dst"; INDEX_FILENAME] = Raise UnicodeDecodeError.
Proof. vm_compute. reflexivity. Qed.

Lemma load_index_non_object_witness :
  @load_index demo_lib {[ ["dst"; INDEX_FILENAME] := File "[1]" 0 ]}
    ["dst"; INDEX_FILENAME] = Ok (JArray [JInt 1]).
Proof.
  apply (@load_index_non_object demo_lib
           {[ ["dst"; INDEX_FILENAME] := File "[1]" 0 ]} ["dst"; INDEX_FILENAME]
           "[1]" 0%Z (JArray [JInt 1])); try (vm_compute; reflexivity).
  intros kv. discriminate.
Defined.

(* ===================================================================== *)
(** ** What a dry run leaves alone *)
(* ===================================================================== *)

Section DryRun.
Context `{PyLib}.

Lemma organize_files_dry (config : Config) (files : list Path) (fs : fsys)
    (idx : json) :
  dry_run config = true → (organize_files config files (fs, idx)).2.1 = fs.
Proof.
  intros Hdry. revert fs idx. induction files as [|f files IH]; intros fs idx; [done|].
  rewrite organize_files_cons. cbv zeta. cbn [fst snd].
  destruct (organize_file f config (fs, idx)) as [r [fs1 idx1]] eqn:Hstep.
  cbn [fst snd]. rewrite IH. by eapply organize_file_dry.
Qed.

(** A dry run neither creates, removes nor changes a regular file,
    however the pass ends; directories it does touch. *)
Lemma dry_run_keeps_files (config : Config) (now : Z) (fs fs' : fsys) r out :
  dry_run config = true →
  organize_pass config now fs = (r, out, fs') →
  ∀ q c t, FS.node_at fs' q = Some (File c t) ↔ FS.node_at fs q = Some (File c t).
Proof.
  intros Hdry Hpass q c t. unfold organize_pass in Hpass.
  destruct (FS.mkdir_parents fs (destination config)) as [fs1|e] eqn:Hmk;
    [|by injection Hpass as <- <- <-].
  rewrite <- (mkdir_parents_file _ _ _ q c t Hmk).
  destruct (load_index fs1 _) as [idx|e]; [|by injection Hpass as <- <- <-].
  unfold organize_pass_from, save_index in Hpass. rewrite Hdry in Hpass.
  pose proof (organize_files_dry config
    (list_candidate_files fs1 (source config) (destination config) (recursive config))
    fs1 idx Hdry) as Hloop.
  destruct (organize_files _ _ _) as [tl [fs2 idx2]]. cbn [fst snd] in Hloop.
  subst fs2. injection Hpass as <- <- <-. apply prune_empty_dirs_file.
Qed.

End DryRun.

(* ===================================================================== *)
(** ** The filesystem stays a tree *)
(* ===================================================================== *)

Section WellFormed.
Context `{PyLib}.

Lemma is_dir_node_at (fs : fsys) (p : Path) :
  FS.is_dir fs p = true ↔ FS.node_at fs p = Some Dir.
Proof. unfold FS.is_dir. by destruct (FS.node_at fs p) as [[]|]. Qed.

Lemma parent_prefixes (q p : Path) :
  q ∈ FS.prefixes p → PyPath.parent q = [] ∨ PyPath.parent q ∈ FS.prefixes p.
Proof.
  intros [Hq Hpre]%elem_of_prefixes.
  destruct (decide (PyPath.parent q = [])) as [|Hne]; [by left|]. right.
  apply elem_of_prefixes. split; [done|]. etrans; [apply prefix_parent|done].
Qed.

Lemma well_formed_mkdir_parents (fs fs' : fsys) (p : Path) :
  well_formed fs → FS.mkdir_parents fs p = Ok fs' → well_formed fs'.
Proof.
  intros Hwf Hmk q n Hq.
  assert (Hq_ne : q ≠ []).
  { intros ->. apply mkdir_parents_Ok in Hmk as [_ ->].
    assert (Hroot : ∀ l, (∀ x, x ∈ l → x ≠ []) →
              foldr (λ x m, <[x := Dir]> m) fs l !! ([] : Path) = fs !! ([] : Path)).
    { induction l as [|x l IH]; intros Hl; simpl; [done|].
      rewrite lookup_insert_ne by (apply Hl; left). apply IH.
      intros; apply Hl; by right. }
    rewrite Hroot in Hq by (intros ?; apply prefixes_not_root).
    by apply Hwf in Hq as [? _]. }
  split; [done|]. apply is_dir_node_at.
  rewrite <- node_at_lookup in Hq by done.
  rewrite (mkdir_parents_node_at _ _ _ _ Hmk) in Hq.
  destruct (decide (q ∈ FS.prefixes p)) as [Hin|Hnin].
  - destruct (parent_prefixes _ _ Hin) as [-> | Hpar]; [done|].
    rewrite (mkdir_parents_node_at _ _ _ _ Hmk). by rewrite decide_True.
  - rewrite node_at_lookup in Hq by done. apply Hwf in Hq as [_ Hdir].
    apply is_dir_node_at in Hdir. by eapply mkdir_parents_preserves.
Qed.

(** Moving a regular file to a free name in a directory. *)
Lemma well_formed_move (fs : fsys) (src dst : Path) (c : string) (t : Z) :
  well_formed fs →
  fs !! src = Some (File c t) →
  fs !! dst = None → dst ≠ [] →
  FS.is_dir fs (PyPath.parent dst) = true →
  well_formed (<[dst := File c t]> (delete src fs)).
Proof.
  intros Hwf Hsrc Hfree Hdst Hpar q n Hq.
  assert (Hsrc_ne : src ≠ []) by (by apply Hwf in Hsrc as [? _]).
  assert (Hkeep : ∀ d, FS.is_dir fs d = true →
            FS.is_dir (<[dst := File c t]> (delete src fs)) d = true).
  { intros d Hd. apply is_dir_node_at in Hd. apply is_dir_node_at.
    rewrite node_at_insert, node_at_delete by done.
    rewrite decide_False; last first.
    { intros <-. by rewrite node_at_lookup, Hfree in Hd. }
    rewrite decide_False; [done|].
    intros <-. by rewrite node_at_lookup, Hsrc in Hd. }
  rewrite lookup_insert in Hq. destruct (decide (dst = q)) as [<-|Hne].
  - split; [done|]. by apply Hkeep.
  - rewrite lookup_delete in Hq. destruct (decide (src = q)); [done|].
    apply Hwf in Hq as [? ?]. split; [done|]. by apply Hkeep.
Qed.

Lemma has_entries_false (fs : fsys) (d k : Path) :
  FS.has_entries fs d = false → is_Some (fs !! k) → d `prefix_of` k → d = k.
Proof.
  intros Hno Hk Hpre. destruct (decide (d = k)) as [|Hne]; [done|]. exfalso.
  apply not_true_iff_false in Hno. apply Hno. unfold FS.has_entries.
  apply existsb_exists. exists k. split.
  - apply list_elem_of_In. by apply elem_of_keys.
  - by apply bool_decide_eq_true.
Qed.

Lemma well_formed_try_rmdir (fs : fsys) (d : Path) :
  well_formed fs → well_formed (try_rmdir fs d).
Proof.
  intros Hwf. unfold try_rmdir, FS.rmdir.
  destruct (fs !! d) as [[c t|]|] eqn:Hd; try done.
  destruct (FS.has_entries fs d) eqn:Hno; [done|].
  intros q n Hq. rewrite lookup_delete in Hq.
  destruct (decide (d = q)) as [|Hne]; [done|].
  pose proof Hq as Hq'. apply Hwf in Hq as [Hq_ne Hdir]. split; [done|].
  apply is_dir_node_at in Hdir. apply is_dir_node_at.
  destruct (PyPath.parent q) as [|s par] eqn:Hpar; [done|].
  simpl in *. rewrite lookup_delete. rewrite decide_False; [done|].
  intros ->. apply Hne. apply (has_entries_false fs); [done|by eexists|].
  rewrite <- Hpar. apply prefix_parent.
Qed.

Lemma well_formed_prune_empty_dirs (fs : fsys) (root : Path) (keep : bool) :
  well_formed fs → well_formed (prune_empty_dirs fs root keep).
Proof.
  unfold prune_empty_dirs. destruct keep; [done|].
  generalize (sorted_deepest_first (List.filter (FS.is_dir fs) (FS.rglob fs root))).
  intros ds. revert fs. induction ds as [|d ds IH]; intros fs Hwf; [done|].
  simpl. by apply IH, well_formed_try_rmdir.
Qed.

Lemma well_formed_write_text (fs fs' : fsys) (p : Path) (text : string) (now : Z) :
  well_formed fs → p ≠ [] → FS.write_text fs p text now = Ok fs' → well_formed fs'.
Proof.
  intros Hwf Hp. unfold FS.write_text.
  destruct (FS.node_at fs p) as [[c t|]|] eqn:Hnode; [|done|];
    (destruct (FS.is_dir fs (PyPath.parent p)) eqn:Hpar; [|done]);
    intros [= <-]; intros q n Hq;
    (assert (Hkeep : ∀ d, FS.is_dir fs d = true →
               FS.is_dir (<[p := File text now]> fs) d = true);
     [ intros d Hd; apply is_dir_node_at in Hd; apply is_dir_node_at;
       rewrite node_at_insert by done; rewrite decide_False; [done|];
       intros <-; by rewrite Hnode in Hd
     | rewrite lookup_insert in Hq; destruct (decide (p = q)) as [<-|];
       [ split; [done|by apply Hkeep]
       | apply Hwf in Hq as [? ?]; split; [done|by apply Hkeep] ] ]).
Qed.

(** However [organize_file] ends, the filesystem is a tree again. *)
Lemma well_formed_organize_file (path : Path) (config : Config) (fs fs' : fsys)
    (idx idx' : json) r :
  well_formed fs →
  organize_file path config (fs, idx) = (r, (fs', idx')) →
  well_formed fs'.
Proof.
  intros Hwf Hrun. destruct r as [r|e]; last first.
  { by destruct (organize_file_Raise _ _ _ _ _ _ _ Hrun) as [-> _]. }
  destruct (dry_run config) eqn:Hdry.
  { by rewrite (organize_file_dry _ _ _ _ _ _ _ Hdry Hrun). }
  rewrite organize_file_unfold, Hdry in Hrun.
  destruct (bucket_for config fs path) as [bucket|e]; [|done].
  unfold sha256sum in Hrun.
  destruct (FS.node_at fs path) as [[c t|]|] eqn:Hnode; try done.
  destruct idx as [| | | | | |kv]; try done.
  destruct (known_path_of _) as [known|e]; [|done].
  assert (Hmove : ∀ target p s',
    move_file path target false (fs, JObject kv) = (Ok p, s') → well_formed s'.1).
  { intros target p s'. rewrite move_file_unfold. cbn [fst snd]. cbv zeta.
    destruct (FS.mkdir_parents fs _) as [fs1|e] eqn:Hmk; [|done].
    unfold FS.shutil_move.
    rewrite (mkdir_parents_preserves _ _ _ _ _ Hmk Hnode).
    intros [= <- <-]. cbn [fst].
    assert (Hpath : path ≠ []) by (by intros ->).
    apply well_formed_move.
    - by eapply well_formed_mkdir_parents.
    - rewrite <- node_at_lookup by done. by eapply mkdir_parents_preserves.
    - rewrite <- node_at_lookup by apply safe_name_not_root.
      rewrite (mkdir_parents_node_at _ _ _ _ Hmk).
      rewrite decide_False.
      + pose proof (safe_name_free fs target) as Hfree. unfold FS.exists_ in Hfree.
        by destruct (FS.node_at fs (safe_name fs target)).
      + rewrite parent_safe_name. apply safe_name_not_prefix.
    - apply safe_name_not_root.
    - by eapply mkdir_parents_is_dir. }
  destruct (is_duplicate_of fs known path).
  - destruct (move_file _ _ _ _) as [[p|e] s'] eqn:Hm; [|done].
    injection Hrun as <- ->. by apply (Hmove _ _ _ Hm).
  - destruct (move_file _ _ _ _) as [[p|e] [fs2 idx2]] eqn:Hm; [|done].
    injection Hrun as <- <- <-. by apply (Hmove _ _ _ Hm).
Qed.

Lemma well_formed_organize_files (config : Config) (files : list Path)
    (fs : fsys) (idx : json) :
  well_formed fs → well_formed (organize_files config files (fs, idx)).2.1.
Proof.
  revert fs idx. induction files as [|f files IH]; intros fs idx Hwf; [done|].
  rewrite organize_files_cons. cbv zeta. cbn [fst snd].
  destruct (organize_file f config (fs, idx)) as [r [fs1 idx1]] eqn:Hstep.
  cbn [fst snd]. apply IH. by eapply well_formed_organize_file.
Qed.

(** A pass, however it ends, leaves a tree where it found one: on the
    filesystems the program meets, looking a path up in the map is what
    the operating system does when it walks the path. *)
Lemma well_formed_organize_pass (config : Config) (now : Z) (fs fs' : fsys) r out :
  well_formed fs →
  organize_pass config now fs = (r, out, fs') →
  well_formed fs'.
Proof.
  intros Hwf. unfold organize_pass.
  destruct (FS.mkdir_parents fs (destination config)) as [fs1|e] eqn:Hmk;
    [|by intros [= _ _ <-]].
  pose proof (well_formed_mkdir_parents _ _ _ Hwf Hmk) as Hwf1.
  destruct (load_index fs1 _) as [idx|e]; [|by intros [= _ _ <-]].
  unfold organize_pass_from.
  pose proof (well_formed_organize_files config
    (list_candidate_files fs1 (source config) (destination config) (recursive config))
    fs1 idx Hwf1) as Hwf2.
  destruct (organize_files _ _ _) as [tl [fs2 idx2]]. cbn [fst snd] in Hwf2.
  unfold save_index. destruct (dry_run config).
  - intros [= _ _ <-]. by apply well_formed_prune_empty_dirs.
  - destruct (FS.write_text fs2 _ _ now) as [fs3|e] eqn:Hw; [|by intros [= _ _ <-]].
    intros [= _ _ <-]. apply well_formed_prune_empty_dirs.
    eapply well_formed_write_text; [done|apply div_not_root|done].
Qed.

End WellFormed.

(* ===================================================================== *)
(** ** The program run on examples *)
(* ===================================================================== *)



Lemma organize_file_duplicate_or_moved_witness :
  (∃ fs',
     @organize_file demo_lib ["in"; "a.txt"] (demo_config false)
       (demo_known, demo_known_index)
     = (Ok ("duplicate", "/out/duplicates/manual_or_unknown/a (1).txt"),
        (fs', demo_known_index))
     ∧ FS.node_at fs' ["out"; "duplicates"; "manual_or_unknown"; "a (1).txt"]
       = Some (File "x" 0)
     ∧ FS.node_at fs' ["in"; "a.txt"] = None)
  ∧ (∃ fs' kv',
       @organize_file demo_lib ["in"; "a.txt"] (demo_config false)
         (demo_empty_dir, JObject [])
       = (Ok ("moved", "/out/documents/manual_or_unknown/a.txt"), (fs', JObject kv'))
       ∧ dict_get kv' "x" = Some (JString "/out/documents/manual_or_unknown/a.txt")).
Proof.
  split.
  - destruct (proj1 (@organize_file_duplicate_or_moved demo_lib ["in"; "a.txt"]
                       (demo_config false) demo_known
                       [("x", JString "/out/documents/manual_or_unknown/first.txt")]
                       "x" 0%Z "manual_or_unknown" eq_refl eq_refl))
      as (fs' & Hrun & Hplaced).
    + exists "/out/documents/manual_or_unknown/first.txt".
      repeat split; try (vm_compute; reflexivity); discriminate.
    + right. intros q Hq. apply list_elem_of_In in Hq. simpl in Hq.
      destruct Hq as [<-|[<-|[<-|[]]]]; vm_compute; reflexivity.
    + exists fs'. split; [exact Hrun|]. destruct Hplaced as (_ & Hnew & Hgone).
      split; [exact Hnew|exact Hgone].
  - destruct (proj2 (@organize_file_duplicate_or_moved demo_lib ["in"; "a.txt"]
                       (demo_config false) demo_empty_dir [] "x" 0%Z
                       "manual_or_unknown" eq_refl eq_refl))
      as (fs' & kv' & Hrun & _ & Hentry & _).
    + left. reflexivity.
    + right. intros q Hq. apply list_elem_of_In in Hq. simpl in Hq.
      destruct Hq as [<-|[<-|[<-|[]]]]; vm_compute; reflexivity.
    + exists fs', kv'. split; [exact Hrun|exact Hentry].
Defined.

(** C1 as stated fails: a duplicate whose name is already taken among
    the duplicates is moved to a numbered name, not to
    [destination/duplicates/bucket/name]. *)
Lemma organize_file_as_stated_counterexample :
  dict_get [("x", JString "/out/documents/manual_or_unknown/first.txt")]
    (@sha256_hexdigest demo_lib "x")
    = Some (JString "/out/documents/manual_or_unknown/first.txt")
  ∧ FS.is_file demo_known (PyPath.of_str "/out/documents/manual_or_unknown/first.txt")
    = true
  ∧ PyPath.resolve (PyPath.of_str "/out/documents/manual_or_unknown/first.txt")
    ≠ PyPath.resolve ["in"; "a.txt"]
  ∧ PyPath.str (["out"] // "duplicates" // "manual_or_unknown" // "a.txt")
    = "/out/duplicates/manual_or_unknown/a.txt"
  ∧ (let r := @organize_file demo_lib ["in"; "a.txt"] (demo_config false)
                (demo_known, demo_known_index) in
     r.1 = Ok ("duplicate", "/out/duplicates/manual_or_unknown/a (1).txt")
     ∧ FS.node_at r.2.1 ["out"; "duplicates"; "manual_or_unknown"; "a (1).txt"]
       = Some (File "x" 0)
     ∧ FS.node_at r.2.1 ["in"; "a.txt"] = None).
Proof. repeat split; try (vm_compute; reflexivity); discriminate. Qed.

(** In a dry run the file is reported as moved and stays where it is. *)
Example organize_file_dry_run_moves_nothing :
  let r := @organize_file demo_lib ["in"; "a.txt"] (demo_config true)
             (demo_empty_dir, JObject []) in
  r.1 = Ok ("moved", "/out/documents/manual_or_unknown/a.txt")
  ∧ FS.node_at r.2.1 ["in"; "a.txt"] = Some (File "x" 0)
  ∧ FS.node_at r.2.1 ["out"; "documents"; "manual_or_unknown"; "a.txt"] = None.
Proof. repeat split; vm_compute; reflexivity. Qed.

(** An empty index entry counts as no entry, although the path it denotes
    exists and is not the file. *)
Example organize_file_empty_entry :
  FS.exists_ demo_known (PyPath.of_str "") = true
  ∧ PyPath.resolve (PyPath.of_str "") ≠ PyPath.resolve ["in"; "a.txt"]
  ∧ (@organize_file demo_lib ["in"; "a.txt"] (demo_config false)
       (demo_known, JObject [("x", JString "")])).1
    = Ok ("moved", "/out/documents/manual_or_unknown/a.txt").
Proof. repeat split; try (vm_compute; reflexivity); discriminate. Qed.

Lemma second_pass_moves_nothing_witness :
  ∃ fs'',
    @organize_pass demo_lib (demo_config false) 2
      (@organize_pass demo_lib (demo_config false) 1 demo_twins).2
    = (Ok (0, 0), [], fs'').
Proof.
  apply (@second_pass_moves_nothing demo_lib (demo_config false) 1 2 demo_twins
           (@organize_pass demo_lib (demo_config false) 1 demo_twins).2 1 1
           [MOVED ["in"; "b.txt"] "/out/documents/manual_or_unknown/b.txt";
            DUPLICATE ["in"; "a.txt"] "/out/duplicates/manual_or_unknown/a.txt"]).
  - reflexivity.
  - vm_compute. reflexivity.
  - intros e He. apply list_elem_of_In in He. simpl in He.
    destruct He as [<-|[<-|[]]]; reflexivity.
Defined.

(** C2 on the code: with two files of the same bytes in the source, a
    dry run reports two moved and no duplicate, a real run of the same
    pass on the same files one moved and one duplicate. *)
Theorem dry_run_counts_differ_from_real_run :
  (@organize_pass demo_lib (demo_config true) 1 demo_twins).1
  = (Ok (2, 0),
     [MOVED ["in"; "b.txt"] "/out/documents/manual_or_unknown/b.txt";
      MOVED ["in"; "a.txt"] "/out/documents/manual_or_unknown/a.txt"])
  ∧ (@organize_pass demo_lib (demo_config false) 1 demo_twins).1
    = (Ok (1, 1),
       [MOVED ["in"; "b.txt"] "/out/documents/manual_or_unknown/b.txt";
        DUPLICATE ["in"; "a.txt"] "/out/duplicates/manual_or_unknown/a.txt"]).
Proof. split; vm_compute; reflexivity. Qed.

(** C3 on the code: a dry run creates the destination directory when it
    is missing and removes an empty directory of the source. *)
Theorem dry_run_changes_directories :
  let r := @organize_pass demo_lib (demo_config true) 1 demo_empty_dir in
  r.1.1 = Ok (1, 0)
  ∧ demo_empty_dir !! ["out"] = None ∧ r.2 !! ["out"] = Some Dir
  ∧ demo_empty_dir !! ["in"; "empty"] = Some Dir ∧ r.2 !! ["in"; "empty"] = None
  ∧ r.2 ≠ demo_empty_dir.
Proof.
  repeat split; try (vm_compute; reflexivity).
  intros Heq. apply (f_equal (λ m : fsys, m !! ["out"])) in Heq.
  vm_compute in Heq. discriminate.
Qed.

(* ===================================================================== *)
(** ** What [move_file] and [organize_file] leave alone *)
(* ===================================================================== *)

Section Frames.
Context `{PyLib}.


(** [organize_file] ended well in a real run: it moved the file. *)
Lemma organize_file_real_move (path : Path) (config : Config) (fs fs' : fsys)
    (idx idx' : json) r :
  dry_run config = false →
  organize_file path config (fs, idx) = (Ok r, (fs', idx')) →
  ∃ c t target p idx1,
    FS.node_at fs path = Some (File c t)
    ∧ move_file path target false (fs, idx) = (Ok p, (fs', idx1)).
Proof.
  intros Hdry. rewrite organize_file_unfold, Hdry.
  destruct (bucket_for config fs path) as [bucket|e]; [|done].
  unfold sha256sum.
  destruct (FS.node_at fs path) as [[c t|]|] eqn:Hnode; try done.
  destruct idx as [| | | | | |kv]; try done.
  destruct (known_path_of _) as [known|e]; [|done].
  destruct (is_duplicate_of fs known path).
  - destruct (move_file _ _ _ _) as [[p|e] [fs2 idx2]] eqn:Hmove; [|done].
    intros [= <- <- <-]. by repeat eexists.
  - destruct (move_file _ _ _ _) as [[p|e] [fs2 idx2]] eqn:Hmove; [|done].
    intros [= <- <- <-]. by repeat eexists.
Qed.

(** However [organize_file] ends, every entry but the file is kept. *)
Lemma organize_file_keeps_others (path : Path) (config : Config) (fs fs' : fsys)
    (idx idx' : json) r (q : Path) (n : node) :
  organize_file path config (fs, idx) = (r, (fs', idx')) →
  q ≠ path → FS.node_at fs q = Some n → FS.node_at fs' q = Some n.
Proof.
  intros Hrun Hq Hn. destruct r as [r|e]; last first.
  { by destruct (organize_file_Raise _ _ _ _ _ _ _ Hrun) as [-> _]. }
  destruct (dry_run config) eqn:Hdry.
  { by rewrite (organize_file_dry _ _ _ _ _ _ _ Hdry Hrun). }
  destruct (organize_file_real_move _ _ _ _ _ _ _ Hdry Hrun)
    as (c & t & target & p & idx1 & Hnode & Hmove).
  destruct (move_file_real_no_overwrite _ _ _ _ _ _ _ _ Hnode Hmove)
    as (_ & _ & _ & Hkeep).
  by apply Hkeep.
Qed.

(** What [organize_file] does to the index dictionary. *)
Lemma organize_file_index (path : Path) (config : Config) (fs fs' : fsys)
    (kv : list (string * json)) (idx' : json) r :
  organize_file path config (fs, JObject kv) = (r, (fs', idx')) →
  idx' = JObject kv
  ∨ ∃ c t final,
      FS.node_at fs path = Some (File c t)
      ∧ r = Ok ("moved", final)
      ∧ idx' = JObject (dict_set kv (sha256_hexdigest c) (JString final)).
Proof.
  rewrite organize_file_unfold.
  destruct (bucket_for config fs path) as [bucket|e]; [|intros [= _ _ <-]; by left].
  unfold sha256sum.
  destruct (FS.node_at fs path) as [[c t|]|] eqn:Hnode;
    [|intros [= _ _ <-]; by left..].
  destruct (known_path_of _) as [known|e]; [|intros [= _ _ <-]; by left].
  destruct (is_duplicate_of fs known path).
  - destruct (move_file _ _ _ _) as [[p|e] [fs2 idx2]] eqn:Hmove.
    + intros [= _ _ <-]. left.
      rewrite move_file_unfold in Hmove. cbn [fst snd] in Hmove. cbv zeta in Hmove.
      destruct (dry_run config); [by injection Hmove|].
      destruct (FS.mkdir_parents _ _); [|done].
      destruct (FS.shutil_move _ _ _); by injection Hmove.
    + intros [= _ _ <-]. left.
      rewrite move_file_unfold in Hmove. cbn [fst snd] in Hmove. cbv zeta in Hmove.
      destruct (dry_run config); [by injection Hmove|].
      destruct (FS.mkdir_parents _ _); [|by injection Hmove].
      destruct (FS.shutil_move _ _ _); by injection Hmove.
  - destruct (move_file _ _ _ _) as [[p|e] [fs2 idx2]] eqn:Hmove.
    + intros [= <- _ <-]. right. by exists c, t, (PyPath.str p).
    + intros [= _ _ <-]. left.
      rewrite move_file_unfold in Hmove. cbn [fst snd] in Hmove. cbv zeta in Hmove.
      destruct (dry_run config); [by injection Hmove|].
      destruct (FS.mkdir_parents _ _); [|by injection Hmove].
      destruct (FS.shutil_move _ _ _); by injection Hmove.
Qed.

(** X2: however [organize_file] ends on a file, it changes no other entry
    of the filesystem and no index entry but the one of the file's digest;
    when it raises it has changed nothing at all. *)
Theorem organize_file_touches_only_its_file (path : Path) (config : Config)
    (fs : fsys) (kv : list (string * json)) :
  let run := organize_file path config (fs, JObject kv) in
  (∀ e, run.1 = Raise e → run.2 = (fs, JObject kv))
  ∧ (∀ q n, q ≠ path → FS.node_at fs q = Some n → FS.node_at run.2.1 q = Some n)
  ∧ ∃ kv', run.2.2 = JObject kv'
           ∧ ∀ c t k, FS.node_at fs path = Some (File c t) →
                      k ≠ sha256_hexdigest c → dict_get kv' k = dict_get kv k.
Proof.
  intros run. subst run.
  destruct (organize_file path config (fs, JObject kv)) as [r [fs' idx']] eqn:Hrun.
  cbn [fst snd]. split; [|split].
  - intros e ->. by destruct (organize_file_Raise _ _ _ _ _ _ _ Hrun) as [-> ->].
  - intros q n. by eapply organize_file_keeps_others.
  - destruct (organize_file_index _ _ _ _ _ _ _ Hrun)
      as [-> | (c & t & final & Hnode & _ & ->)].
    + by exists kv.
    + eexists. split; [done|]. intros c' t' k Hnode' Hk.
      rewrite Hnode in Hnode'. injection Hnode' as <- <-.
      by apply dict_get_set_ne.
Qed.

End Frames.

(* ===================================================================== *)
(** ** What a pass keeps *)
(* ===================================================================== *)

Section PassFrames.
Context `{PyLib}.

Lemma organize_files_keeps_others (config : Config) (files : list Path)
    (fs : fsys) (idx : json) (q : Path) (n : node) :
  q ∉ files → FS.node_at fs q = Some n →
  FS.node_at (organize_files config files (fs, idx)).2.1 q = Some n.
Proof.
  revert fs idx. induction files as [|f files IH]; intros fs idx Hq Hn; [done|].
  rewrite organize_files_cons. cbv zeta. cbn [fst snd].
  destruct (organize_file f config (fs, idx)) as [r [fs1 idx1]] eqn:Hstep.
  cbn [fst snd]. apply IH.
  - intros Hin. apply Hq. by right.
  - eapply organize_file_keeps_others; [done| |done].
    intros ->. apply Hq. by left.
Qed.

(** The candidates do not depend on the directories [mkdir] adds. *)
Lemma candidates_after_mkdir (config : Config) (fs fs1 : fsys) (d q : Path) :
  FS.mkdir_parents fs d = Ok fs1 →
  q ∈ candidates_of config fs1 → q ∈ candidates_of config fs.
Proof.
  intros Hmk Hq. unfold candidates_of in *.
  eapply list_candidate_files_mono; [done|].
  apply elem_of_list_candidate_files in Hq as (_ & Hfile & _).
  apply is_file_node_at in Hfile as (c & t & Hnode). apply is_file_node_at.
  exists c, t. by apply (mkdir_parents_file _ _ _ _ _ _ Hmk).
Qed.

(** What the steps of a pass after the loop do to a regular file that is
    not the index file. *)
Lemma pass_tail_file (config : Config) (now : Z) (fs2 fs3 : fsys) (idx : json)
    (q : Path) (c : string) (t : Z) :
  save_index fs2 (index_path_of config) idx (dry_run config) now = Ok fs3 →
  q ≠ index_path_of config →
  FS.node_at (prune_empty_dirs fs3 (source config) (keep_empty config)) q
    = Some (File c t)
  ↔ FS.node_at fs2 q = Some (File c t).
Proof.
  intros Hsave Hq. rewrite prune_empty_dirs_file.
  unfold save_index in Hsave. destruct (dry_run config); [by injection Hsave as <-|].
  unfold FS.write_text in Hsave.
  assert (fs3 = <[index_path_of config := File (json_dumps idx) now]> fs2) as ->.
  { destruct (FS.node_at fs2 (index_path_of config)) as [[? ?|]|]; [|done|];
      (destruct (FS.is_dir fs2 (PyPath.parent (index_path_of config))); [|done]);
      by injection Hsave. }
  rewrite node_at_insert by apply div_not_root. by rewrite decide_False.
Qed.

(** X3: whatever the mode and however the pass ends, a regular file that
    is neither a candidate nor the index file is afterwards where it was,
    with its content and modification time. *)
Theorem pass_leaves_other_files_alone (config : Config) (now : Z) (fs : fsys)
    (q : Path) (c : string) (t : Z) :
  FS.node_at fs q = Some (File c t) →
  q ≠ index_path_of config →
  q ∉ candidates_of config fs →
  FS.node_at (organize_pass config now fs).2 q = Some (File c t).
Proof.
  intros Hnode Hidx Hcand. unfold organize_pass.
  destruct (FS.mkdir_parents fs (destination config)) as [fs1|e] eqn:Hmk; [|done].
  assert (Hnode1 : FS.node_at fs1 q = Some (File c t))
    by by eapply mkdir_parents_preserves.
  destruct (load_index fs1 _) as [idx|e]; [|done].
  unfold organize_pass_from. fold (index_path_of config) (candidates_of config fs1).
  assert (Hnot : q ∉ candidates_of config fs1).
  { intros Hin. by apply Hcand, (candidates_after_mkdir _ _ _ _ _ Hmk). }
  pose proof (organize_files_keeps_others config _ fs1 idx q _ Hnot Hnode1) as Hloop.
  destruct (organize_files _ _ _) as [tl [fs2 idx2]]. cbn [fst snd] in Hloop.
  destruct (save_index fs2 _ _ _ _) as [fs3|e] eqn:Hsave; [|done].
  cbn [snd]. by apply (pass_tail_file _ _ _ _ _ _ _ _ Hsave Hidx).
Qed.

(** However [organize_file] ends, a regular file outside the destination
    was there before. *)
Lemma organize_file_no_new_file (path : Path) (config : Config) (fs fs' : fsys)
    (idx idx' : json) r (q : Path) (c : string) (t : Z) :
  organize_file path config (fs, idx) = (r, (fs', idx')) →
  ¬ destination config `prefix_of` q →
  FS.node_at fs' q = Some (File c t) → FS.node_at fs q = Some (File c t).
Proof.
  intros Hrun Hout. destruct r as [r|e]; last first.
  { by destruct (organize_file_Raise _ _ _ _ _ _ _ Hrun) as [-> _]. }
  destruct (dry_run config) eqn:Hdry.
  { by rewrite (organize_file_dry _ _ _ _ _ _ _ Hdry Hrun). }
  destruct (organize_file_real_Ok _ _ _ _ _ _ _ Hdry Hrun)
    as (c0 & t0 & dir & bucket & Hnode & _ & Hat).
  set (target := destination config // dir // bucket // PyPath.name path) in *.
  rewrite Hat. rewrite decide_False; [by repeat case_decide|].
  intros ->. apply Hout. etrans; [|apply prefix_parent].
  rewrite parent_safe_name. unfold target. rewrite parent_div.
  by do 2 apply prefix_div.
Qed.

Lemma organize_files_no_new_file (config : Config) (files : list Path)
    (fs : fsys) (idx : json) (q : Path) (c : string) (t : Z) :
  ¬ destination config `prefix_of` q →
  FS.node_at (organize_files config files (fs, idx)).2.1 q = Some (File c t) →
  FS.node_at fs q = Some (File c t).
Proof.
  intros Hout. revert fs idx. induction files as [|f files IH]; intros fs idx; [done|].
  rewrite organize_files_cons. cbv zeta. cbn [fst snd].
  destruct (organize_file f config (fs, idx)) as [r [fs1 idx1]] eqn:Hstep.
  cbn [fst snd]. intros Hend%IH. by eapply organize_file_no_new_file.
Qed.

(** X4: whatever the mode and however the pass ends, it creates and
    changes no regular file outside the destination: a regular file found
    there after the pass was there before, with the same content and
    modification time. *)
Theorem pass_writes_files_only_in_destination (config : Config) (now : Z)
    (fs : fsys) (q : Path) (c : string) (t : Z) :
  ¬ destination config `prefix_of` q →
  FS.node_at (organize_pass config now fs).2 q = Some (File c t) →
  FS.node_at fs q = Some (File c t).
Proof.
  intros Hout. unfold organize_pass.
  destruct (FS.mkdir_parents fs (destination config)) as [fs1|e] eqn:Hmk; [|done].
  rewrite <- (mkdir_parents_file _ _ _ q c t Hmk).
  destruct (load_index fs1 _) as [idx|e]; [|done].
  unfold organize_pass_from. fold (index_path_of config).
  pose proof (organize_files_no_new_file config
    (list_candidate_files fs1 (source config) (destination config) (recursive config))
    fs1 idx q c t Hout) as Hloop.
  destruct (organize_files _ _ _) as [tl [fs2 idx2]]. cbn [fst snd] in Hloop.
  destruct (save_index fs2 _ _ _ _) as [fs3|e] eqn:Hsave; [|done].
  cbn [snd]. intros Hend. apply Hloop.
  apply (pass_tail_file _ _ _ _ _ _ _ _ Hsave); [|done].
  intros ->. apply Hout. unfold index_path_of. by apply prefix_div.
Qed.

(** A content is safe when it is at its first place or in a bucket of the
    destination. *)
Lemma organize_files_keeps_content (config : Config) (files : list Path)
    (fs : fsys) (idx : json) (q q0 : Path) (c : string) (t : Z) :
  (∀ f, f ∈ files → ¬ destination config `prefix_of` f) →
  FS.node_at fs q = Some (File c t) →
  q = q0 ∨ (destination config `prefix_of` q ∧ q ≠ index_path_of config) →
  ∃ q', FS.node_at (organize_files config files (fs, idx)).2.1 q' = Some (File c t)
        ∧ (q' = q0 ∨ (destination config `prefix_of` q' ∧ q' ≠ index_path_of config)).
Proof.
  revert fs idx q. induction files as [|f files IH]; intros fs idx q Hout Hnode Hq.
  { by exists q. }
  rewrite organize_files_cons. cbv zeta. cbn [fst snd].
  destruct (organize_file f config (fs, idx)) as [r [fs1 idx1]] eqn:Hstep.
  cbn [fst snd].
  assert (Hout' : ∀ f', f' ∈ files → ¬ destination config `prefix_of` f')
    by (intros; apply Hout; by right).
  destruct (decide (q = f)) as [->|Hne].
  - destruct r as [r|e].
    + destruct (dry_run config) eqn:Hdry.
      { rewrite (organize_file_dry _ _ _ _ _ _ _ Hdry Hstep). by apply (IH _ _ f). }
      destruct (organize_file_real_Ok _ _ _ _ _ _ _ Hdry Hstep)
        as (c0 & t0 & dir & bucket & Hnode0 & _ & Hat).
      set (target := destination config // dir // bucket // PyPath.name f) in *.
      rewrite Hnode in Hnode0. injection Hnode0 as <- <-.
      apply (IH _ _ (safe_name fs target)); [done| |].
      * rewrite Hat. by rewrite decide_True.
      * right. split.
        -- etrans; [|apply prefix_parent]. rewrite parent_safe_name.
           unfold target. rewrite parent_div. by do 2 apply prefix_div.
        -- intros Heq. apply (f_equal length) in Heq.
           rewrite <- (length_parent _ (safe_name_not_root fs target)) in Heq.
           rewrite parent_safe_name in Heq. unfold target, index_path_of in Heq.
           rewrite parent_div, !length_div in Heq. lia.
    + destruct (organize_file_Raise _ _ _ _ _ _ _ Hstep) as [-> _].
      by apply (IH _ _ f).
  - apply (IH _ _ q); [done| |done].
    by eapply organize_file_keeps_others.
Qed.

(** X5: whatever the mode and however the pass ends, no content is lost:
    the content and modification time of every regular file other than
    the index file are afterwards found at the file's place or below the
    destination. *)
Theorem pass_never_loses_content (config : Config) (now : Z) (fs : fsys)
    (q : Path) (c : string) (t : Z) :
  FS.node_at fs q = Some (File c t) →
  q ≠ index_path_of config →
  ∃ q', FS.node_at (organize_pass config now fs).2 q' = Some (File c t)
        ∧ (q' = q ∨ destination config `prefix_of` q').
Proof.
  intros Hnode Hidx. unfold organize_pass.
  destruct (FS.mkdir_parents fs (destination config)) as [fs1|e] eqn:Hmk;
    [|exists q; by split; [|left]].
  assert (Hnode1 : FS.node_at fs1 q = Some (File c t))
    by by eapply mkdir_parents_preserves.
  destruct (load_index fs1 _) as [idx|e]; [|exists q; by split; [|left]].
  unfold organize_pass_from. fold (index_path_of config) (candidates_of config fs1).
  destruct (organize_files_keeps_content config (candidates_of config fs1)
              fs1 idx q q c t) as (q' & Hend & Hq'); [|done|by left|].
  { intros f Hf.
    by apply elem_of_list_candidate_files in Hf as (_ & _ & _ & _ & ?). }
  destruct (organize_files _ _ _) as [tl [fs2 idx2]]. cbn [fst snd] in Hend.
  assert (Hq'_idx : q' ≠ index_path_of config) by (destruct Hq' as [->|[_ ?]]; done).
  exists q'. split; [|destruct Hq' as [->|[? _]]; [by left|by right]].
  destruct (save_index fs2 _ _ _ _) as [fs3|e] eqn:Hsave; [|done].
  cbn [snd]. by apply (pass_tail_file _ _ _ _ _ _ _ _ Hsave Hq'_idx).
Qed.

(** In watch mode too a dry run keeps every regular file. *)
Lemma watch_loop_dry_run_keeps_files (config : Config) (ticks : list Z) (fs : fsys)
    (cycles : list (nat * nat)) (out : list event) (q : Path) (c : string) (t : Z) :
  dry_run config = true →
  FS.node_at (outcome_fs (watch_loop config ticks fs cycles out)) q = Some (File c t)
  ↔ FS.node_at fs q = Some (File c t).
Proof.
  intros Hdry. revert fs cycles out.
  induction ticks as [|now ticks IH]; intros fs cycles out; [done|].
  simpl. destruct (organize_pass config now fs) as [[[[m d]|e] o] fs'] eqn:Hpass.
  - rewrite IH. by eapply dry_run_keeps_files.
  - simpl. by eapply dry_run_keeps_files.
Qed.

(** X6: with [--dry-run], whatever [main] does (it rejects the arguments,
    runs one pass, or watches for any number of cycles, and however a
    pass ends), it creates, removes and changes no regular file: the files,
    the index file among them, are afterwards what they were. *)
Theorem main_dry_run_keeps_files (args : Args) (ticks : list Z) (fs : fsys)
    (q : Path) (c : string) (t : Z) :
  arg_dry_run args = true →
  FS.node_at (outcome_fs (main args ticks fs)) q = Some (File c t)
  ↔ FS.node_at fs q = Some (File c t).
Proof.
  intros Hdry. unfold main. cbn [source destination dry_run].
  destruct (negb _ || negb _); [done|].
  destruct (bool_decide _); [done|].
  destruct (arg_watch args).
  - apply watch_loop_dry_run_keeps_files. exact Hdry.
  - destruct (organize_pass _ _ fs) as [[[[m d]|e] o] fs'] eqn:Hpass;
      cbn [outcome_fs];
      apply (λ Hd, dry_run_keeps_files _ _ _ _ _ _ Hd Hpass q c t); exact Hdry.
Qed.

End PassFrames.

(* ===================================================================== *)
(** ** The scanner: what is listed *)
(* ===================================================================== *)

Section Candidates.
Context `{PyLib}.

Lemma NoDup_bool_filter (f : Path → bool) (l : list Path) :
  NoDup l → NoDup (List.filter f l).
Proof. rewrite !NoDup_ListNoDup. apply List.NoDup_filter. Qed.

Lemma NoDup_scan_order (l : list Path) : NoDup l → NoDup (scan_order l).
Proof. by rewrite (scan_order_perm l). Qed.

Lemma NoDup_rglob (fs : fsys) (root : Path) : NoDup (FS.rglob fs root).
Proof.
  unfold FS.rglob. apply NoDup_scan_order, NoDup_bool_filter, NoDup_fst_map_to_list.
Qed.

Lemma NoDup_glob (fs : fsys) (root : Path) : NoDup (FS.glob fs root).
Proof.
  unfold FS.glob. apply NoDup_scan_order, NoDup_bool_filter, NoDup_fst_map_to_list.
Qed.

Lemma NoDup_list_candidate_files (fs : fsys) (source destination : Path)
    (recursive : bool) :
  NoDup (list_candidate_files fs source destination recursive).
Proof.
  unfold list_candidate_files. apply NoDup_bool_filter.
  destruct recursive; [apply NoDup_rglob|apply NoDup_glob].
Qed.

(** X7: [list_candidate_files] lists every path once, and it lists exactly
    the regular files that lie below the source (directly in it when the
    scan is not recursive) and outside the destination, are not named
    like the index file, and have no part that, in lower case, is an
    ignored directory name. *)
Theorem list_candidate_files_lists_each_file_once (fs : fsys)
    (source destination : Path) (recursive : bool) :
  NoDup (list_candidate_files fs source destination recursive)
  ∧ ∀ p, p ∈ list_candidate_files fs source destination recursive ↔
         FS.is_file fs p = true
         ∧ source `prefix_of` p
         ∧ (if recursive then source ≠ p else length p = S (length source))
         ∧ ¬ destination `prefix_of` p
         ∧ PyPath.name p ≠ INDEX_FILENAME
         ∧ ∀ part, part ∈ p → PyStr.lower part ∉ IGNORED_DIRS.
Proof.
  split; [apply NoDup_list_candidate_files|].
  intros p. rewrite elem_of_list_candidate_files.
  assert (Hparts : existsb (λ part, mem (PyStr.lower part) IGNORED_DIRS)
                     (PyPath.parts p) = false
                   ↔ ∀ part, part ∈ p → PyStr.lower part ∉ IGNORED_DIRS).
  { unfold PyPath.parts, mem. split.
    - intros Hno part Hpart Hin. apply not_true_iff_false in Hno. apply Hno.
      apply existsb_exists. exists part.
      split; [by apply list_elem_of_In|by apply bool_decide_eq_true].
    - intros Hall. apply not_true_iff_false.
      intros (part & Hpart%list_elem_of_In & Hin%bool_decide_eq_true)%existsb_exists.
      by apply (Hall part). }
  assert (Hname : String.eqb (PyPath.name p) INDEX_FILENAME = false
                  ↔ PyPath.name p ≠ INDEX_FILENAME) by apply String.eqb_neq.
  rewrite Hparts, Hname. split.
  - intros (Hscan & Hfile & ? & ? & ?). repeat split; try done.
    + destruct recursive;
        [apply elem_of_rglob in Hscan|apply elem_of_glob in Hscan];
        by destruct Hscan as (_ & _ & ?).
    + destruct recursive;
        [apply elem_of_rglob in Hscan|apply elem_of_glob in Hscan];
        by destruct Hscan as (_ & ? & _).
  - intros (Hfile & Hpre & Hmode & ? & ? & ?). repeat split; try done.
    apply is_file_lookup in Hfile as [_ Hkey].
    destruct recursive; [by apply elem_of_rglob|by apply elem_of_glob].
Qed.

End Candidates.

(* ===================================================================== *)
(** ** The classifier: the table *)
(* ===================================================================== *)

(** An extension listed under a category is listed under no category
    before it in the table. *)
Lemma classify_file_listed (path : Path) (category : string) (exts : list string) :
  (category, exts) ∈ EXTENSION_MAP →
  PyStr.lower (PyPath.suffix path) ∈ exts →
  classify_file path = category.
Proof.
  intros Hin Hext. unfold classify_file.
  destruct (PyStr.lower (PyPath.suffix path)) as [|c0 ext]; unfold EXTENSION_MAP in *.
  - apply list_elem_of_In in Hin. simpl in Hin.
    repeat (destruct Hin as [Hin|Hin]; [injection Hin as <- <-;
      apply list_elem_of_In in Hext; simpl in Hext;
      repeat (destruct Hext as [Hext|Hext]; [discriminate Hext|]); done|]).
    done.
  - apply list_elem_of_In in Hin. simpl in Hin.
    repeat (destruct Hin as [Hin|Hin]; [injection Hin as <- <-;
      apply list_elem_of_In in Hext; simpl in Hext;
      repeat (destruct Hext as [Hext|Hext];
              [injection Hext as <- <-; reflexivity|]); done|]).
    done.
Qed.

Lemma classify_file_unlisted (path : Path) :
  (∀ category exts,
     (category, exts) ∈ EXTENSION_MAP →
     PyStr.lower (PyPath.suffix path) ∉ exts) →
  classify_file path = "other".
Proof.
  intros Hnone. unfold classify_file, EXTENSION_MAP in *.
  repeat match goal with
         | |- context [mem ?x ?l] =>
             let E := fresh "E" in
             destruct (mem x l) eqn:E;
             [ exfalso; apply bool_decide_eq_true in E;
               eapply Hnone; [|exact E];
               apply list_elem_of_In; simpl; tauto
             | ]
         end.
  reflexivity.
Qed.

(** X8: every extension of the table belongs to one category only, so the
    order of the table does not matter: a file whose extension, in lower
    case, is listed under a category is classified in that category, and
    a file whose extension is listed nowhere is classified as "other". *)
Theorem classify_file_follows_the_table (path : Path) :
  (∀ category exts,
     (category, exts) ∈ EXTENSION_MAP →
     PyStr.lower (PyPath.suffix path) ∈ exts →
     classify_file path = category)
  ∧ ((∀ category exts,
        (category, exts) ∈ EXTENSION_MAP →
        PyStr.lower (PyPath.suffix path) ∉ exts) →
     classify_file path = "other").
Proof.
  split.
  - intros category exts. apply classify_file_listed.
  - apply classify_file_unlisted.
Qed.

(* ===================================================================== *)
(** ** Pruning: which directories go *)
(* ===================================================================== *)

Section Prune.
Context `{PyLib}.

Lemma holds_file_true (fs : fsys) (d : Path) :
  holds_file fs d = true
  ↔ ∃ k c t, d `prefix_of` k ∧ FS.node_at fs k = Some (File c t).
Proof.
  unfold holds_file. rewrite existsb_exists. split.
  - intros (k & _ & [Hpre Hfile]%andb_true_iff).
    apply bool_decide_eq_true in Hpre.
    apply is_file_node_at in Hfile as (c & t & Hk). by exists k, c, t.
  - intros (k & c & t & Hpre & Hk). exists k. split.
    + apply list_elem_of_In, elem_of_keys. destruct k; [done|]. by eexists.
    + apply andb_true_iff. split; [by apply bool_decide_eq_true|].
      apply is_file_node_at. by exists c, t.
Qed.

Lemma holds_file_mono (fs : fsys) (d k : Path) :
  d `prefix_of` k → holds_file fs k = true → holds_file fs d = true.
Proof.
  rewrite !holds_file_true. intros Hpre (k' & c & t & Hk & Hfile).
  exists k', c, t. split; [by etrans|done].
Qed.

Lemma holds_file_try_rmdir (fs : fsys) (d q : Path) :
  holds_file (try_rmdir fs d) q = holds_file fs q.
Proof.
  apply eq_true_iff_eq. rewrite !holds_file_true.
  by setoid_rewrite try_rmdir_file.
Qed.

(** One [rmdir] with its error swallowed: an entry is as before, unless it
    is the directory, which had no entry below it. *)
Lemma try_rmdir_lookup (fs : fsys) (d q : Path) :
  try_rmdir fs d !! q = fs !! q
  ∨ (try_rmdir fs d !! q = None ∧ q = d ∧ fs !! d = Some Dir
     ∧ FS.has_entries fs d = false).
Proof.
  unfold try_rmdir, FS.rmdir.
  destruct (fs !! d) as [[c t|]|] eqn:Hd; [by left| |by left].
  destruct (FS.has_entries fs d) eqn:Hno; [by left|].
  destruct (decide (d = q)) as [->|Hne].
  - right. by rewrite lookup_delete_eq.
  - left. by rewrite lookup_delete_ne.
Qed.

Lemma try_rmdir_Some (fs : fsys) (d q : Path) (n : node) :
  try_rmdir fs d !! q = Some n → fs !! q = Some n.
Proof.
  destruct (try_rmdir_lookup fs d q) as [->|(-> & _)]; [done|discriminate].
Qed.

Lemma foldl_try_rmdir_None (ds : list Path) (fs : fsys) (q : Path) :
  fs !! q = None → foldl try_rmdir fs ds !! q = None.
Proof.
  revert fs. induction ds as [|d ds IH]; intros fs Hq; [done|].
  simpl. apply IH.
  destruct (try_rmdir_lookup fs d q) as [->|(-> & _)]; done.
Qed.

Lemma has_entries_false_holds_file (fs : fsys) (d : Path) :
  fs !! d = Some Dir → FS.has_entries fs d = false → holds_file fs d = false.
Proof.
  intros Hd Hno. apply not_true_iff_false.
  intros (k & c & t & Hpre & Hk)%holds_file_true.
  assert (d = k) as <-.
  { apply (has_entries_false fs); [done| |done].
    destruct k; [done|]. by eexists. }
  destruct d; [done|]. simpl in Hk. congruence.
Qed.

(** What a run of [rmdir]s changes: an entry is as before, or it was a
    directory of the list that held no regular file, and is gone. *)
Lemma foldl_try_rmdir_lookup (ds : list Path) (fs : fsys) (q : Path) :
  foldl try_rmdir fs ds !! q = fs !! q
  ∨ (foldl try_rmdir fs ds !! q = None ∧ q ∈ ds ∧ fs !! q = Some Dir
     ∧ holds_file fs q = false).
Proof.
  revert fs. induction ds as [|d ds IH]; intros fs; [by left|].
  simpl. destruct (IH (try_rmdir fs d)) as [Heq|(Hnone & Hin & Hdir & Hfile)].
  - rewrite Heq.
    destruct (try_rmdir_lookup fs d q) as [?|(Hq & -> & Hd & Hno)]; [by left|].
    right. repeat split; [done|by left|done|].
    by apply has_entries_false_holds_file.
  - right. repeat split; [done|by right|by eapply try_rmdir_Some|].
    by rewrite holds_file_try_rmdir in Hfile.
Qed.

Lemma insert_by_depth_perm (p : Path) (l : list Path) :
  insert_by_depth p l ≡ₚ p :: l.
Proof.
  induction l as [|q l IH]; simpl; [done|].
  destruct (length p <? length q)%nat; [|done].
  rewrite IH. apply Permutation_swap.
Qed.

Lemma sorted_deepest_first_perm (ps : list Path) : sorted_deepest_first ps ≡ₚ ps.
Proof.
  unfold sorted_deepest_first. induction ps as [|p ps IH]; simpl; [done|].
  by rewrite insert_by_depth_perm, IH.
Qed.

Lemma insert_by_depth_sorted (p : Path) (l : list Path) :
  StronglySorted deeper_or_level l →
  StronglySorted deeper_or_level (insert_by_depth p l).
Proof.
  induction 1 as [|q l Hl IH Hq]; simpl.
  { repeat constructor. }
  destruct (length p <? length q)%nat eqn:Hlt.
  - apply Nat.ltb_lt in Hlt. constructor; [done|].
    rewrite insert_by_depth_perm. constructor; [|done].
    unfold deeper_or_level. lia.
  - apply Nat.ltb_ge in Hlt. constructor; [by constructor|].
    constructor; [done|].
    eapply Forall_impl; [exact Hq|]. unfold deeper_or_level. intros; lia.
Qed.

Lemma sorted_deepest_first_sorted (ps : list Path) :
  StronglySorted deeper_or_level (sorted_deepest_first ps).
Proof.
  unfold sorted_deepest_first. induction ps as [|p ps IH]; simpl; [constructor|].
  by apply insert_by_depth_sorted.
Qed.

Lemma prefix_length_lt (d k : Path) : d ≠ k → d `prefix_of` k → length d < length k.
Proof.
  intros Hne [l ->]. rewrite length_app.
  destruct l; [by rewrite app_nil_r in Hne|]. simpl. lia.
Qed.

(** The first directory of a list sorted deepest first that has each
    directory below its members: if something lies below it, a regular
    file does. *)
Lemma head_with_entries_holds_file (fs : fsys) (d : Path) (ds : list Path) :
  Forall (deeper_or_level d) ds →
  (∀ k, d ≠ k → d `prefix_of` k → fs !! k = Some Dir →
        k ∈ d :: ds ∨ holds_file fs k = true) →
  FS.has_entries fs d = true → holds_file fs d = true.
Proof.
  intros Hdeep Hclosed Hhas. unfold FS.has_entries in Hhas.
  apply existsb_exists in Hhas as (k & Hk%list_elem_of_In%elem_of_keys & Hbelow).
  apply bool_decide_eq_true in Hbelow as [Hne Hpre].
  destruct Hk as [[c t|] Hk].
  - apply holds_file_true. exists k, c, t. split; [done|].
    destruct k; [|done]. by apply prefix_nil_inv in Hpre.
  - destruct (Hclosed k Hne Hpre Hk) as [Hin|Hfile].
    + exfalso. apply prefix_length_lt in Hpre; [|done].
      apply elem_of_cons in Hin as [->|Hin]; [done|].
      rewrite Forall_forall in Hdeep. apply Hdeep in Hin.
      unfold deeper_or_level in Hin. lia.
    + by apply (holds_file_mono fs d k).
Qed.

(** A run of [rmdir]s, deepest first, over directories that come with the
    directories below them, removes each one that holds no regular file. *)
Lemma foldl_try_rmdir_removes (ds : list Path) (fs : fsys) (q : Path) :
  StronglySorted deeper_or_level ds →
  NoDup ds →
  (∀ d, d ∈ ds → fs !! d = Some Dir) →
  (∀ d k, d ∈ ds → d ≠ k → d `prefix_of` k → fs !! k = Some Dir →
          k ∈ ds ∨ holds_file fs k = true) →
  q ∈ ds → holds_file fs q = false →
  foldl try_rmdir fs ds !! q = None.
Proof.
  intros Hsorted. revert fs.
  induction Hsorted as [|d ds Hsorted IH Hdeep];
    intros fs Hnodup Hdirs Hclosed Hq Hfile.
  { by apply elem_of_nil in Hq. }
  apply NoDup_cons in Hnodup as [Hd Hnodup]. simpl.
  assert (Hhead : FS.has_entries fs d = true → holds_file fs d = true).
  { apply (head_with_entries_holds_file fs d ds); [done|].
    intros k ???. apply (Hclosed d k); [by left|done..]. }
  apply elem_of_cons in Hq as [->|Hq].
  - apply foldl_try_rmdir_None.
    destruct (try_rmdir_lookup fs d d) as [Heq|(Hnone & _)]; [|done].
    exfalso. unfold try_rmdir, FS.rmdir in Heq.
    rewrite (Hdirs d) in Heq by by left.
    destruct (FS.has_entries fs d) eqn:Hhas.
    + rewrite Hhead in Hfile; done.
    + by rewrite lookup_delete_eq in Heq.
  - apply IH; [done| | |done|by rewrite holds_file_try_rmdir].
    + intros d' Hd'.
      destruct (try_rmdir_lookup fs d d') as [->|(_ & -> & _)]; [|done].
      apply Hdirs. by right.
    + intros d' k Hd' Hne Hpre Hk. rewrite holds_file_try_rmdir.
      pose proof (try_rmdir_Some _ _ _ _ Hk) as Hk0.
      destruct (Hclosed d' k) as [Hin|?]; [by right|done..| |by right].
      apply elem_of_cons in Hin as [->|Hin]; [|by left].
      right. apply Hhead.
      destruct (FS.has_entries fs d) eqn:Hhas; [done|]. exfalso.
      unfold try_rmdir, FS.rmdir in Hk. rewrite Hk0, Hhas in Hk.
      by rewrite lookup_delete_eq in Hk.
Qed.

(** The directories [prune_empty_dirs] goes through. *)
Lemma elem_of_pruned_dirs (fs : fsys) (root d : Path) :
  d ∈ sorted_deepest_first (List.filter (FS.is_dir fs) (FS.rglob fs root))
  ↔ fs !! d = Some Dir ∧ root ≠ d ∧ root `prefix_of` d.
Proof.
  rewrite sorted_deepest_first_perm, elem_of_bool_filter, elem_of_rglob.
  unfold FS.is_dir. split.
  - intros ((_ & Hne & Hpre) & Hdir). repeat split; [|done..].
    destruct d as [|s d]; [by apply prefix_nil_inv in Hpre|]. simpl in Hdir.
    by destruct (fs !! (s :: d)) as [[]|].
  - intros (Hd & Hne & Hpre). repeat split; [by eexists|done..|].
    destruct d as [|s d]; [done|]. simpl. by rewrite Hd.
Qed.

(** Without [keep_empty], a directory strictly below [root] below which no
    regular file lies is removed. *)
Lemma prune_empty_dirs_removes (fs : fsys) (root q : Path) :
  fs !! q = Some Dir → root ≠ q → root `prefix_of` q → holds_file fs q = false →
  prune_empty_dirs fs root false !! q = None.
Proof.
  intros Hq Hne Hpre Hfile. unfold prune_empty_dirs.
  apply foldl_try_rmdir_removes; [| | | |by apply elem_of_pruned_dirs|done].
  - apply sorted_deepest_first_sorted.
  - rewrite sorted_deepest_first_perm. apply NoDup_bool_filter, NoDup_rglob.
  - by intros d (? & _)%elem_of_pruned_dirs.
  - intros d k (_ & Hd_ne & Hd_pre)%elem_of_pruned_dirs Hk_ne Hk_pre Hk.
    left. apply elem_of_pruned_dirs. repeat split; [done| |by etrans].
    intros ->. apply Hd_ne. by apply (anti_symm prefix).
Qed.

(** Pruning changes an entry only by removing it, and then the entry was a
    directory strictly below [root] that held no regular file. *)
Lemma prune_empty_dirs_lookup (fs : fsys) (root q : Path) (keep : bool) :
  prune_empty_dirs fs root keep !! q = fs !! q
  ∨ (prune_empty_dirs fs root keep !! q = None ∧ fs !! q = Some Dir
     ∧ root ≠ q ∧ root `prefix_of` q ∧ holds_file fs q = false).
Proof.
  unfold prune_empty_dirs. destruct keep; [by left|].
  match goal with |- context [foldl try_rmdir fs ?ds] =>
    destruct (foldl_try_rmdir_lookup ds fs q)
      as [?|(? & (? & ? & ?)%elem_of_pruned_dirs & _ & ?)] end; [by left|by right].
Qed.

Lemma holds_file_prune_empty_dirs (fs : fsys) (root q : Path) (keep : bool) :
  holds_file (prune_empty_dirs fs root keep) q = holds_file fs q.
Proof.
  apply eq_true_iff_eq. rewrite !holds_file_true.
  by setoid_rewrite prune_empty_dirs_file.
Qed.

(** X9: with [keep_empty] set [prune_empty_dirs] does nothing; without it,
    the entries it removes are exactly the directories strictly below
    [root] below which no regular file lies (so a directory that holds
    only empty directories goes with them), and every other entry stays
    as it is. *)
Theorem prune_empty_dirs_removes_the_fileless_dirs (fs : fsys) (root q : Path) :
  prune_empty_dirs fs root true = fs
  ∧ (prune_empty_dirs fs root false !! q = None
     ↔ fs !! q = None
       ∨ (fs !! q = Some Dir ∧ root ≠ q ∧ root `prefix_of` q
          ∧ holds_file fs q = false))
  ∧ (∀ n, prune_empty_dirs fs root false !! q = Some n → fs !! q = Some n).
Proof.
  split; [done|].
  pose proof (prune_empty_dirs_lookup fs root q false) as Hframe.
  split; [split|].
  - intros Hnone. destruct Hframe as [Heq|(_ & ?)]; [|by right].
    left. by rewrite <- Heq.
  - intros [Hq|(Hq & Hne & Hpre & Hfile)]; [|by apply prune_empty_dirs_removes].
    destruct Hframe as [Heq|(? & _)]; [|done]. by rewrite Heq.
  - intros n Hn. destruct Hframe as [Heq|(Hnone & _)]; congruence.
Qed.

(** X16: a pass that returns and was not told to keep empty folders
    leaves, strictly below the source, no directory without a regular
    file somewhere below it; this holds in a dry run as well, where the
    pass is to change nothing. *)
Theorem pass_leaves_no_fileless_directory (config : Config) (now : Z)
    (fs fs' : fsys) (r : nat * nat) (out : list event) (q : Path) :
  keep_empty config = false →
  organize_pass config now fs = (Ok r, out, fs') →
  fs' !! q = Some Dir → source config ≠ q → source config `prefix_of` q →
  holds_file fs' q = true.
Proof.
  intros Hkeep Hpass Hq Hne Hpre. unfold organize_pass in Hpass.
  destruct (FS.mkdir_parents fs (destination config)) as [fs1|e]; [|done].
  destruct (load_index fs1 _) as [idx|e]; [|done].
  unfold organize_pass_from in Hpass.
  destruct (organize_files _ _ _) as [tl [fs2 idx2]].
  destruct (save_index fs2 _ _ _ _) as [fs3|e]; [|done].
  injection Hpass as _ _ <-. rewrite Hkeep in *.
  rewrite holds_file_prune_empty_dirs.
  destruct (prune_empty_dirs_lookup fs3 (source config) q false)
    as [Heq|(Hnone & _)]; [|congruence].
  rewrite Heq in Hq. destruct (holds_file fs3 q) eqn:Hfile; [done|].
  rewrite (prune_empty_dirs_removes fs3 (source config) q) in Heq by done.
  congruence.
Qed.

End Prune.

(* ===================================================================== *)
(** ** The index file: written and read back; what ends a pass *)
(* ===================================================================== *)

Section IndexFile.
Context `{PyLib}.

(** X10: in a dry run [save_index] does nothing.  In a real run it raises
    exactly when the place of the index file is taken by a directory or
    its parent is not a directory; otherwise it writes the text of
    [json.dumps] at that place, with the time of the write, and touches no
    other entry, and [load_index] on the result returns what [json.loads]
    makes of that text (the empty dictionary if it rejects it). *)
Theorem saved_index_is_loaded_back (fs : fsys) (index_path : Path) (index : json)
    (now : Z) :
  save_index fs index_path index true now = Ok fs
  ∧ ((∃ e, save_index fs index_path index false now = Raise e)
     ↔ FS.node_at fs index_path = Some Dir
       ∨ FS.is_dir fs (PyPath.parent index_path) = false)
  ∧ ∀ fs', save_index fs index_path index false now = Ok fs' →
      FS.node_at fs' index_path = Some (File (json_dumps index) now)
      ∧ (∀ q, q ≠ index_path → fs' !! q = fs !! q)
      ∧ load_index fs' index_path
        = Ok (default (JObject []) (json_loads (json_dumps index))).
Proof.
  split; [done|]. unfold save_index, FS.write_text. split.
  - destruct (FS.node_at fs index_path) as [[c t|]|] eqn:Hnode;
      destruct (FS.is_dir fs (PyPath.parent index_path)) eqn:Hdir;
      (split; [first [by intros [e ?] | intros _; first [by left|by right]]
              |first [by intros [?|?] | intros _; by eexists]]).
  - intros fs' Hsave.
    assert (index_path ≠ [] ∧ fs' = <[index_path := File (json_dumps index) now]> fs)
      as [Hne ->].
    { destruct index_path as [|s p]; [done|]. split; [done|].
      destruct (FS.node_at fs (s :: p)) as [[c t|]|];
        destruct (FS.is_dir fs (PyPath.parent (s :: p))); by inversion Hsave. }
    assert (Hnode : FS.node_at (<[index_path := File (json_dumps index) now]> fs)
                      index_path = Some (File (json_dumps index) now)).
    { rewrite node_at_insert by done. by rewrite decide_True. }
    split; [done|]. split.
    + intros q Hq. by rewrite lookup_insert_ne.
    + unfold load_index, FS.exists_, FS.read_text. rewrite Hnode. cbn [negb].
      rewrite json_dumps_valid. by destruct (json_loads (json_dumps index)).
Qed.





End IndexFile.

(* ===================================================================== *)
(** ** Runs of [main]: one pass and watch mode *)
(* ===================================================================== *)

Section Runs.
Context `{PyLib}.

Lemma well_formedb_true (fs : fsys) : well_formedb fs = true → well_formed fs.
Proof.
  unfold well_formedb. rewrite forallb_forall. intros Hall p n Hp.
  specialize (Hall p). rewrite <- list_elem_of_In, elem_of_keys in Hall.
  assert (Hin : is_Some (fs !! p)) by by eexists.
  apply Hall in Hin as [Hne Hdir]%andb_true_iff.
  split; [|done]. apply negb_true_iff in Hne. by apply bool_decide_eq_false in Hne.
Qed.

Lemma watch_loop_well_formed (config : Config) (ticks : list Z) (fs : fsys)
    (cycles : list (nat * nat)) (out : list event) :
  well_formed fs → well_formed (outcome_fs (watch_loop config ticks fs cycles out)).
Proof.
  revert fs cycles out.
  induction ticks as [|now ticks IH]; intros fs cycles out Hwf; [done|].
  simpl. destruct (organize_pass config now fs) as [[[[m d]|e] o] fs'] eqn:Hpass.
  - apply IH. by eapply well_formed_organize_pass.
  - simpl. by eapply well_formed_organize_pass.
Qed.

(** X12: whatever the arguments, the mode and the number of cycles, and
    however the passes end, [main] leaves the filesystem a tree: every
    entry still lies in a directory (nothing is moved to a place whose
    directory is missing, and no directory is removed from under an
    entry). *)
Theorem main_keeps_the_tree (args : Args) (ticks : list Z) (fs : fsys) :
  well_formed fs → well_formed (outcome_fs (main args ticks fs)).
Proof.
  intros Hwf. unfold main.
  destruct (negb _ || negb _); [done|].
  destruct (bool_decide _); [done|].
  destruct (arg_watch args); [by apply watch_loop_well_formed|].
  destruct (organize_pass _ _ fs) as [[[[m d]|e] o] fs'] eqn:Hpass;
    cbn [outcome_fs]; by eapply well_formed_organize_pass.
Qed.

(** A pass keeps a content at its place or moves it below the destination,
    and never to the place of the index file. *)
Lemma organize_pass_keeps_content (config : Config) (now : Z) (fs : fsys)
    (q q0 : Path) (c : string) (t : Z) :
  q0 ≠ index_path_of config →
  FS.node_at fs q = Some (File c t) →
  q = q0 ∨ (destination config `prefix_of` q ∧ q ≠ index_path_of config) →
  ∃ q', FS.node_at (organize_pass config now fs).2 q' = Some (File c t)
        ∧ (q' = q0 ∨ (destination config `prefix_of` q' ∧ q' ≠ index_path_of config)).
Proof.
  intros Hq0 Hnode Hq. unfold organize_pass.
  destruct (FS.mkdir_parents fs (destination config)) as [fs1|e] eqn:Hmk;
    [|by exists q].
  assert (Hnode1 : FS.node_at fs1 q = Some (File c t))
    by by eapply mkdir_parents_preserves.
  destruct (load_index fs1 _) as [idx|e]; [|by exists q].
  unfold organize_pass_from. fold (index_path_of config) (candidates_of config fs1).
  destruct (organize_files_keeps_content config (candidates_of config fs1)
              fs1 idx q q0 c t) as (q' & Hend & Hq'); [|done..|].
  { intros f Hf.
    by apply elem_of_list_candidate_files in Hf as (_ & _ & _ & _ & ?). }
  destruct (organize_files _ _ _) as [tl [fs2 idx2]]. cbn [fst snd] in Hend.
  assert (Hq'_idx : q' ≠ index_path_of config) by (destruct Hq' as [->|[_ ?]]; done).
  exists q'. split; [|done].
  destruct (save_index fs2 _ _ _ _) as [fs3|e] eqn:Hsave; [|done].
  cbn [snd]. by apply (pass_tail_file _ _ _ _ _ _ _ _ Hsave Hq'_idx).
Qed.

Lemma watch_loop_keeps_content (config : Config) (ticks : list Z) (fs : fsys)
    (cycles : list (nat * nat)) (out : list event) (q q0 : Path) (c : string) (t : Z) :
  q0 ≠ index_path_of config →
  FS.node_at fs q = Some (File c t) →
  q = q0 ∨ (destination config `prefix_of` q ∧ q ≠ index_path_of config) →
  ∃ q', FS.node_at (outcome_fs (watch_loop config ticks fs cycles out)) q'
          = Some (File c t)
        ∧ (q' = q0 ∨ destination config `prefix_of` q').
Proof.
  intros Hq0. revert fs cycles out q.
  induction ticks as [|now ticks IH]; intros fs cycles out q Hnode Hq.
  { exists q. split; [done|]. destruct Hq as [?|[? _]]; [by left|by right]. }
  destruct (organize_pass_keeps_content config now fs q q0 c t Hq0 Hnode Hq)
    as (q1 & Hnode1 & Hq1).
  simpl. destruct (organize_pass config now fs) as [[[[m d]|e] o] fs'] eqn:Hpass.
  - by apply (IH _ _ _ q1).
  - exists q1. split; [done|]. destruct Hq1 as [?|[? _]]; [by left|by right].
Qed.

(** X13: whatever the arguments, the mode and the number of cycles, and
    however the passes end, [main] loses no content: the content and
    modification time of every regular file other than the index file are
    afterwards found at the file's place or below the destination. *)
Theorem main_never_loses_content (args : Args) (ticks : list Z) (fs : fsys)
    (q : Path) (c : string) (t : Z) :
  FS.node_at fs q = Some (File c t) →
  q ≠ arg_destination args // INDEX_FILENAME →
  ∃ q', FS.node_at (outcome_fs (main args ticks fs)) q' = Some (File c t)
        ∧ (q' = q ∨ arg_destination args `prefix_of` q').
Proof.
  intros Hnode Hidx. unfold main.
  set (config := {| source := PyPath.resolve (arg_source args);
                    destination := PyPath.resolve (arg_destination args);
                    dry_run := arg_dry_run args;
                    recursive := negb (arg_non_recursive args);
                    keep_empty := arg_keep_empty args;
                    sort_mode := arg_sort_mode args |}).
  destruct (negb _ || negb _); [by exists q; split; [|left]|].
  destruct (bool_decide _); [by exists q; split; [|left]|].
  destruct (arg_watch args).
  - apply (watch_loop_keeps_content config _ _ _ _ q); [done..|by left].
  - destruct (organize_pass_keeps_content config (hd 0%Z ticks) fs q q c t)
      as (q' & Hend & Hq'); [done..|by left|].
    exists q'. split.
    + by destruct (organize_pass config _ fs) as [[[[m d]|e] o] fs'].
    + destruct Hq' as [?|[? _]]; [by left|by right].
Qed.

(** What [save_index] leaves when it returns. *)
Lemma save_index_Ok (fs fs' : fsys) (index_path : Path) (index : json)
    (dry : bool) (now : Z) :
  save_index fs index_path index dry now = Ok fs' →
  if dry then fs' = fs
  else index_path ≠ []
       ∧ FS.is_dir fs (PyPath.parent index_path) = true
       ∧ fs' = <[index_path := File (json_dumps index) now]> fs.
Proof.
  unfold save_index, FS.write_text. destruct dry; [by intros [= <-]|].
  destruct index_path as [|s p]; [done|]. intros Hsave. split; [done|].
  destruct (FS.node_at fs (s :: p)) as [[c t|]|];
    destruct (FS.is_dir fs (PyPath.parent (s :: p))); by inversion Hsave.
Qed.

(** The steps of a pass that returned. *)
Lemma organize_pass_Ok (config : Config) (now : Z) (fs fs' : fsys) r out :
  organize_pass config now fs = (Ok r, out, fs') →
  ∃ fs1 idx tl fs2 idx2 fs3,
    FS.mkdir_parents fs (destination config) = Ok fs1
    ∧ load_index fs1 (index_path_of config) = Ok idx
    ∧ organize_files config (candidates_of config fs1) (fs1, idx) = (tl, (fs2, idx2))
    ∧ save_index fs2 (index_path_of config) idx2 (dry_run config) now = Ok fs3
    ∧ fs' = prune_empty_dirs fs3 (source config) (keep_empty config).
Proof.
  unfold organize_pass. fold (index_path_of config).
  destruct (FS.mkdir_parents fs (destination config)) as [fs1|e] eqn:Hmk; [|done].
  destruct (load_index fs1 _) as [idx|e] eqn:Hload; [|done].
  unfold organize_pass_from. fold (index_path_of config) (candidates_of config fs1).
  destruct (organize_files _ _ _) as [tl [fs2 idx2]] eqn:Hloop.
  destruct (save_index fs2 _ _ _ _) as [fs3|e] eqn:Hsave; [|done].
  intros [= <- <- <-]. by exists fs1, idx, tl, fs2, idx2, fs3.
Qed.





(** X15: a real pass that returns leaves the destination a directory and,
    in it, the index file: a regular file written in this pass, whose
    text is the text of [json.dumps], so that the next pass reads it
    without an error. *)
Theorem real_pass_leaves_the_index_file (config : Config) (now : Z)
    (fs fs' : fsys) (r : nat * nat) (out : list event) :
  dry_run config = false →
  organize_pass config now fs = (Ok r, out, fs') →
  FS.is_dir fs' (destination config) = true
  ∧ ∃ index,
      FS.node_at fs' (index_path_of config) = Some (File (json_dumps index) now)
      ∧ load_index fs' (index_path_of config)
        = Ok (default (JObject []) (json_loads (json_dumps index))).
Proof.
  intros Hdry
    (fs1 & idx & tl & fs2 & idx2 & fs3 & Hmk & Hload & Hloop & Hsave & ->)
    %organize_pass_Ok.
  apply save_index_Ok in Hsave. rewrite Hdry in Hsave.
  destruct Hsave as (Hne & Hdest & ->).
  unfold index_path_of in Hdest. rewrite parent_div in Hdest.
  set (fs3 := <[index_path_of config := File (json_dumps idx2) now]> fs2).
  assert (Hfile3 : FS.node_at fs3 (index_path_of config)
                   = Some (File (json_dumps idx2) now)).
  { unfold fs3. rewrite node_at_insert by done. by rewrite decide_True. }
  assert (Hfile : FS.node_at (prune_empty_dirs fs3 (source config) (keep_empty config))
                    (index_path_of config) = Some (File (json_dumps idx2) now))
    by by apply prune_empty_dirs_file.
  split.
  - apply is_dir_node_at. apply is_dir_node_at in Hdest.
    destruct (destination config) as [|s dest] eqn:Hd; [done|].
    assert (Hdir3 : fs3 !! (s :: dest) = Some Dir).
    { unfold fs3. rewrite lookup_insert_ne; [done|].
      intros Heq. apply (f_equal length) in Heq. unfold index_path_of in Heq.
      rewrite length_div, Hd in Heq. simpl in Heq. lia. }
    simpl.
    destruct (prune_empty_dirs_lookup fs3 (source config) (s :: dest)
                (keep_empty config)) as [->|(_ & _ & _ & _ & Hno)]; [done|].
    exfalso. apply not_true_iff_false in Hno. apply Hno.
    apply holds_file_true. exists (index_path_of config), (json_dumps idx2), now.
    split; [|done]. unfold index_path_of. rewrite Hd. by apply prefix_app_r.
  - exists idx2. split; [done|].
    unfold load_index, FS.exists_, FS.read_text. rewrite Hfile. cbn [negb].
    rewrite json_dumps_valid. by destruct (json_loads (json_dumps idx2)).
Qed.

End Runs.

(* ===================================================================== *)
(** ** Renaming on a collision: what the new name keeps *)
(* ===================================================================== *)

Section Renaming.
Context `{PyLib}.

Lemma string_app_assoc (a b c : string) : (a +:+ b) +:+ c = a +:+ b +:+ c.
Proof. induction a as [|x a IH]; simpl; [done|]. by rewrite IH. Qed.

Lemma rsplit_dot_tail (s a b : string) :
  PyStr.rsplit_dot s = Some (a, b) → PyStr.rsplit_dot b = Some ("", b).
Proof.
  revert a. induction s as [|c s IH]; intros a; simpl; [done|].
  destruct (PyStr.rsplit_dot s) as [[a' b']|] eqn:Hs.
  - intros [= _ <-]. by apply (IH a').
  - destruct (Ascii.eqb c ".") eqn:Hc; [|done]. intros [= _ <-].
    simpl. by rewrite Hs, Hc.
Qed.

Lemma rsplit_dot_prepend (x s a b : string) :
  PyStr.rsplit_dot s = Some (a, b) →
  PyStr.rsplit_dot (x +:+ s) = Some (x +:+ a, b).
Proof. intros Hs. induction x as [|c x IH]; simpl; [done|]. by rewrite IH. Qed.

(** A name with an extension keeps it when the counter is put before it. *)
Lemma suffix_candidate (target : Path) (i : nat) :
  PyPath.suffix target ≠ "" →
  PyPath.suffix (candidate target i) = PyPath.suffix target.
Proof.
  intros Hext. unfold PyPath.suffix at 1. unfold candidate. rewrite name_div.
  revert Hext. unfold PyPath.stem, PyPath.suffix.
  destruct (PyStr.rsplit_dot (PyPath.name target)) as [[a b]|] eqn:Hsplit; [|done].
  destruct (negb (a =? "")%string && (1 <? String.length b)%nat) eqn:Hcond; [|done].
  intros _. apply andb_true_iff in Hcond as [Ha Hb].
  rewrite <- !string_app_assoc.
  rewrite (rsplit_dot_prepend _ b "" b) by by eapply rsplit_dot_tail.
  rewrite Hb, andb_true_r.
  destruct a as [|c a]; [done|]. reflexivity.
Qed.

Lemma lower_app (a b : string) :
  PyStr.lower (a +:+ b) = PyStr.lower a +:+ PyStr.lower b.
Proof. induction a as [|c a IH]; simpl; [done|]. by rewrite IH. Qed.

Lemma close_paren_tail (x a b : string) :
  x +:+ ")" = a +:+ b → b ≠ "" → ∃ y, b = y +:+ ")".
Proof.
  revert x. induction a as [|c a IH]; intros x; simpl.
  { intros <- _. by exists x. }
  destruct x as [|d x]; simpl.
  - intros [= _ Hab] Hb. destruct a; [simpl in Hab; congruence|done].
  - intros [= _ Hab]. by apply (IH x).
Qed.

Lemma close_paren_last (z : string) :
  String.get (String.length (z +:+ ")") - 1) (z +:+ ")") = Some ")"%char.
Proof.
  induction z as [|c z IH]; [done|].
  simpl. rewrite string_app_length in *. simpl in *.
  replace (String.length z + 1 - 0) with (S (String.length z)) by lia.
  by replace (String.length z + 1 - 1) with (String.length z) in IH by lia.
Qed.

(** No extension of the table ends with a closing parenthesis. *)
Lemma close_paren_unlisted (z category : string) (exts : list string) :
  (category, exts) ∈ EXTENSION_MAP → z +:+ ")" ∉ exts.
Proof.
  intros Hin Hext. pose proof (close_paren_last z) as Hget.
  revert Hext Hget. generalize (z +:+ ")"). intros e Hext Hget.
  unfold EXTENSION_MAP in Hin.
  repeat (apply elem_of_cons in Hin as [[= -> ->]|Hin];
          [repeat (apply elem_of_cons in Hext as [->|Hext]; [by vm_compute in Hget|]);
           by apply elem_of_nil in Hext|]).
  by apply elem_of_nil in Hin.
Qed.

Lemma no_extension_unlisted (category : string) (exts : list string) :
  (category, exts) ∈ EXTENSION_MAP → "" ∉ exts.
Proof.
  intros Hin Hext. unfold EXTENSION_MAP in Hin.
  repeat (apply elem_of_cons in Hin as [[= -> ->]|Hin];
          [repeat (apply elem_of_cons in Hext as [?|Hext]; [done|]);
           by apply elem_of_nil in Hext|]).
  by apply elem_of_nil in Hin.
Qed.

(** The name tried at any round falls in the category of the target. *)
Lemma classify_file_candidate (target : Path) (i : nat) :
  classify_file (candidate target i) = classify_file target.
Proof.
  destruct (decide (PyPath.suffix target = "")) as [Hnone|Hext]; last first.
  { unfold classify_file. by rewrite suffix_candidate. }
  transitivity "other"; [|unfold classify_file; by rewrite Hnone].
  apply classify_file_unlisted. intros category exts Hin.
  unfold candidate, PyPath.suffix at 1. rewrite name_div, Hnone.
  set (new := PyPath.stem target +:+ " (" +:+ pretty i +:+ ")" +:+ "").
  assert (Hnew : new = (PyPath.stem target +:+ " (" +:+ pretty i) +:+ ")").
  { unfold new. by rewrite string_app_empty_r, !string_app_assoc. }
  destruct (PyStr.rsplit_dot new) as [[a b]|] eqn:Hsplit;
    [|by eapply no_extension_unlisted].
  destruct (negb (a =? "")%string && (1 <? String.length b)%nat) eqn:Hcond;
    [|by eapply no_extension_unlisted].
  apply rsplit_dot_app in Hsplit. rewrite Hnew in Hsplit.
  apply close_paren_tail in Hsplit as [y ->].
  - rewrite lower_app. by apply (close_paren_unlisted _ category).
  - apply andb_true_iff in Hcond as [_ Hb]. by destruct b.
Qed.

(** The name [safe_name] returns is the target or one of the names tried. *)
Lemma safe_name_cases (fs : fsys) (target : Path) :
  safe_name fs target = target ∨ ∃ n, safe_name fs target = candidate target n.
Proof.
  pose proof (safe_name_eq fs target) as Heq. unfold safe_name_fuel in Heq.
  destruct (negb (FS.exists_ fs target)).
  - left. by injection Heq.
  - right. apply safe_name_loop_Some in Heq as (n & _ & -> & _). by exists n.
Qed.

(** X17: the name [safe_name] returns, with or without a counter, lies in
    the directory of the target and falls in the same category; when the
    target has an extension, the name has the same one. *)
Theorem safe_name_keeps_directory_and_category (fs : fsys) (target : Path) :
  PyPath.parent (safe_name fs target) = PyPath.parent target
  ∧ classify_file (safe_name fs target) = classify_file target
  ∧ (PyPath.suffix target ≠ "" →
     PyPath.suffix (safe_name fs target) = PyPath.suffix target).
Proof.
  split; [apply parent_safe_name|].
  destruct (safe_name_cases fs target) as [->|[n ->]]; [done|].
  split; [apply classify_file_candidate|apply suffix_candidate].
Qed.

End Renaming.

(* ===================================================================== *)
(** ** Duplicates within one pass *)
(* ===================================================================== *)

Section Duplicates.
Context `{PyLib}.

Lemma has_slash_app (a b : string) :
  has_slash (a +:+ b) = has_slash a || has_slash b.
Proof. induction a as [|c a IH]; simpl; [done|]. by rewrite IH, orb_assoc. Qed.

Lemma split_slash_no_slash (s : string) :
  has_slash s = false → PyStr.split_slash s = [s].
Proof.
  induction s as [|c s IH]; simpl; [done|].
  intros [Hc Hs]%orb_false_iff. by rewrite Hc, IH.
Qed.

Lemma split_slash_app_slash (s rest : string) :
  has_slash s = false →
  PyStr.split_slash (s +:+ String "/" rest) = s :: PyStr.split_slash rest.
Proof.
  induction s as [|c s IH]; simpl; [done|].
  intros [Hc Hs]%orb_false_iff. by rewrite Hc, IH.
Qed.

Lemma split_slash_join (p : Path) :
  p ≠ [] → forallb proper_name p = true →
  PyStr.split_slash (PyStr.join "/" p) = p.
Proof.
  induction p as [|x p IH]; [done|]. intros _.
  cbn [forallb]. intros [[_ Hx%negb_true_iff]%andb_true_iff Hp]%andb_true_iff.
  destruct p as [|y p]; [by apply split_slash_no_slash|].
  change (PyStr.join "/" (x :: y :: p))
    with (x +:+ String "/" (PyStr.join "/" (y :: p))).
  rewrite split_slash_app_slash by done. by rewrite IH.
Qed.

(** [Path(str(p))] is [p] when the segments of [p] are proper names. *)
Lemma of_str_str (p : Path) :
  forallb proper_name p = true → PyPath.of_str (PyPath.str p) = p.
Proof.
  intros Hp. unfold PyPath.of_str, PyPath.str. simpl.
  destruct p as [|x p]; [done|].
  rewrite split_slash_join by done.
  induction (x :: p) as [|y l IH]; [done|].
  cbn [forallb] in Hp. apply andb_true_iff in Hp as [Hy Hl].
  simpl. apply andb_true_iff in Hy as [-> _]. simpl. by rewrite IH.
Qed.

Lemma pretty_N_go_no_slash (x : N) (s : string) :
  has_slash s = false → has_slash (pretty_N_go x s) = false.
Proof.
  revert s. induction (N.lt_wf_0 x) as [x _ IH]; intros s Hs.
  assert (x = 0 ∨ 0 < x)%N as [->|Hx] by lia.
  - by rewrite pretty_N_go_0.
  - rewrite pretty_N_go_step by done. apply IH.
    { by apply N.div_lt. }
    simpl. rewrite Hs. unfold pretty_N_char. by repeat case_match.
Qed.

Lemma pretty_nat_no_slash (n : nat) : has_slash (pretty n) = false.
Proof.
  unfold pretty, pretty_nat, pretty, pretty_N.
  case_decide; [done|]. by apply pretty_N_go_no_slash.
Qed.

Lemma proper_name_long (s : string) :
  2 ≤ String.length s → has_slash s = false → proper_name s = true.
Proof.
  intros Hlen Hs. unfold proper_name. rewrite Hs.
  destruct s as [|a [|b s]]; simpl in *; [lia..|].
  by destruct (Ascii.eqb a ".").
Qed.

Lemma proper_name_candidate (target : Path) (n : nat) :
  proper_name (PyPath.name target) = true →
  proper_name (PyPath.name (candidate target n)) = true.
Proof.
  intros [_ Hname%negb_true_iff]%andb_true_iff.
  rewrite <- stem_suffix, has_slash_app in Hname.
  apply orb_false_iff in Hname as [Hstem Hsuffix].
  unfold candidate. rewrite name_div. apply proper_name_long.
  - rewrite !string_app_length. simpl. lia.
  - rewrite !has_slash_app, Hstem, Hsuffix, pretty_nat_no_slash. done.
Qed.

Lemma proper_name_classify_file (path : Path) :
  proper_name (classify_file path) = true.
Proof.
  unfold classify_file, EXTENSION_MAP.
  repeat match goal with
         | |- context [mem ?x ?l] => destruct (mem x l); [reflexivity|]
         end.
  reflexivity.
Qed.

Lemma proper_name_source_bucket (path : Path) :
  proper_name (source_bucket path) = true.
Proof.
  unfold source_bucket.
  repeat match goal with
         | |- context [if ?b then _ else _] => destruct b; [reflexivity|]
         end.
  reflexivity.
Qed.

Lemma proper_name_bucket_for (config : Config) (fs : fsys) (path : Path)
    (bucket : string) :
  (∀ t, proper_name (strftime_Y_m t) = true) →
  bucket_for config fs path = Ok bucket → proper_name bucket = true.
Proof.
  intros Hmonth. unfold bucket_for, month_bucket.
  destruct (String.eqb _ _); [intros [= <-]; apply proper_name_source_bucket|].
  destruct (FS.node_at fs path) as [[c t|]|]; [|done..].
  intros [= <-]. apply Hmonth.
Qed.

Lemma forallb_proper_div (p : Path) (s : string) :
  forallb proper_name p = true → proper_name s = true →
  forallb proper_name (p // s) = true.
Proof.
  intros Hp Hs. unfold PyPath.div. rewrite forallb_app, Hp. simpl. by rewrite Hs.
Qed.

(** The segments of the name [safe_name] returns are proper when those of
    the target are. *)
Lemma forallb_proper_safe_name (fs : fsys) (dir : Path) (name : string) :
  forallb proper_name dir = true → proper_name name = true →
  forallb proper_name (safe_name fs (dir // name)) = true.
Proof.
  intros Hdir Hname.
  destruct (safe_name_cases fs (dir // name)) as [->|[n ->]].
  { by apply forallb_proper_div. }
  pose proof (proper_name_candidate (dir // name) n) as Hcand.
  rewrite name_div in Hcand. specialize (Hcand Hname).
  unfold candidate in *. rewrite parent_div. rewrite name_div in Hcand.
  by apply forallb_proper_div.
Qed.

(** A real run of [organize_file] that is reported as a move: what it
    leaves in the index and in the filesystem. *)
Lemma organize_file_moved (path : Path) (config : Config) (fs fs' : fsys)
    (idx idx' : json) r (target : string) :
  dry_run config = false →
  organize_file path config (fs, idx) = (r, (fs', idx')) →
  event_of path r = MOVED path target →
  ∃ kv c t bucket,
    idx = JObject kv
    ∧ FS.node_at fs path = Some (File c t)
    ∧ bucket_for config fs path = Ok bucket
    ∧ let final := safe_name fs (destination config // classify_file path
                                 // bucket // PyPath.name path) in
      idx' = JObject (dict_set kv (sha256_hexdigest c) (JString (PyPath.str final)))
      ∧ FS.node_at fs' final = Some (File c t).
Proof.
  intros Hdry. rewrite organize_file_unfold, Hdry.
  assert (Hno : ∀ (e : exn) (s s' : fsys * json),
            (Raise e, s) = (r, s') → event_of path r = MOVED path target → False).
  { intros e s s' [= <- _] Hev. simpl in Hev. discriminate. }
  destruct (bucket_for config fs path) as [bucket|e];
    [|intros Heq Hev; by destruct (Hno _ _ _ Heq Hev)].
  unfold sha256sum.
  destruct (FS.node_at fs path) as [[c t|]|] eqn:Hnode;
    [|intros Heq Hev; by destruct (Hno _ _ _ Heq Hev)..].
  destruct idx as [| | | | | |kv];
    try (intros Heq Hev; by destruct (Hno _ _ _ Heq Hev)).
  destruct (known_path_of _) as [known|e];
    [|intros Heq Hev; by destruct (Hno _ _ _ Heq Hev)].
  destruct (is_duplicate_of fs known path).
  - destruct (move_file _ _ _ _) as [[p|e] s'] eqn:Hmove;
      [|intros Heq Hev; by destruct (Hno _ _ _ Heq Hev)].
    intros [= <- _] Hev. simpl in Hev. discriminate.
  - destruct (move_file _ _ _ _) as [[p|e] [fs2 idx2]] eqn:Hmove;
      [|intros Heq Hev; by destruct (Hno _ _ _ Heq Hev)].
    intros [= <- <- <-] _.
    destruct (move_file_real_no_overwrite _ _ _ _ _ _ _ _ Hnode Hmove)
      as (-> & _ & Hat & _).
    by exists kv, c, t, bucket.
Qed.

(** Once the index names an existing file below the destination for a
    digest, a real run of [organize_file] on a file outside the destination
    keeps it so, and does not report a file of that digest as moved. *)
Lemma indexed_step (config : Config) (digest : string) (final g : Path)
    (fs fs' : fsys) (idx idx' : json) r :
  indexed config digest final (fs, idx) →
  ¬ destination config `prefix_of` g →
  organize_file g config (fs, idx) = (r, (fs', idx')) →
  indexed config digest final (fs', idx')
  ∧ ∀ c t target, FS.node_at fs g = Some (File c t) →
                  sha256_hexdigest c = digest →
                  event_of g r ≠ MOVED g target.
Proof.
  intros (kv & c0 & t0 & Hidx & Hget & Hfinal & Hpre & Hstr) Hout Hrun.
  cbn [fst snd] in *. subst idx.
  assert (Hne : final ≠ g) by (by intros ->).
  assert (Hnot : ∀ c t target, FS.node_at fs g = Some (File c t) →
                   sha256_hexdigest c = digest → event_of g r ≠ MOVED g target).
  { intros c t target Hg Hd. revert Hrun. rewrite organize_file_unfold.
    destruct (bucket_for config fs g) as [bucket|e]; [|by intros [= <- _ _]].
    unfold sha256sum. rewrite Hg, Hd, Hget.
    unfold known_path_of, truthy, PyPath.str at 1 2. cbn [String.append negb String.eqb].
    change (String "/" (PyStr.join "/" final)) with (PyPath.str final). rewrite Hstr.
    unfold is_duplicate_of, FS.exists_, PyPath.resolve. rewrite Hfinal.
    rewrite bool_decide_eq_false_2 by done. cbn [andb negb].
    destruct (move_file _ _ _ _) as [[p|e] s']; by intros [= <- _]. }
  split; [|done].
  assert (Hkeep : FS.node_at fs' final = Some (File c0 t0))
    by by eapply organize_file_keeps_others.
  destruct (organize_file_index _ _ _ _ _ _ _ Hrun)
    as [-> | (c & t & target & Hg & -> & ->)].
  { by exists kv, c0, t0. }
  eexists _, c0, t0. cbn [fst snd]. split; [done|]. split; [|done].
  rewrite dict_get_set_ne; [done|].
  intros Hd. by apply (Hnot c t target Hg Hd).
Qed.

(** The same along the loop of a pass. *)
Lemma organize_files_indexed (config : Config) (digest : string) (final : Path)
    (files : list Path) (s : fsys * json) :
  indexed config digest final s →
  NoDup files →
  (∀ g, g ∈ files → ¬ destination config `prefix_of` g) →
  indexed config digest final (organize_files config files s).2
  ∧ ∀ g target c t,
      MOVED g target ∈ printed (organize_files config files s).1 →
      FS.node_at s.1 g = Some (File c t) →
      sha256_hexdigest c ≠ digest.
Proof.
  revert s. induction files as [|f files IH]; intros [fs idx] Hidx Hnodup Hout.
  { split; [done|]. by intros g target c t ?%elem_of_nil. }
  apply NoDup_cons in Hnodup as [Hf Hnodup].
  rewrite organize_files_cons. cbv zeta. cbn [fst snd printed tally_app tally_of].
  destruct (organize_file f config (fs, idx)) as [r [fs1 idx1]] eqn:Hstep.
  cbn [fst snd].
  destruct (indexed_step _ _ _ _ _ _ _ _ _ Hidx (Hout f ltac:(by left)) Hstep)
    as [Hidx1 Hnot].
  destruct (IH (fs1, idx1) Hidx1 Hnodup) as [Hend Hrest].
  { intros g Hg. apply Hout. by right. }
  split; [done|]. intros g target c t Hin Hg Hd.
  apply elem_of_cons in Hin as [Heq|Hin].
  - assert (g = f) as ->.
    { apply (f_equal event_file) in Heq. simpl in Heq.
      destruct r as [[status tgt]|e]; simpl in Heq; [|done].
      by destruct (String.eqb status "duplicate"). }
    by apply (Hnot c t target Hg Hd).
  - apply (Hrest g target c t Hin); [|done]. cbn [fst].
    eapply organize_file_keeps_others; [done| |done].
    intros ->. apply Hf.
    pose proof (organize_files_counts config files (fs1, idx1)) as [Hfiles _].
    rewrite <- Hfiles. apply list_elem_of_fmap. by exists (MOVED f target).
Qed.

(** The line of a file in the output of the loop is the line of its round. *)
Lemma printed_of_file (config : Config) (l1 l2 : list Path) (f : Path)
    (s : fsys * json) (e : event) :
  NoDup (l1 ++ f :: l2) →
  e ∈ printed (organize_files config (l1 ++ f :: l2) s).1 →
  let s1 := (organize_files config l1 s).2 in
  let r := organize_file f config s1 in
  (event_file e ∈ l1 ∧ e ∈ printed (organize_files config l1 s).1)
  ∨ e = event_of f r.1
  ∨ (event_file e ∈ l2 ∧ e ∈ printed (organize_files config l2 r.2).1).
Proof.
  intros Hnodup. rewrite organize_files_app. cbv zeta.
  rewrite organize_files_cons. cbv zeta.
  cbn [fst snd printed tally_app tally_of].
  intros [Hin|[->|Hin]%elem_of_cons]%elem_of_app.
  - left. split; [|done].
    pose proof (organize_files_counts config l1 s) as [Hfiles _].
    rewrite <- Hfiles at 1. apply list_elem_of_fmap. by exists e.
  - right. by left.
  - right. right. split; [|done].
    match goal with _ : e ∈ printed (organize_files config l2 ?s2).1 |- _ =>
      pose proof (organize_files_counts config l2 s2) as [Hfiles _] end.
    rewrite <- Hfiles at 1. apply list_elem_of_fmap. by exists e.
Qed.

(** Of two files of one digest, the one that comes after a file reported
    as moved is not reported as moved. *)
Lemma moved_then_not_moved (config : Config) (fs1 : fsys) (idx : json)
    (l1 l2 : list Path) (f1 f2 : Path) (c1 c2 : string) (t1 t2 : Z)
    (target1 target2 : string) :
  dry_run config = false →
  forallb proper_name (destination config) = true →
  (∀ t, proper_name (strftime_Y_m t) = true) →
  proper_name (PyPath.name f1) = true →
  NoDup (l1 ++ f1 :: l2) →
  (∀ g, g ∈ l1 ++ f1 :: l2 → ¬ destination config `prefix_of` g) →
  f2 ∈ l2 →
  FS.node_at fs1 f1 = Some (File c1 t1) →
  FS.node_at fs1 f2 = Some (File c2 t2) →
  sha256_hexdigest c1 = sha256_hexdigest c2 →
  MOVED f1 target1 ∈ printed (organize_files config (l1 ++ f1 :: l2) (fs1, idx)).1 →
  MOVED f2 target2 ∉ printed (organize_files config (l1 ++ f1 :: l2) (fs1, idx)).1.
Proof.
  intros Hdry Hdest Hmonth Hname Hnodup Hout Hf2 Hnode1 Hnode2 Hdigest Hin1 Hin2.
  pose proof Hnodup as Hnodup'.
  apply NoDup_app in Hnodup' as (Hnodup1 & Hdisj & [Hf1 Hnodup2]%NoDup_cons).
  assert (Hf1_l1 : f1 ∉ l1) by (intros Hin; apply (Hdisj f1 Hin); by left).
  assert (Hf2_l1 : f2 ∉ l1) by (intros Hin; apply (Hdisj f2 Hin); by right).
  assert (Hne : f2 ≠ f1) by (by intros ->).
  apply printed_of_file in Hin1; [|done]. apply printed_of_file in Hin2; [|done].
  cbv zeta in *. cbn [event_file] in *.
  destruct (organize_files config l1 (fs1, idx)) as [tl1 [fs2 idx2]] eqn:Hloop1.
  cbn [fst snd] in *.
  assert (Hnode1' : FS.node_at fs2 f1 = Some (File c1 t1)).
  { pose proof (organize_files_keeps_others config l1 fs1 idx f1 _ Hf1_l1 Hnode1).
    by rewrite Hloop1 in *. }
  assert (Hnode2' : FS.node_at fs2 f2 = Some (File c2 t2)).
  { pose proof (organize_files_keeps_others config l1 fs1 idx f2 _ Hf2_l1 Hnode2).
    by rewrite Hloop1 in *. }
  destruct (organize_file f1 config (fs2, idx2)) as [r [fs3 idx3]] eqn:Hstep.
  cbn [fst snd] in *.
  destruct Hin1 as [[? _]|[Hev1|[? _]]]; [done| |done].
  destruct Hin2 as [[? _]|[Hev2|[_ Hin2]]]; [done| |].
  { apply (f_equal event_file) in Hev2. simpl in Hev2.
    destruct r as [[status tgt]|e]; simpl in Hev2;
      [destruct (String.eqb status "duplicate")|]; done. }
  destruct (organize_file_moved _ _ _ _ _ _ _ _ Hdry Hstep (eq_sym Hev1))
    as (kv & c & t & bucket & -> & Hnode & Hbucket & Hidx3 & Hfinal).
  rewrite Hnode1' in Hnode. injection Hnode as <- <-.
  set (final := safe_name fs2 (destination config // classify_file f1
                               // bucket // PyPath.name f1)) in *.
  assert (Hindexed : indexed config (sha256_hexdigest c1) final (fs3, idx3)).
  { exists (dict_set kv (sha256_hexdigest c1) (JString (PyPath.str final))), c1, t1.
    cbn [fst snd]. split; [done|]. split; [apply dict_get_set|].
    split; [done|]. split.
    - etrans; [|apply prefix_parent]. unfold final. rewrite parent_safe_name.
      rewrite parent_div. by do 2 apply prefix_div.
    - apply of_str_str. unfold final. apply forallb_proper_safe_name; [|done].
      apply forallb_proper_div;
        [|by apply (proper_name_bucket_for config fs2 f1)].
      apply forallb_proper_div; [done|apply proper_name_classify_file]. }
  destruct (organize_files_indexed config _ final l2 (fs3, idx3) Hindexed Hnodup2)
    as [_ Hrest].
  { intros g Hg. apply Hout. apply elem_of_app. right. by right. }
  apply (Hrest f2 target2 c2 t2 Hin2); [|done]. cbn [fst].
  by eapply organize_file_keeps_others.
Qed.

(** X18: in a real pass, of the files with one digest at most one is
    reported as moved: once a file is [MOVED], no other file with the same
    SHA-256 digest is (it is reported as a duplicate, or with an error).
    The names are taken to be proper names, so that the path the index
    records reads back as the path of the moved file. *)
Theorem real_pass_moves_one_file_per_digest (config : Config) (now : Z) (fs : fsys)
    (f1 f2 : Path) (c1 c2 : string) (t1 t2 : Z) (target1 target2 : string) :
  dry_run config = false →
  forallb proper_name (destination config) = true →
  (∀ t, proper_name (strftime_Y_m t) = true) →
  proper_name (PyPath.name f1) = true →
  proper_name (PyPath.name f2) = true →
  FS.node_at fs f1 = Some (File c1 t1) →
  FS.node_at fs f2 = Some (File c2 t2) →
  sha256_hexdigest c1 = sha256_hexdigest c2 →
  f1 ≠ f2 →
  MOVED f1 target1 ∈ (organize_pass config now fs).1.2 →
  MOVED f2 target2 ∉ (organize_pass config now fs).1.2.
Proof.
  intros Hdry Hdest Hmonth Hname1 Hname2 Hnode1 Hnode2 Hdigest Hne.
  unfold organize_pass.
  destruct (FS.mkdir_parents fs (destination config)) as [fs1|e] eqn:Hmk;
    [|by intros ?%elem_of_nil].
  destruct (load_index fs1 _) as [idx|e]; [|by intros ?%elem_of_nil].
  unfold organize_pass_from. fold (candidates_of config fs1).
  assert (Hout : (let '(t, (fs2, index')) :=
                    organize_files config (candidates_of config fs1) (fs1, idx) in
                  match save_index fs2 (destination config // INDEX_FILENAME) index'
                          (dry_run config) now with
                  | Raise e => (Raise e, printed t, fs2)
                  | Ok fs3 => (Ok (moved t, duplicates t), printed t,
                               prune_empty_dirs fs3 (source config) (keep_empty config))
                  end).1.2
                 = printed (organize_files config (candidates_of config fs1)
                              (fs1, idx)).1).
  { destruct (organize_files _ _ _) as [tl [fs2 idx2]].
    by destruct (save_index _ _ _ _ _). }
  rewrite Hout. clear Hout.
  pose proof (mkdir_parents_preserves _ _ _ _ _ Hmk Hnode1) as Hnode1'.
  pose proof (mkdir_parents_preserves _ _ _ _ _ Hmk Hnode2) as Hnode2'.
  pose proof (NoDup_list_candidate_files fs1 (source config) (destination config)
                (recursive config)) as Hnodup.
  fold (candidates_of config fs1) in Hnodup.
  assert (Hall : ∀ g, g ∈ candidates_of config fs1 →
                      ¬ destination config `prefix_of` g).
  { intros g Hg.
    by apply elem_of_list_candidate_files in Hg as (_ & _ & _ & _ & ?). }
  pose proof (organize_files_counts config (candidates_of config fs1) (fs1, idx))
    as [Hfiles _].
  intros Hin1 Hin2.
  assert (Hf1 : f1 ∈ candidates_of config fs1).
  { rewrite <- Hfiles. apply list_elem_of_fmap. by exists (MOVED f1 target1). }
  assert (Hf2 : f2 ∈ candidates_of config fs1).
  { rewrite <- Hfiles. apply list_elem_of_fmap. by exists (MOVED f2 target2). }
  clear Hfiles. revert Hnodup Hall Hin1 Hin2 Hf2.
  apply list_elem_of_split in Hf1 as (l1 & l2 & ->).
  intros Hnodup Hall Hin1 Hin2 [Hf2|[?|Hf2]%elem_of_cons]%elem_of_app; [|done|].
  - apply list_elem_of_split in Hf2 as (a & b & ->).
    rewrite <- app_assoc in *. cbn [app] in *.
    eapply (moved_then_not_moved config fs1 idx a (b ++ f1 :: l2) f2 f1);
      [done..| |exact Hnode2'|exact Hnode1'|done|exact Hin2|exact Hin1].
    apply elem_of_app. right. by left.
  - by eapply (moved_then_not_moved config fs1 idx l1 l2 f1 f2);
      [..|exact Hin1|exact Hin2].
Qed.

End Duplicates.

(* ===================================================================== *)
(** ** What a real pass prints is what it did *)
(* ===================================================================== *)

Section Reports.
Context `{PyLib}.

(** A real run of [organize_file] that returns: the place it reports is
    where the file now is. *)
Lemma organize_file_real_reports (path : Path) (config : Config) (fs fs' : fsys)
    (idx idx' : json) (status target : string) :
  dry_run config = false →
  organize_file path config (fs, idx) = (Ok (status, target), (fs', idx')) →
  ∃ c t final,
    target = PyPath.str final
    ∧ destination config `prefix_of` final
    ∧ final ≠ index_path_of config
    ∧ FS.node_at fs path = Some (File c t)
    ∧ FS.node_at fs' final = Some (File c t)
    ∧ FS.node_at fs' path = None.
Proof.
  intros Hdry. rewrite organize_file_unfold, Hdry.
  destruct (bucket_for config fs path) as [bucket|e]; [|done].
  unfold sha256sum.
  destruct (FS.node_at fs path) as [[c t|]|] eqn:Hnode; try done.
  destruct idx as [| | | | | |kv]; try done.
  destruct (known_path_of _) as [known|e]; [|done].
  assert (Hplace : ∀ dir fs2 s2,
    move_file path (destination config // dir // bucket // PyPath.name path) false
      (fs, JObject kv) = (Ok (safe_name fs (destination config // dir // bucket
                                            // PyPath.name path)), (fs2, s2)) →
    let final := safe_name fs (destination config // dir // bucket
                               // PyPath.name path) in
    destination config `prefix_of` final
    ∧ final ≠ index_path_of config
    ∧ FS.node_at fs2 final = Some (File c t)
    ∧ FS.node_at fs2 path = None).
  { intros dir fs2 s2 Hmove final.
    destruct (move_file_real_inv _ _ _ _ _ _ _ _ Hnode Hmove) as (_ & _ & Hat).
    cbn [fst] in Hat.
    assert (Hpre : destination config `prefix_of` final).
    { etrans; [|apply prefix_parent]. unfold final.
      rewrite parent_safe_name, parent_div. by do 2 apply prefix_div. }
    split; [done|]. split.
    { intros Heq. apply (f_equal length) in Heq. unfold final in Heq.
      rewrite <- (length_parent _ (safe_name_not_root fs _)) in Heq.
      rewrite parent_safe_name in Heq. unfold index_path_of in Heq.
      rewrite parent_div, !length_div in Heq. lia. }
    split.
    { rewrite Hat. by rewrite decide_True. }
    rewrite Hat. rewrite decide_False.
    { by rewrite decide_True. }
    intros Heq. pose proof (safe_name_free fs (destination config // dir // bucket
                                               // PyPath.name path)) as Hfree.
    rewrite <- Heq in Hfree. unfold FS.exists_ in Hfree. by rewrite Hnode in Hfree. }
  destruct (is_duplicate_of fs known path).
  - destruct (move_file _ _ _ _) as [[p|e] [fs2 idx2]] eqn:Hmove; [|done].
    intros [= <- <- <- <-].
    destruct (move_file_real_inv _ _ _ _ _ _ _ _ Hnode Hmove) as (-> & _ & _).
    destruct (Hplace _ _ _ Hmove) as (? & ? & ? & ?). by eexists c, t, _.
  - destruct (move_file _ _ _ _) as [[p|e] [fs2 idx2]] eqn:Hmove; [|done].
    intros [= <- <- <- <-].
    destruct (move_file_real_inv _ _ _ _ _ _ _ _ Hnode Hmove) as (-> & _ & _).
    destruct (Hplace _ _ _ Hmove) as (? & ? & ? & ?). by eexists c, t, _.
Qed.

(** However [organize_file] ends, a place that is free, and is neither
    below the destination nor above it, stays free. *)
Lemma organize_file_keeps_absent (path : Path) (config : Config) (fs fs' : fsys)
    (idx idx' : json) r (q : Path) :
  organize_file path config (fs, idx) = (r, (fs', idx')) →
  FS.node_at fs q = None →
  ¬ destination config `prefix_of` q → ¬ q `prefix_of` destination config →
  FS.node_at fs' q = None.
Proof.
  intros Hrun Hq Hbelow Habove. destruct r as [r|e]; last first.
  { by destruct (organize_file_Raise _ _ _ _ _ _ _ Hrun) as [-> _]. }
  destruct (dry_run config) eqn:Hdry.
  { by rewrite (organize_file_dry _ _ _ _ _ _ _ Hdry Hrun). }
  destruct (organize_file_real_Ok _ _ _ _ _ _ _ Hdry Hrun)
    as (c & t & dir & bucket & _ & _ & Hat).
  set (target := destination config // dir // bucket // PyPath.name path) in *.
  rewrite Hat. rewrite decide_False.
  - case_decide; [done|]. rewrite decide_False; [done|].
    intros [_ Hpre]%elem_of_prefixes. unfold target in Hpre. rewrite parent_div in Hpre.
    destruct (prefix_weak_total q (destination config)
                (destination config // dir // bucket)) as [?|?]; try done.
    by do 2 apply prefix_div.
  - intros ->. apply Hbelow. etrans; [|apply prefix_parent].
    rewrite parent_safe_name. unfold target. rewrite parent_div.
    by do 2 apply prefix_div.
Qed.

Lemma organize_files_keeps_absent (config : Config) (files : list Path)
    (fs : fsys) (idx : json) (q : Path) :
  FS.node_at fs q = None →
  ¬ destination config `prefix_of` q → ¬ q `prefix_of` destination config →
  FS.node_at (organize_files config files (fs, idx)).2.1 q = None.
Proof.
  intros Hq Hbelow Habove. revert fs idx Hq.
  induction files as [|f files IH]; intros fs idx Hq; [done|].
  rewrite organize_files_cons. cbv zeta. cbn [fst snd].
  destruct (organize_file f config (fs, idx)) as [r [fs1 idx1]] eqn:Hstep.
  cbn [fst snd]. apply IH. by eapply organize_file_keeps_absent.
Qed.

(** The same along the loop of a real pass: at its end, the file of every
    line that reports a place is at that place and no longer at its own. *)
Lemma organize_files_reports (config : Config) (files : list Path)
    (fs : fsys) (idx : json) (e : event) (target : string) :
  dry_run config = false →
  NoDup files →
  (∀ g, g ∈ files → ¬ destination config `prefix_of` g
                    ∧ ¬ g `prefix_of` destination config) →
  e ∈ printed (organize_files config files (fs, idx)).1 →
  event_target e = Some target →
  ∃ c t final,
    target = PyPath.str final
    ∧ destination config `prefix_of` final
    ∧ final ≠ index_path_of config
    ∧ FS.node_at fs (event_file e) = Some (File c t)
    ∧ FS.node_at (organize_files config files (fs, idx)).2.1 final = Some (File c t)
    ∧ FS.node_at (organize_files config files (fs, idx)).2.1 (event_file e) = None.
Proof.
  intros Hdry Hnodup Hout. revert fs idx.
  induction files as [|f files IH]; intros fs idx Hin Htarget.
  { by apply elem_of_nil in Hin. }
  apply NoDup_cons in Hnodup as [Hf Hnodup].
  assert (Hout' : ∀ g, g ∈ files → ¬ destination config `prefix_of` g
                                   ∧ ¬ g `prefix_of` destination config).
  { intros g Hg. apply Hout. by right. }
  destruct (Hout f) as [Hf_below Hf_above]; [by left|].
  revert Hin. rewrite organize_files_cons. cbv zeta.
  cbn [fst snd printed tally_app tally_of].
  destruct (organize_file f config (fs, idx)) as [r [fs1 idx1]] eqn:Hstep.
  cbn [fst snd]. intros [->|Hin]%elem_of_cons.
  - destruct r as [[status tgt]|exc]; [|done].
    assert (event_file (event_of f (Ok (status, tgt))) = f ∧ tgt = target) as [-> ->].
    { simpl in *. destruct (String.eqb status "duplicate"); simpl in *;
        by injection Htarget. }
    destruct (organize_file_real_reports _ _ _ _ _ _ _ _ Hdry Hstep)
      as (c & t & final & -> & Hpre & Hidx & Hnode & Hfinal & Hgone).
    exists c, t, final. repeat split; try done.
    + apply organize_files_keeps_others; [|done].
      intros Hin. by destruct (Hout' final Hin).
    + by apply organize_files_keeps_absent.
  - destruct (IH Hnodup Hout' fs1 idx1 Hin Htarget)
      as (c & t & final & -> & Hpre & Hidx & Hnode & Hfinal & Hgone).
    exists c, t, final. repeat split; try done.
    assert (Hg : event_file e ∈ files).
    { pose proof (organize_files_counts config files (fs1, idx1)) as [Hfiles _].
      rewrite <- Hfiles. apply list_elem_of_fmap. by exists e. }
    eapply organize_file_no_new_file; [done| |done].
    by destruct (Hout' _ Hg).
Qed.

(** X19: what a real pass prints is what it did: for every [MOVED] and
    every [DUPLICATE] line, the place printed is a path below the
    destination at which, when the pass ends (with its counts or with an
    exception), the content and modification time of the file are found,
    and nothing is left at the place of the file. *)
Theorem real_pass_does_what_it_prints (config : Config) (now : Z) (fs : fsys)
    (e : event) (target : string) :
  dry_run config = false →
  e ∈ (organize_pass config now fs).1.2 →
  event_target e = Some target →
  ∃ c t final,
    target = PyPath.str final
    ∧ destination config `prefix_of` final
    ∧ FS.node_at fs (event_file e) = Some (File c t)
    ∧ FS.node_at (organize_pass config now fs).2 final = Some (File c t)
    ∧ FS.node_at (organize_pass config now fs).2 (event_file e) = None.
Proof.
  intros Hdry. unfold organize_pass.
  destruct (FS.mkdir_parents fs (destination config)) as [fs1|exc] eqn:Hmk;
    [|by intros ?%elem_of_nil].
  destruct (load_index fs1 _) as [idx|exc]; [|by intros ?%elem_of_nil].
  unfold organize_pass_from. fold (candidates_of config fs1) (index_path_of config).
  pose proof (NoDup_list_candidate_files fs1 (source config) (destination config)
                (recursive config)) as Hnodup.
  fold (candidates_of config fs1) in Hnodup.
  assert (Hall : ∀ g, g ∈ candidates_of config fs1 →
                      ¬ destination config `prefix_of` g
                      ∧ ¬ g `prefix_of` destination config).
  { intros g Hg.
    apply elem_of_list_candidate_files in Hg as (_ & Hfile & _ & _ & Hbelow).
    split; [done|]. intros Habove.
    apply is_file_node_at in Hfile as (c & t & Hnode).
    assert (Hroot : g ≠ []) by (by intros ->).
    rewrite (mkdir_parents_node_at _ _ _ _ Hmk) in Hnode.
    rewrite decide_True in Hnode; [done|]. by apply elem_of_prefixes. }
  pose proof (organize_files_reports config (candidates_of config fs1) fs1 idx
                e target Hdry Hnodup Hall) as Hloop.
  pose proof (organize_files_counts config (candidates_of config fs1) (fs1, idx))
    as [Hfiles _].
  destruct (organize_files _ _ _) as [tl [fs2 idx2]]. cbn [fst snd] in *.
  assert (Hend : ∀ fs', (∀ q c t, q ≠ index_path_of config →
                           FS.node_at fs2 q = Some (File c t) →
                           FS.node_at fs' q = Some (File c t)) →
                        (∀ q, q ≠ index_path_of config → FS.node_at fs2 q = None →
                              FS.node_at fs' q = None) →
            e ∈ printed tl → event_target e = Some target →
            ∃ c t final,
              target = PyPath.str final
              ∧ destination config `prefix_of` final
              ∧ FS.node_at fs (event_file e) = Some (File c t)
              ∧ FS.node_at fs' final = Some (File c t)
              ∧ FS.node_at fs' (event_file e) = None).
  { intros fs' Hfile Hnone Hin Htarget.
    destruct (Hloop Hin Htarget)
      as (c & t & final & -> & Hpre & Hidx & Hnode & Hfinal & Hgone).
    exists c, t, final. repeat split; try done.
    - by apply (mkdir_parents_file _ _ _ _ _ _ Hmk).
    - by apply Hfile.
    - apply Hnone; [|done]. intros Heq.
      assert (Hg : event_file e ∈ candidates_of config fs1).
      { rewrite <- Hfiles. apply list_elem_of_fmap. by exists e. }
      destruct (Hall _ Hg) as [Hbelow _]. apply Hbelow. rewrite Heq.
      unfold index_path_of. by apply prefix_div. }
  destruct (save_index fs2 _ _ _ _) as [fs3|exc] eqn:Hsave; cbn [fst snd];
    [|by apply Hend].
  apply Hend.
  - intros q c t Hq Hnode. by apply (pass_tail_file _ _ _ _ _ _ _ _ Hsave Hq).
  - intros q Hq Hnode. apply save_index_Ok in Hsave. rewrite Hdry in Hsave.
    destruct Hsave as (Hne & _ & ->).
    assert (Hnone3 : FS.node_at (<[index_path_of config := File (json_dumps idx2) now]> fs2)
                       q = None).
    { rewrite node_at_insert by done. by rewrite decide_False. }
    destruct q as [|x q]; [done|]. simpl in *.
    destruct (prune_empty_dirs_lookup
                (<[index_path_of config := File (json_dumps idx2) now]> fs2)
                (source config) (x :: q) (keep_empty config)) as [->|[? _]]; done.
Qed.

End Reports.

(* ===================================================================== *)
(** ** Files out of reach *)
(* ===================================================================== *)

Section OutOfReach.
Context `{PyLib}.

(** A pass leaves alone a regular file that is a candidate on no
    filesystem. *)
Lemma organize_pass_keeps_never_candidate (config : Config) (now : Z) (fs : fsys)
    (q : Path) (c : string) (t : Z) :
  (∀ fs0, q ∉ candidates_of config fs0) →
  q ≠ index_path_of config →
  FS.node_at fs q = Some (File c t) →
  FS.node_at (organize_pass config now fs).2 q = Some (File c t).
Proof.
  intros Hnever Hidx Hnode. unfold organize_pass.
  destruct (FS.mkdir_parents fs (destination config)) as [fs1|e] eqn:Hmk; [|done].
  assert (Hnode1 : FS.node_at fs1 q = Some (File c t))
    by by eapply mkdir_parents_preserves.
  destruct (load_index fs1 _) as [idx|e]; [|done].
  unfold organize_pass_from. fold (index_path_of config) (candidates_of config fs1).
  pose proof (organize_files_keeps_others config _ fs1 idx q _ (Hnever fs1) Hnode1)
    as Hloop.
  destruct (organize_files _ _ _) as [tl [fs2 idx2]]. cbn [fst snd] in Hloop.
  destruct (save_index fs2 _ _ _ _) as [fs3|e] eqn:Hsave; [|done].
  cbn [snd]. by apply (pass_tail_file _ _ _ _ _ _ _ _ Hsave Hidx).
Qed.

Lemma watch_loop_keeps_never_candidate (config : Config) (ticks : list Z)
    (fs : fsys) (cycles : list (nat * nat)) (out : list event)
    (q : Path) (c : string) (t : Z) :
  (∀ fs0, q ∉ candidates_of config fs0) →
  q ≠ index_path_of config →
  FS.node_at fs q = Some (File c t) →
  FS.node_at (outcome_fs (watch_loop config ticks fs cycles out)) q = Some (File c t).
Proof.
  intros Hnever Hidx. revert fs cycles out.
  induction ticks as [|now ticks IH]; intros fs cycles out Hnode; [done|].
  pose proof (organize_pass_keeps_never_candidate config now fs q c t
                Hnever Hidx Hnode) as Hpass.
  simpl. destruct (organize_pass config now fs) as [[[[m d]|e] o] fs']; [|done].
  by apply IH.
Qed.

(** X20: whatever the mode and the number of cycles, and however the
    passes end, [main] leaves where it is, with its content and
    modification time, every regular file out of its reach: a file
    outside the source, a file below the destination (but for the index
    file), a file named as the index file, a file with a part of its path
    that is an ignored directory name, and, with [--non-recursive], a file
    that is not directly in the source. *)
Theorem main_leaves_files_out_of_reach (args : Args) (ticks : list Z) (fs : fsys)
    (q : Path) (c : string) (t : Z) :
  FS.node_at fs q = Some (File c t) →
  q ≠ arg_destination args // INDEX_FILENAME →
  ¬ arg_source args `prefix_of` q
  ∨ arg_destination args `prefix_of` q
  ∨ PyPath.name q = INDEX_FILENAME
  ∨ (∃ part, part ∈ q ∧ PyStr.lower part ∈ IGNORED_DIRS)
  ∨ (arg_non_recursive args = true ∧ length q ≠ S (length (arg_source args))) →
  FS.node_at (outcome_fs (main args ticks fs)) q = Some (File c t).
Proof.
  intros Hnode Hidx Hreach. unfold main.
  set (config := {| source := PyPath.resolve (arg_source args);
                    destination := PyPath.resolve (arg_destination args);
                    dry_run := arg_dry_run args;
                    recursive := negb (arg_non_recursive args);
                    keep_empty := arg_keep_empty args;
                    sort_mode := arg_sort_mode args |}).
  assert (Hnever : ∀ fs0, q ∉ candidates_of config fs0).
  { intros fs0 Hq. unfold candidates_of in Hq.
    apply elem_of_list_candidate_files
      in Hq as (Hscan & _ & Hparts & Hname & Hbelow).
    cbn [source destination recursive config] in *. unfold PyPath.resolve in *.
    destruct Hreach as [Hsrc|[Hdst|[Hidxname|[(part & Hpart & Hign)|[Hnonrec Hlen]]]]].
    - destruct (negb (arg_non_recursive args));
        [apply elem_of_rglob in Hscan|apply elem_of_glob in Hscan];
        by destruct Hscan as (_ & _ & ?).
    - done.
    - apply String.eqb_neq in Hname. done.
    - apply not_true_iff_false in Hparts. apply Hparts.
      apply existsb_exists. exists part. split; [by apply list_elem_of_In|].
      by apply bool_decide_eq_true.
    - rewrite Hnonrec in Hscan. cbn [negb] in Hscan.
      apply elem_of_glob in Hscan as (_ & ? & _). done. }
  destruct (negb _ || negb _); [done|].
  destruct (bool_decide _); [done|].
  destruct (arg_watch args).
  - by apply watch_loop_keeps_never_candidate.
  - pose proof (organize_pass_keeps_never_candidate config (hd 0%Z ticks) fs q c t
                  Hnever Hidx Hnode) as Hpass.
    by destruct (organize_pass config _ fs) as [[[[m d]|e] o] fs'].
Qed.

End OutOfReach.

(* ===================================================================== *)
(** ** The further statements on examples *)
(* ===================================================================== *)

(** An equation between closed terms, by evaluating its two sides. *)
Ltac by_evaluation :=
  match goal with |- ?a = ?b => exact (@eq_refl _ b <: a = b) end.

(** A decidable statement about closed terms that evaluates to false. *)
Ltac refuted_by_evaluation :=
  match goal with
  | |- ¬ ?P =>
      let H := fresh in
      assert (H : bool_decide P = false) by (vm_compute; reflexivity);
      exact (proj1 (bool_decide_eq_false P) H)
  end.


Lemma pass_leaves_other_files_alone_witness :
  FS.node_at (@organize_pass demo_lib (demo_config false) 1 demo_known).2
    ["out"; "documents"; "manual_or_unknown"; "first.txt"]
  = Some (File "x" 0).
Proof.
  apply (@pass_leaves_other_files_alone demo_lib (demo_config false) 1 demo_known
           ["out"; "documents"; "manual_or_unknown"; "first.txt"] "x" 0%Z).
  - vm_compute. reflexivity.
  - refuted_by_evaluation.
  - refuted_by_evaluation.
Defined.

Lemma pass_writes_files_only_in_destination_witness :
  FS.node_at demo_blocked ["in"; "a.txt"] = Some (File "x" 0).
Proof.
  apply (@pass_writes_files_only_in_destination demo_lib (demo_config false) 1
           demo_blocked ["in"; "a.txt"] "x" 0%Z).
  - refuted_by_evaluation.
  - vm_compute. reflexivity.
Defined.

Lemma pass_never_loses_content_witness :
  ∃ q', FS.node_at (@organize_pass demo_lib (demo_config false) 1 demo_twins).2 q'
          = Some (File "same bytes" 10)
        ∧ (q' = ["in"; "a.txt"] ∨ destination (demo_config false) `prefix_of` q').
Proof.
  apply (@pass_never_loses_content demo_lib (demo_config false) 1 demo_twins
           ["in"; "a.txt"] "same bytes" 10%Z).
  - vm_compute. reflexivity.
  - refuted_by_evaluation.
Defined.

Lemma main_dry_run_keeps_files_witness :
  FS.node_at (outcome_fs (@main demo_lib (demo_args true true) [1; 2; 3]%Z demo_twins))
    ["in"; "a.txt"] = Some (File "same bytes" 10)
  ↔ FS.node_at demo_twins ["in"; "a.txt"] = Some (File "same bytes" 10).
Proof.
  apply (@main_dry_run_keeps_files demo_lib (demo_args true true) [1; 2; 3]%Z
           demo_twins ["in"; "a.txt"] "same bytes" 10%Z).
  reflexivity.
Defined.

Lemma main_keeps_the_tree_witness :
  well_formed (outcome_fs (@main demo_lib (demo_args true false) [1; 2]%Z demo_twins)).
Proof.
  apply (@main_keeps_the_tree demo_lib (demo_args true false) [1; 2]%Z demo_twins).
  apply well_formedb_true. vm_compute. reflexivity.
Defined.

Lemma main_never_loses_content_witness :
  ∃ q', FS.node_at
          (outcome_fs (@main demo_lib (demo_args true false) [1; 2]%Z demo_twins)) q'
          = Some (File "same bytes" 10)
        ∧ (q' = ["in"; "a.txt"] ∨ arg_destination (demo_args true false) `prefix_of` q').
Proof.
  apply (@main_never_loses_content demo_lib (demo_args true false) [1; 2]%Z demo_twins
           ["in"; "a.txt"] "same bytes" 10%Z).
  - vm_compute. reflexivity.
  - refuted_by_evaluation.
Defined.


Lemma real_pass_leaves_the_index_file_witness :
  let fs' := (@organize_pass demo_lib (demo_config false) 1 demo_twins).2 in
  FS.is_dir fs' (destination (demo_config false)) = true
  ∧ ∃ index,
      FS.node_at fs' (index_path_of (demo_config false))
      = Some (File (@json_dumps demo_lib index) 1)
      ∧ @load_index demo_lib fs' (index_path_of (demo_config false))
        = Ok (default (JObject []) (@json_loads demo_lib (@json_dumps demo_lib index))).
Proof.
  apply (@real_pass_leaves_the_index_file demo_lib (demo_config false) 1 demo_twins
           (@organize_pass demo_lib (demo_config false) 1 demo_twins).2 (1, 1)
           [MOVED ["in"; "b.txt"] "/out/documents/manual_or_unknown/b.txt";
            DUPLICATE ["in"; "a.txt"] "/out/duplicates/manual_or_unknown/a.txt"]).
  - reflexivity.
  - by_evaluation.
Defined.

Lemma pass_leaves_no_fileless_directory_witness :
  holds_file (@organize_pass demo_lib demo_nested_config 1 demo_empty_dir).2
    ["in"; "Organized"] = true.
Proof.
  apply (@pass_leaves_no_fileless_directory demo_lib demo_nested_config 1
           demo_empty_dir
           (@organize_pass demo_lib demo_nested_config 1 demo_empty_dir).2 (1, 0)
           [MOVED ["in"; "a.txt"] "/in/Organized/documents/manual_or_unknown/a.txt"]).
  - reflexivity.
  - by_evaluation.
  - vm_compute. reflexivity.
  - refuted_by_evaluation.
  - by exists ["Organized"].
Defined.

Lemma real_pass_moves_one_file_per_digest_witness :
  MOVED ["in"; "a.txt"] "/out/documents/manual_or_unknown/a.txt"
  ∉ (@organize_pass demo_lib (demo_config false) 1 demo_twins).1.2.
Proof.
  apply (@real_pass_moves_one_file_per_digest demo_lib (demo_config false) 1
           demo_twins ["in"; "b.txt"] ["in"; "a.txt"] "same bytes" "same bytes"
           20%Z 10%Z "/out/documents/manual_or_unknown/b.txt"
           "/out/documents/manual_or_unknown/a.txt").
  - reflexivity.
  - reflexivity.
  - intros t. reflexivity.
  - reflexivity.
  - reflexivity.
  - vm_compute. reflexivity.
  - vm_compute. reflexivity.
  - reflexivity.
  - refuted_by_evaluation.
  - apply list_elem_of_In. vm_compute. left. reflexivity.
Defined.

Lemma real_pass_does_what_it_prints_witness :
  ∃ c t final,
    "/out/duplicates/manual_or_unknown/a.txt" = PyPath.str final
    ∧ destination (demo_config false) `prefix_of` final
    ∧ FS.node_at demo_twins ["in"; "a.txt"] = Some (File c t)
    ∧ FS.node_at (@organize_pass demo_lib (demo_config false) 1 demo_twins).2 final
      = Some (File c t)
    ∧ FS.node_at (@organize_pass demo_lib (demo_config false) 1 demo_twins).2
        ["in"; "a.txt"] = None.
Proof.
  apply (@real_pass_does_what_it_prints demo_lib (demo_config false) 1 demo_twins
           (DUPLICATE ["in"; "a.txt"] "/out/duplicates/manual_or_unknown/a.txt")
           "/out/duplicates/manual_or_unknown/a.txt").
  - reflexivity.
  - apply list_elem_of_In. vm_compute. right. left. reflexivity.
  - reflexivity.
Defined.

Lemma main_leaves_files_out_of_reach_witness :
  FS.node_at (outcome_fs (@main demo_lib (demo_args true false) [1; 2]%Z demo_known))
    ["out"; "documents"; "manual_or_unknown"; "first.txt"]
  = Some (File "x" 0).
Proof.
  apply (@main_leaves_files_out_of_reach demo_lib (demo_args true false) [1; 2]%Z
           demo_known ["out"; "documents"; "manual_or_unknown"; "first.txt"] "x" 0%Z).
  - reflexivity.
  - refuted_by_evaluation.
  - right. left. by exists ["documents"; "manual_or_unknown"; "first.txt"].
Defined.
